(** * TelegramBot_Tienda: the inventory store and the conversation flow

    A shallow embedding of [src/database.py] (class [Database], the SQLite
    table [productos]), of [src/bot.py] (the JSON document
    [inventario.json] and the handlers of the [ConversationHandler]) and of
    the settings [src/config.py] reads from the environment, followed by the
    properties of the specification and further properties of the code.

    Conventions of the embedding.
    - Python [float] and SQLite [REAL] are one arithmetic, given by the class
      [Aritmetica].  Two instances are provided: [aritmetica_Q], exact
      rationals, in which the algebraic properties are proved, and
      [aritmetica_binary64], the IEEE binary64 numbers the program really
      computes with, on which the code is evaluated at concrete inputs.
    - Python [int] is [Z]; [str] is [string] (the UTF-8 bytes of the text).
      Where an [int] meets a [float] it is first converted by [r_de_entero].
    - A Python [dict] whose order matters is an association list in insertion
      order; a [dict] used as a struct is a record whose optional keys are
      [option] fields.
    - [datetime.now()] is an argument of the operation that reads the clock.
    - The builtins [int(text)] and [float(text)] are the fields of the class
      [Builtins]; a handler that raises is a result carrying the exception.
    - I/O failures of the file system and of SQLite (the [except Exception]
      branches of [Database]) are outside the embedding. *)

From Stdlib Require Import ZArith QArith Qround Lia Lqa Bool.
From Stdlib Require Import String Ascii List Permutation Sorted.
From Stdlib Require Import Floats.PrimFloat Floats.FloatOps Floats.SpecFloat.
Import ListNotations.

Set Implicit Arguments.
Open Scope string_scope.
Open Scope list_scope.
Set Warnings "-inexact-float".

(* ------------------------------------------------------------------ *)
(** ** Arithmetic *)

(** The operations the two source files apply to prices and quantities. *)
Class Aritmetica (R : Type) := {
  r_de_entero : Z -> R;            (* int -> float, REAL affinity *)
  r_un_decimo : R;                 (* the literal 0.1 / 0.10 *)
  r_suma : R -> R -> R;
  r_mult : R -> R -> R;
  r_div : R -> R -> R;             (* true division, divisor not zero *)
  r_leb : R -> R -> bool;
  r_ltb : R -> R -> bool;
  r_es_cero : R -> bool;           (* x == 0.0 *)
  r_redondear : nat -> R -> R      (* round(x, n) and the format .nf *)
}.

Definition r_cero {R} `{Aritmetica R} : R := r_de_entero 0.

(** Rounding of a rational to the nearest integer, ties to the even one:
    the rule of Python's [round] and of the [.nf] formats. *)
Definition medio_par (x : Q) : Z :=
  let f := Qfloor x in
  match Qcompare (x - inject_Z f) (1 # 2) with
  | Lt => f
  | Gt => (f + 1)%Z
  | Eq => if Z.even f then f else (f + 1)%Z
  end.

Definition Q_redondear (n : nat) (x : Q) : Q :=
  inject_Z (medio_par (x * inject_Z (10 ^ Z.of_nat n))) / inject_Z (10 ^ Z.of_nat n).

Definition Q_es_cero (x : Q) : bool := Qeq_bool x 0.

Definition Q_ltb (x y : Q) : bool := negb (Qle_bool y x).

#[export] Instance aritmetica_Q : Aritmetica Q := {
  r_de_entero := inject_Z;
  r_un_decimo := 1 # 10;
  r_suma := Qplus;
  r_mult := Qmult;
  r_div := Qdiv;
  r_leb := Qle_bool;
  r_ltb := Q_ltb;
  r_es_cero := Q_es_cero;
  r_redondear := Q_redondear
}.

(** The exact value of a finite binary64 number. *)
Definition f64_a_Q (x : float) : option Q :=
  match Prim2SF x with
  | S754_zero _ => Some 0
  | S754_finite s m e =>
      let v := if (0 <=? e)%Z
               then inject_Z (Z.pos m * 2 ^ e)
               else inject_Z (Z.pos m) / inject_Z (2 ^ (- e)) in
      Some (if s then - v else v)
  | _ => None
  end.

(** The binary64 number nearest to an integer (ties to even). *)
Definition f64_de_entero (k : Z) : float :=
  SF2Prim (binary_normalize prec emax k 0 false).

(** [round(x, n)]: the decimal with [n] places nearest to the exact value of
    [x], ties to even, converted back to the nearest binary64 number;
    infinities and NaN are returned unchanged. *)
Definition f64_redondear (n : nat) (x : float) : float :=
  match f64_a_Q x with
  | Some q =>
      PrimFloat.div (f64_de_entero (medio_par (q * inject_Z (10 ^ Z.of_nat n))))
                    (f64_de_entero (10 ^ Z.of_nat n))
  | None => x
  end.

#[export] Instance aritmetica_binary64 : Aritmetica float := {
  r_de_entero := f64_de_entero;
  r_un_decimo := 0.1%float;
  r_suma := PrimFloat.add;
  r_mult := PrimFloat.mul;
  r_div := PrimFloat.div;
  r_leb := PrimFloat.leb;
  r_ltb := PrimFloat.ltb;
  r_es_cero := fun x => PrimFloat.eqb x 0%float;
  r_redondear := f64_redondear
}.

(** Python's [sum]: the elements are added to 0 from left to right.  (From
    CPython 3.12 on, a sum of floats also carries a compensation term; in
    exact arithmetic, and on the two-element binary64 sum evaluated below,
    the result is the same.) *)
Definition py_sum {R} `{Aritmetica R} (xs : list R) : R :=
  fold_left r_suma xs r_cero.

(* ------------------------------------------------------------------ *)
(** ** Ordering *)

(** [ORDER BY] over the rows of a scan: a stable insertion sort, so rows
    with equal keys stay in scan order. *)
Fixpoint insertar_ordenado {A} (leb : A -> A -> bool) (x : A) (l : list A) : list A :=
  match l with
  | [] => [x]
  | y :: l' => if leb x y then x :: l else y :: insertar_ordenado leb x l'
  end.

Fixpoint ordenar_por {A} (leb : A -> A -> bool) (l : list A) : list A :=
  match l with
  | [] => []
  | x :: l' => insertar_ordenado leb x (ordenar_por leb l')
  end.


(** The key of [ORDER BY e ASC] when [e] may be NULL: NULL sorts first. *)
Definition clave_leb {R} `{Aritmetica R} (a b : option R) : bool :=
  match a, b with
  | None, _ => true
  | Some _, None => false
  | Some x, Some y => r_leb x y
  end.

(* ------------------------------------------------------------------ *)
(** ** database.py *)

Module Database.

Section ConAritmetica.
Context {R : Type} `{Aritmetica R}.

(** A row of the table [productos]. *)
Record Fila := {
  id : Z;
  nombre : string;
  cantidad : R;
  cantidad_inicial : R;
  precio : R;
  categoria : string;
  fecha_creacion : string;
  fecha_actualizacion : string
}.

(** The database file: the rows in rowid order and the AUTOINCREMENT
    counter of the table. *)
Record Tabla := {
  filas : list Fila;
  secuencia : Z
}.

(** [init_db] on a new file. *)
Definition init_db : Tabla := {| filas := []; secuencia := 0 |}.

Inductive Mensaje :=
| ProductoAgregado (n : string)
| ProductoYaExiste (n : string)
| ProductoNoExiste (n : string)
| ActualizadoCantidadPrecio (n : string) (c p : R)
| CantidadActualizada (n : string) (c : R)
| PrecioActualizado (n : string) (p : R)
| DebeProporcionar
| ProductoEliminado (n : string).

(** The dictionary every mutating method returns. *)
Record Resultado := {
  success : bool;
  message : Mensaje;
  producto_id : option Z
}.

(** [SELECT * FROM productos WHERE nombre = ?] followed by [fetchone]. *)
Definition seleccionar (n : string) (t : Tabla) : option Fila :=
  find (fun f => String.eqb (nombre f) n) (filas t).

Definition insertar_producto (ahora : string) (n : string) (c p : R)
    (cat : string) (t : Tabla) : Resultado * Tabla :=
  match seleccionar n t with
  | Some _ =>
      (* UNIQUE constraint on nombre: sqlite3.IntegrityError *)
      ({| success := false; message := ProductoYaExiste n; producto_id := None |}, t)
  | None =>
      let i := (secuencia t + 1)%Z in
      let f := {| id := i; nombre := n; cantidad := c; cantidad_inicial := c;
                  precio := p; categoria := cat;
                  fecha_creacion := ahora; fecha_actualizacion := ahora |} in
      ({| success := true; message := ProductoAgregado n; producto_id := Some i |},
       {| filas := filas t ++ [f]; secuencia := i |})
  end.

(** [UPDATE productos SET ... WHERE nombre = ?]. *)
Definition modificar (n : string) (g : Fila -> Fila) (t : Tabla) : Tabla :=
  {| filas := map (fun f => if String.eqb (nombre f) n then g f else f) (filas t);
     secuencia := secuencia t |}.

Definition poner_cantidad (c : R) (ahora : string) (f : Fila) : Fila :=
  {| id := id f; nombre := nombre f; cantidad := c;
     cantidad_inicial := cantidad_inicial f; precio := precio f;
     categoria := categoria f; fecha_creacion := fecha_creacion f;
     fecha_actualizacion := ahora |}.

Definition poner_precio (p : R) (ahora : string) (f : Fila) : Fila :=
  {| id := id f; nombre := nombre f; cantidad := cantidad f;
     cantidad_inicial := cantidad_inicial f; precio := p;
     categoria := categoria f; fecha_creacion := fecha_creacion f;
     fecha_actualizacion := ahora |}.

Definition actualizar_producto (ahora : string) (n : string)
    (c p : option R) (t : Tabla) : Resultado * Tabla :=
  match seleccionar n t with
  | None =>
      ({| success := false; message := ProductoNoExiste n; producto_id := None |}, t)
  | Some _ =>
      match c, p with
      | Some c', Some p' =>
          ({| success := true; message := ActualizadoCantidadPrecio n c' p';
              producto_id := None |},
           modificar n (fun f => poner_precio p' ahora (poner_cantidad c' ahora f)) t)
      | Some c', None =>
          ({| success := true; message := CantidadActualizada n c';
              producto_id := None |},
           modificar n (poner_cantidad c' ahora) t)
      | None, Some p' =>
          ({| success := true; message := PrecioActualizado n p';
              producto_id := None |},
           modificar n (poner_precio p' ahora) t)
      | None, None =>
          ({| success := false; message := DebeProporcionar; producto_id := None |}, t)
      end
  end.

Definition borrar_producto (n : string) (t : Tabla) : Resultado * Tabla :=
  match seleccionar n t with
  | None =>
      ({| success := false; message := ProductoNoExiste n; producto_id := None |}, t)
  | Some _ =>
      ({| success := true; message := ProductoEliminado n; producto_id := None |},
       {| filas := filter (fun f => negb (String.eqb (nombre f) n)) (filas t);
          secuencia := secuencia t |})
  end.

(** [WHERE cantidad <= (cantidad_inicial * 0.1)]. *)
Definition es_bajo (f : Fila) : bool :=
  r_leb (cantidad f) (r_mult (cantidad_inicial f) r_un_decimo).

(** [cantidad / cantidad_inicial] in SQL: NULL when the divisor is zero. *)
Definition razon_sql (f : Fila) : option R :=
  if r_es_cero (cantidad_inicial f) then None
  else Some (r_div (cantidad f) (cantidad_inicial f)).

(** An entry of the list [obtener_productos_bajos] returns. *)
Record Bajo := {
  b_nombre : string;
  b_cantidad : R;
  b_cantidad_inicial : R;
  b_precio : R;
  b_categoria : string;
  b_porcentaje : R
}.

Definition bajo_de_fila (f : Fila) : Bajo :=
  let porcentaje :=
    if r_ltb r_cero (cantidad_inicial f)
    then r_mult (r_div (cantidad f) (cantidad_inicial f)) (r_de_entero 100)
    else r_cero in
  {| b_nombre := nombre f; b_cantidad := cantidad f;
     b_cantidad_inicial := cantidad_inicial f; b_precio := precio f;
     b_categoria := categoria f; b_porcentaje := r_redondear 2 porcentaje |}.

(** The rows the query of [obtener_productos_bajos] fetches, in order. *)
Definition filas_bajas (t : Tabla) : list Fila :=
  ordenar_por (fun a b => clave_leb (razon_sql a) (razon_sql b))
              (filter es_bajo (filas t)).

Definition obtener_productos_bajos (t : Tabla) : list Bajo :=
  map bajo_de_fila (filas_bajas t).

(** An entry of [detalles]. *)
Record Detalle := {
  d_nombre : string;
  d_cantidad : R;
  d_precio : R;
  d_subtotal : R
}.

Record CostoTotal := {
  total : R;
  cantidad_productos : nat;
  detalles : list Detalle
}.

Definition detalle_de_fila (f : Fila) : Detalle :=
  {| d_nombre := nombre f; d_cantidad := cantidad f; d_precio := precio f;
     d_subtotal := r_mult (cantidad f) (precio f) |}.

(** [SELECT ..., (cantidad * precio) as subtotal ... ORDER BY subtotal DESC]. *)
Definition filas_costo (t : Tabla) : list Detalle :=
  ordenar_por (fun a b => r_leb (d_subtotal b) (d_subtotal a))
              (map detalle_de_fila (filas t)).

Definition calcular_costo_total (t : Tabla) : CostoTotal :=
  let productos := filas_costo t in
  {| total := r_redondear 2 (py_sum (map d_subtotal productos));
     cantidad_productos := length productos;
     detalles := productos |}.

(** An entry of the list [listar_productos] returns. *)
Record Listado := {
  l_nombre : string;
  l_cantidad : R;
  l_cantidad_inicial : R;
  l_precio : R;
  l_categoria : string
}.

Definition listado_de_fila (f : Fila) : Listado :=
  {| l_nombre := nombre f; l_cantidad := cantidad f;
     l_cantidad_inicial := cantidad_inicial f; l_precio := precio f;
     l_categoria := categoria f |}.

(** [ORDER BY nombre]: the BINARY collation compares the bytes. *)
Definition listar_productos (t : Tabla) : list Listado :=
  map listado_de_fila
      (ordenar_por (fun a b => String.leb (nombre a) (nombre b)) (filas t)).

(** [buscar_producto] returns the seven columns of the row, or [None]. *)
Definition buscar_producto (n : string) (t : Tabla) : option Fila :=
  seleccionar n t.

End ConAritmetica.

Arguments Fila R : clear implicits.
Arguments Tabla R : clear implicits.
Arguments Resultado R : clear implicits.
Arguments Mensaje R : clear implicits.
Arguments Bajo R : clear implicits.
Arguments Detalle R : clear implicits.
Arguments CostoTotal R : clear implicits.
Arguments Listado R : clear implicits.

End Database.

(* ------------------------------------------------------------------ *)
(** ** bot.py *)

(** The builtins [int(text)] and [float(text)]; [None] is [ValueError]. *)
Class Builtins (R : Type) := {
  py_int : string -> option Z;
  py_float : string -> option R
}.

Module Bot.

(** Conversation states. *)
Inductive Estado :=
| MENU | INSERTAR_NOMBRE | INSERTAR_CANTIDAD | INSERTAR_PRECIO
| INSERTAR_CATEGORIA | ACTUALIZAR_SELECCION | ACTUALIZAR_CANTIDAD
| BORRAR_SELECCION.

Inductive Excepcion :=
| KeyError (clave : string).

(** The outcome of a computation that may raise. *)
Inductive Quiza (A : Type) :=
| Valor (a : A)
| Lanza (e : Excepcion).
Arguments Valor {A} a.
Arguments Lanza {A} e.

Definition ligar {A B} (m : Quiza A) (k : A -> Quiza B) : Quiza B :=
  match m with
  | Valor a => k a
  | Lanza e => Lanza e
  end.

Fixpoint secuenciar {A} (l : list (Quiza A)) : Quiza (list A) :=
  match l with
  | [] => Valor []
  | m :: l' => ligar m (fun a => ligar (secuenciar l') (fun r => Valor (a :: r)))
  end.

(** [d[k]] with [KeyError]. *)
Definition indice {A} (clave : string) (v : option A) : Quiza A :=
  match v with
  | Some a => Valor a
  | None => Lanza (KeyError clave)
  end.

(** A [dict] in insertion order. *)
Section Dict.
Variable V : Type.

Fixpoint dict_get (k : string) (d : list (string * V)) : option V :=
  match d with
  | [] => None
  | (k', v) :: d' => if String.eqb k' k then Some v else dict_get k d'
  end.

(** [d[k] = v]: an existing key keeps its position, a new key goes last. *)
Fixpoint dict_set (k : string) (v : V) (d : list (string * V)) : list (string * V) :=
  match d with
  | [] => [(k, v)]
  | (k', v') :: d' =>
      if String.eqb k' k then (k, v) :: d' else (k', v') :: dict_set k v d'
  end.

(** [del d[k]]. *)
Definition dict_del (k : string) (d : list (string * V)) : list (string * V) :=
  filter (fun kv => negb (String.eqb (fst kv) k)) d.

End Dict.

Section ConAritmetica.
Context {R : Type} `{Aritmetica R} `{Builtins R}.

(** The dictionary of a product, as the insert flow builds it and as the
    document stores it. *)
Record Producto := {
  nombre : string;
  cantidad : option Z;
  cantidad_inicial : option Z;
  precio : option R;
  categoria : option string;
  fecha_creacion : option string
}.

Definition Inventario := list (string * Producto).

(** The file [inventario.json]. *)
Inductive Archivo :=
| Ausente                       (* os.path.exists is false *)
| Ilegible                      (* json.load raises JSONDecodeError *)
| Documento (inv : Inventario).

Definition cargar_inventario (a : Archivo) : Inventario :=
  match a with
  | Documento inv => inv
  | Ilegible => []
  | Ausente => []
  end.

Definition guardar_inventario (inv : Inventario) : Archivo :=
  Documento inv.

Definition calcular_inventario_total (a : Archivo) : Quiza R :=
  let inventario := cargar_inventario a in
  ligar (secuenciar
           (map (fun kv =>
                   ligar (indice "precio" (precio (snd kv))) (fun p =>
                   ligar (indice "cantidad" (cantidad (snd kv))) (fun c =>
                   Valor (r_mult p (r_de_entero c)))))
                inventario))
        (fun subtotales => Valor (py_sum subtotales)).

(** An entry of the list [obtener_productos_bajo_stock] returns. *)
Record BajoStock := {
  bs_nombre : string;
  bs_cantidad : Z;
  bs_limite : R
}.

Definition limite_de (cantidad_inicial : Z) : R :=
  r_mult (r_de_entero cantidad_inicial) r_un_decimo.

Fixpoint productos_bajo_stock (inventario : Inventario) : Quiza (list BajoStock) :=
  match inventario with
  | [] => Valor []
  | (n, producto) :: resto =>
      ligar (indice "cantidad" (cantidad producto)) (fun cantidad_actual =>
      let inicial := match cantidad_inicial producto with
                     | Some i => i
                     | None => cantidad_actual
                     end in
      let limite := limite_de inicial in
      ligar (productos_bajo_stock resto) (fun r =>
      Valor (if r_leb (r_de_entero cantidad_actual) limite
             then {| bs_nombre := n; bs_cantidad := cantidad_actual;
                     bs_limite := limite |} :: r
             else r)))
  end.

Definition obtener_productos_bajo_stock (a : Archivo) : Quiza (list BajoStock) :=
  productos_bajo_stock (cargar_inventario a).

(** The body of the loop of [obtener_productos_bajo_stock] on a product that
    has its [cantidad]: the initial quantity it reads, its test and the entry
    it appends. *)
Definition inicial_leida (producto : Producto) (cantidad_actual : Z) : Z :=
  match cantidad_inicial producto with
  | Some i => i
  | None => cantidad_actual
  end.

Definition es_bajo_stock (kv : string * Producto) : bool :=
  match cantidad (snd kv) with
  | Some c => r_leb (r_de_entero c) (limite_de (inicial_leida (snd kv) c))
  | None => false
  end.

Definition entrada_de (kv : string * Producto) : BajoStock :=
  let c := match cantidad (snd kv) with Some c => c | None => 0%Z end in
  {| bs_nombre := fst kv; bs_cantidad := c;
     bs_limite := limite_de (inicial_leida (snd kv) c) |}.

(** [context.user_data]. *)
Record UserData := {
  nuevo_producto : option Producto;
  producto_actualizar : option string
}.

Definition user_data_vacio : UserData :=
  {| nuevo_producto := None; producto_actualizar := None |}.

(** What a handler reads and writes besides the message. *)
Record Contexto := {
  user_data : UserData;
  archivo : Archivo
}.

(** A line of the inventory report. *)
Record Linea := {
  li_nombre : string;
  li_cantidad : Z;
  li_precio : R;
  li_categoria : string;
  li_valor : R
}.

(** The messages the bot sends: the template and the interpolated values
    (a value under [.nf] is rounded to [n] places). *)
Inductive Respuesta :=
| Bienvenida
| PedirNombre
| PedirCantidad
| PedirPrecio
| PedirCategoria
| NumeroInvalido
| PrecioInvalido
| ProductoAgregado (n : string) (c : Z) (p : R) (cat : string)
| NoHayProductos
| ProductosParaActualizar (nombres : list string)
| ProductosParaBorrar (nombres : list string)
| NoEncontrado
| ProductoSeleccionado (n : string) (c : Z)
| ProductoActualizado (n : string) (c : Z)
| AlertaStockBajo (n : string)
| ProductoEliminado (n : string)
| InventarioVacio
| InventarioCompleto (lineas : list Linea)
| StockSuficiente
| StockBajo (productos : list BajoStock)
| CostoTotal (t : R)
| SeguridadDeDatos
| OperacionCancelada.

(** The run of a handler: what it returns (or raises), the context it leaves
    and the messages it sent before returning. *)
Record Paso := {
  retorno : Quiza Estado;
  contexto : Contexto;
  respuestas : list Respuesta
}.

Definition con_user_data (u : UserData) (ctx : Contexto) : Contexto :=
  {| user_data := u; archivo := archivo ctx |}.

Definition con_nuevo_producto (b : Producto) (ctx : Contexto) : Contexto :=
  con_user_data {| nuevo_producto := Some b;
                   producto_actualizar := producto_actualizar (user_data ctx) |} ctx.

Definition start (ctx : Contexto) : Paso :=
  {| retorno := Valor MENU; contexto := ctx; respuestas := [Bienvenida] |}.

Definition insertar_nombre (texto : string) (ctx : Contexto) : Paso :=
  {| retorno := Valor INSERTAR_CANTIDAD;
     contexto := con_nuevo_producto
                   {| nombre := texto; cantidad := None; cantidad_inicial := None;
                      precio := None; categoria := None; fecha_creacion := None |} ctx;
     respuestas := [PedirCantidad] |}.

Definition insertar_cantidad (texto : string) (ctx : Contexto) : Paso :=
  let invalido := {| retorno := Valor INSERTAR_CANTIDAD; contexto := ctx;
                     respuestas := [NumeroInvalido] |} in
  match py_int texto with
  | None => invalido
  | Some c =>
      if (c <? 0)%Z then invalido
      else match nuevo_producto (user_data ctx) with
           | None => {| retorno := Lanza (KeyError "nuevo_producto");
                        contexto := ctx; respuestas := [] |}
           | Some b =>
               {| retorno := Valor INSERTAR_PRECIO;
                  contexto := con_nuevo_producto
                    {| nombre := nombre b; cantidad := Some c;
                       cantidad_inicial := Some c; precio := precio b;
                       categoria := categoria b;
                       fecha_creacion := fecha_creacion b |} ctx;
                  respuestas := [PedirPrecio] |}
           end
  end.

Definition insertar_precio (texto : string) (ctx : Contexto) : Paso :=
  let invalido := {| retorno := Valor INSERTAR_PRECIO; contexto := ctx;
                     respuestas := [PrecioInvalido] |} in
  match py_float texto with
  | None => invalido
  | Some p =>
      if r_ltb p r_cero then invalido
      else match nuevo_producto (user_data ctx) with
           | None => {| retorno := Lanza (KeyError "nuevo_producto");
                        contexto := ctx; respuestas := [] |}
           | Some b =>
               {| retorno := Valor INSERTAR_CATEGORIA;
                  contexto := con_nuevo_producto
                    {| nombre := nombre b; cantidad := cantidad b;
                       cantidad_inicial := cantidad_inicial b; precio := Some p;
                       categoria := categoria b;
                       fecha_creacion := fecha_creacion b |} ctx;
                  respuestas := [PedirCategoria] |}
           end
  end.

Definition insertar_categoria (ahora : string) (texto : string) (ctx : Contexto) : Paso :=
  match nuevo_producto (user_data ctx) with
  | None => {| retorno := Lanza (KeyError "nuevo_producto");
               contexto := ctx; respuestas := [] |}
  | Some b =>
      let producto := {| nombre := nombre b; cantidad := cantidad b;
                         cantidad_inicial := cantidad_inicial b; precio := precio b;
                         categoria := Some texto; fecha_creacion := Some ahora |} in
      let inventario := cargar_inventario (archivo ctx) in
      let guardado :=
        guardar_inventario (dict_set (nombre producto) producto inventario) in
      match cantidad producto, precio producto with
      | Some c, Some p =>
          {| retorno := Valor MENU;
             contexto := {| user_data := user_data_vacio; archivo := guardado |};
             respuestas := [ProductoAgregado (nombre producto) c (r_redondear 2 p) texto] |}
      | None, _ =>
          {| retorno := Lanza (KeyError "cantidad");
             contexto := {| user_data := user_data (con_nuevo_producto producto ctx);
                            archivo := guardado |};
             respuestas := [] |}
      | Some _, None =>
          {| retorno := Lanza (KeyError "precio");
             contexto := {| user_data := user_data (con_nuevo_producto producto ctx);
                            archivo := guardado |};
             respuestas := [] |}
      end
  end.

Definition actualizar_seleccion (texto : string) (ctx : Contexto) : Paso :=
  let inventario := cargar_inventario (archivo ctx) in
  match dict_get texto inventario with
  | None => {| retorno := Valor ACTUALIZAR_SELECCION; contexto := ctx;
               respuestas := [NoEncontrado] |}
  | Some producto =>
      let ctx' := con_user_data
                    {| nuevo_producto := nuevo_producto (user_data ctx);
                       producto_actualizar := Some texto |} ctx in
      match cantidad producto with
      | None => {| retorno := Lanza (KeyError "cantidad"); contexto := ctx';
                   respuestas := [] |}
      | Some c => {| retorno := Valor ACTUALIZAR_CANTIDAD; contexto := ctx';
                     respuestas := [ProductoSeleccionado texto c] |}
      end
  end.

Definition actualizar_cantidad (texto : string) (ctx : Contexto) : Paso :=
  let invalido := {| retorno := Valor ACTUALIZAR_CANTIDAD; contexto := ctx;
                     respuestas := [NumeroInvalido] |} in
  match py_int texto with
  | None => invalido
  | Some nueva_cantidad =>
      if (nueva_cantidad <? 0)%Z then invalido
      else
        let inventario := cargar_inventario (archivo ctx) in
        match producto_actualizar (user_data ctx) with
        | None => {| retorno := Lanza (KeyError "producto_actualizar");
                     contexto := ctx; respuestas := [] |}
        | Some n =>
            match dict_get n inventario with
            | None => {| retorno := Lanza (KeyError n); contexto := ctx;
                         respuestas := [] |}
            | Some producto =>
                let producto' :=
                  {| nombre := nombre producto; cantidad := Some nueva_cantidad;
                     cantidad_inicial := cantidad_inicial producto;
                     precio := precio producto; categoria := categoria producto;
                     fecha_creacion := fecha_creacion producto |} in
                let inicial := match cantidad_inicial producto' with
                               | Some i => i
                               | None => nueva_cantidad
                               end in
                {| retorno := Valor MENU;
                   contexto :=
                     {| user_data := user_data_vacio;
                        archivo := guardar_inventario (dict_set n producto' inventario) |};
                   respuestas :=
                     ProductoActualizado n nueva_cantidad ::
                     (if r_leb (r_de_entero nueva_cantidad) (limite_de inicial)
                      then [AlertaStockBajo n] else []) |}
            end
        end
  end.

Definition borrar_producto (texto : string) (ctx : Contexto) : Paso :=
  let inventario := cargar_inventario (archivo ctx) in
  match dict_get texto inventario with
  | None => {| retorno := Valor BORRAR_SELECCION; contexto := ctx;
               respuestas := [NoEncontrado] |}
  | Some _ =>
      {| retorno := Valor MENU;
         contexto := {| user_data := user_data ctx;
                        archivo := guardar_inventario (dict_del texto inventario) |};
         respuestas := [ProductoEliminado texto] |}
  end.

Definition linea_de (kv : string * Producto) : Quiza Linea :=
  ligar (indice "cantidad" (cantidad (snd kv))) (fun c =>
  ligar (indice "precio" (precio (snd kv))) (fun p =>
  ligar (indice "categoria" (categoria (snd kv))) (fun cat =>
  Valor {| li_nombre := fst kv; li_cantidad := c;
           li_precio := r_redondear 2 p; li_categoria := cat;
           li_valor := r_redondear 2 (r_mult (r_de_entero c) p) |}))).

(** The message [mostrar_inventario] sends, or the exception it raises
    before sending anything. *)
Definition mostrar_inventario (ctx : Contexto) : Quiza Respuesta :=
  match cargar_inventario (archivo ctx) with
  | [] => Valor InventarioVacio
  | inventario =>
      ligar (secuenciar (map linea_de inventario)) (fun lineas =>
      Valor (InventarioCompleto lineas))
  end.

Definition redondear_limite (b : BajoStock) : BajoStock :=
  {| bs_nombre := bs_nombre b; bs_cantidad := bs_cantidad b;
     bs_limite := r_redondear 1 (bs_limite b) |}.

Definition verificar_stock_bajo (ctx : Contexto) : Quiza Respuesta :=
  ligar (obtener_productos_bajo_stock (archivo ctx)) (fun productos_bajo =>
  match productos_bajo with
  | [] => Valor StockSuficiente
  | _ => Valor (StockBajo (map redondear_limite productos_bajo))
  end).

Definition explicar_seguridad (ctx : Contexto) : Respuesta := SeguridadDeDatos.

(** A report handler called from the menu: one message and back to [MENU],
    or the exception, which leaves the menu handler before it returns. *)
Definition informe (ctx : Contexto) (m : Quiza Respuesta) : Paso :=
  match m with
  | Valor r => {| retorno := Valor MENU; contexto := ctx; respuestas := [r] |}
  | Lanza e => {| retorno := Lanza e; contexto := ctx; respuestas := [] |}
  end.

Definition menu_handler (texto : string) (ctx : Contexto) : Paso :=
  if String.eqb texto "📦 Insertar Producto" then
    {| retorno := Valor INSERTAR_NOMBRE; contexto := ctx; respuestas := [PedirNombre] |}
  else if String.eqb texto "🔄 Actualizar Producto" then
    match cargar_inventario (archivo ctx) with
    | [] => {| retorno := Valor MENU; contexto := ctx; respuestas := [NoHayProductos] |}
    | inventario =>
        {| retorno := Valor ACTUALIZAR_SELECCION; contexto := ctx;
           respuestas := [ProductosParaActualizar (map fst inventario)] |}
    end
  else if String.eqb texto "🗑️ Borrar Producto" then
    match cargar_inventario (archivo ctx) with
    | [] => {| retorno := Valor MENU; contexto := ctx; respuestas := [NoHayProductos] |}
    | inventario =>
        {| retorno := Valor BORRAR_SELECCION; contexto := ctx;
           respuestas := [ProductosParaBorrar (map fst inventario)] |}
    end
  else if String.eqb texto "📊 Ver Inventario" then
    informe ctx (mostrar_inventario ctx)
  else if String.eqb texto "⚠️ Stock Bajo" then
    informe ctx (verificar_stock_bajo ctx)
  else if String.eqb texto "💰 Costo Total" then
    informe ctx (ligar (calcular_inventario_total (archivo ctx)) (fun t =>
                 Valor (CostoTotal (r_redondear 2 t))))
  else if String.eqb texto "❓ Seguridad de Datos" then
    informe ctx (Valor (explicar_seguridad ctx))
  else
    {| retorno := Valor MENU; contexto := ctx; respuestas := [] |}.

Definition cancelar (ctx : Contexto) : Paso :=
  let ctx' := con_user_data user_data_vacio ctx in
  let p := start ctx' in
  {| retorno := retorno p; contexto := contexto p;
     respuestas := OperacionCancelada :: respuestas p |}.

(** An update as the framework classifies it: a text message that is not a
    command, or a bot command with its name. *)
Inductive Entrada :=
| Texto (t : string)
| Comando (c : string).

(** A conversation: its state ([None] before [/start]) and the context. *)
Record Sesion := {
  estado : option Estado;
  ctx_sesion : Contexto
}.

(** [states] of the [ConversationHandler]. *)
Definition manejador (e : Estado) (ahora : string) : string -> Contexto -> Paso :=
  match e with
  | MENU => menu_handler
  | INSERTAR_NOMBRE => insertar_nombre
  | INSERTAR_CANTIDAD => insertar_cantidad
  | INSERTAR_PRECIO => insertar_precio
  | INSERTAR_CATEGORIA => insertar_categoria ahora
  | ACTUALIZAR_SELECCION => actualizar_seleccion
  | ACTUALIZAR_CANTIDAD => actualizar_cantidad
  | BORRAR_SELECCION => borrar_producto
  end.

(** The handler the [ConversationHandler] of [main] selects for an update:
    the entry point [/start] when no conversation is open; otherwise the
    text handler of the current state, then the fallback [/cancelar]. *)
Definition seleccionar_manejador (ahora : string) (u : Entrada) (s : Sesion)
    : option (Contexto -> Paso) :=
  match estado s, u with
  | None, Comando c => if String.eqb c "start" then Some start else None
  | None, Texto _ => None
  | Some e, Texto t => Some (manejador e ahora t)
  | Some e, Comando c => if String.eqb c "cancelar" then Some cancelar else None
  end.

(** One update: the selected handler runs; its return value is the new
    state, and a raised exception leaves the state as it was. *)
Definition despachar (ahora : string) (u : Entrada) (s : Sesion)
    : Sesion * list Respuesta :=
  match seleccionar_manejador ahora u s with
  | None => (s, [])
  | Some h =>
      let p := h (ctx_sesion s) in
      ({| estado := match retorno p with
                    | Valor e => Some e
                    | Lanza _ => estado s
                    end;
          ctx_sesion := contexto p |},
       respuestas p)
  end.

(** A run over timestamped updates; the replies are collected in order. *)
Fixpoint ejecutar (us : list (string * Entrada)) (s : Sesion)
    : Sesion * list Respuesta :=
  match us with
  | [] => (s, [])
  | (ahora, u) :: us' =>
      let '(s1, r1) := despachar ahora u s in
      let '(s2, r2) := ejecutar us' s1 in
      (s2, r1 ++ r2)
  end.

End ConAritmetica.

Arguments Producto R : clear implicits.
Arguments Inventario R : clear implicits.
Arguments Archivo R : clear implicits.
Arguments BajoStock R : clear implicits.
Arguments UserData R : clear implicits.
Arguments Contexto R : clear implicits.
Arguments Linea R : clear implicits.
Arguments Respuesta R : clear implicits.
Arguments Paso R : clear implicits.
Arguments Sesion R : clear implicits.

End Bot.

(* ------------------------------------------------------------------ *)
(** ** Decimal texts *)

(** A concrete [Builtins] over the exact arithmetic, used to run the flow on
    concrete texts: plain ASCII decimal literals with an optional sign, on
    which it returns what [int] and [float] return; every other text is
    refused here. *)
Definition digito (c : ascii) : option Z :=
  let n := Z.of_N (N_of_ascii c) in
  if ((48 <=? n) && (n <=? 57))%Z then Some (n - 48)%Z else None.

Fixpoint digitos (s : string) (acc : Z) : option Z :=
  match s with
  | EmptyString => Some acc
  | String c r =>
      match digito c with
      | Some d => digitos r (10 * acc + d)%Z
      | None => None
      end
  end.

Definition natural_decimal (s : string) : option Z :=
  match s with
  | EmptyString => None
  | _ => digitos s 0
  end.

Definition con_signo {A} (opuesto : A -> A) (f : string -> option A) (s : string)
    : option A :=
  match s with
  | String "-"%char r => option_map opuesto (f r)
  | String "+"%char r => f r
  | _ => f s
  end.

Definition int_decimal : string -> option Z :=
  con_signo Z.opp natural_decimal.

(** The text before the first point and the text after it. *)
Fixpoint partir_en_punto (s : string) : string * option string :=
  match s with
  | EmptyString => (EmptyString, None)
  | String c r =>
      if Ascii.eqb c "."%char then (EmptyString, Some r)
      else let '(a, b) := partir_en_punto r in (String c a, b)
  end.

Definition fraccion_decimal (s : string) : option Q :=
  match partir_en_punto s with
  | (entera, None) => option_map inject_Z (natural_decimal entera)
  | (entera, Some frac) =>
      match natural_decimal entera, natural_decimal frac with
      | Some e, Some f =>
          let escala := (10 ^ Z.of_nat (String.length frac))%Z in
          Some (Qmake (e * escala + f) (Z.to_pos escala))
      | _, _ => None
      end
  end.

Definition float_decimal : string -> option Q :=
  con_signo Qopp fraccion_decimal.

Definition builtins_decimales : Builtins Q :=
  {| py_int := int_decimal; py_float := float_decimal |}.

(* ------------------------------------------------------------------ *)
(** ** Scripts of the conversation *)

(** A conversation before [/start], with no [inventario.json] yet. *)
Definition sesion_nueva {R} : Bot.Sesion R :=
  {| Bot.estado := None;
     Bot.ctx_sesion := {| Bot.user_data := Bot.user_data_vacio;
                          Bot.archivo := Bot.Ausente |} |}.

(** The session in state [e] with context [ctx]. *)
Definition sesion_en {R} (e : Bot.Estado) (ctx : Bot.Contexto R) : Bot.Sesion R :=
  {| Bot.estado := Some e; Bot.ctx_sesion := ctx |}.

(** The messages of one pass through the insert flow, from the menu. *)
Definition guion_insertar (ahora n tc tp cat : string) : list (string * Bot.Entrada) :=
  [(ahora, Bot.Texto "📦 Insertar Producto"); (ahora, Bot.Texto n);
   (ahora, Bot.Texto tc); (ahora, Bot.Texto tp); (ahora, Bot.Texto cat)].

(** The messages of one pass through the update flow, from the menu. *)
Definition guion_actualizar (ahora n tc : string) : list (string * Bot.Entrada) :=
  [(ahora, Bot.Texto "🔄 Actualizar Producto"); (ahora, Bot.Texto n);
   (ahora, Bot.Texto tc)].

(** The messages of one pass through the delete flow, from the menu. *)
Definition guion_borrar (ahora n : string) : list (string * Bot.Entrada) :=
  [(ahora, Bot.Texto "🗑️ Borrar Producto"); (ahora, Bot.Texto n)].

(* ------------------------------------------------------------------ *)
(** ** Vocabulary of the statements *)

(** The record the insert flow commits. *)
Definition producto_nuevo {R} (ahora n : string) (c : Z) (p : R) (cat : string)
    : Bot.Producto R :=
  {| Bot.nombre := n; Bot.cantidad := Some c; Bot.cantidad_inicial := Some c;
     Bot.precio := Some p; Bot.categoria := Some cat;
     Bot.fecha_creacion := Some ahora |}.

(** The record the update flow writes back. *)
Definition con_cantidad {R} (c : Z) (p : Bot.Producto R) : Bot.Producto R :=
  {| Bot.nombre := Bot.nombre p; Bot.cantidad := Some c;
     Bot.cantidad_inicial := Bot.cantidad_inicial p; Bot.precio := Bot.precio p;
     Bot.categoria := Bot.categoria p; Bot.fecha_creacion := Bot.fecha_creacion p |}.

(** The ratio the specification orders low stock by: quantity over initial
    quantity, and 0 when the initial quantity is 0. *)
Definition razon_o_cero (q iq : Q) : Q :=
  if Q_es_cero iq then 0 else q / iq.

Definition razon_de_bajo (b : Database.Bajo Q) : Q :=
  razon_o_cero (Database.b_cantidad b) (Database.b_cantidad_inicial b).

Definition razon_de_producto (p : Bot.Producto Q) : Q :=
  match Bot.cantidad p with
  | Some c => razon_o_cero (inject_Z c) (inject_Z (Bot.inicial_leida p c))
  | None => 0
  end.

Definition razon_en (inv : Bot.Inventario Q) (n : string) : Q :=
  match Bot.dict_get n inv with
  | Some p => razon_de_producto p
  | None => 0
  end.

(** The sum of a list of rationals, as a mathematical sum. *)
Definition Qsuma (l : list Q) : Q := fold_right Qplus 0 l.

(** Quantity times price of a row and of a product of the document. *)
Definition valor_fila (f : Database.Fila Q) : Q :=
  Database.cantidad f * Database.precio f.

Definition valor_producto (p : Bot.Producto Q) : Q :=
  match Bot.precio p, Bot.cantidad p with
  | Some x, Some c => x * inject_Z c
  | _, _ => 0
  end.

(** A product dictionary whose [cantidad] and [precio], when present, pass
    the sign tests of the flow. *)
Definition producto_sin_negativos {R} `{Aritmetica R} (p : Bot.Producto R) : Prop :=
  (forall c, Bot.cantidad p = Some c -> (0 <= c)%Z)
  /\ (forall x, Bot.precio p = Some x -> r_ltb x r_cero = false).

(** A context in which neither the document nor the draft holds a negative
    quantity or price. *)
Definition ctx_sin_negativos {R} `{Aritmetica R} (ctx : Bot.Contexto R) : Prop :=
  (forall kv, In kv (Bot.cargar_inventario (Bot.archivo ctx)) ->
              producto_sin_negativos (snd kv))
  /\ (forall b, Bot.nuevo_producto (Bot.user_data ctx) = Some b ->
                producto_sin_negativos b).

(** A sequence of calls of [actualizar_producto], each with its clock
    reading, name and optional new quantity and price. *)
Fixpoint actualizar_varias {R} (us : list (string * string * option R * option R))
    (t : Database.Tabla R) : Database.Tabla R :=
  match us with
  | [] => t
  | (ahora, n, c, p) :: us' =>
      actualizar_varias us' (snd (Database.actualizar_producto ahora n c p t))
  end.

(** The updates that do not open the insert flow or the delete flow. *)
Definition no_inserta_ni_borra (u : Bot.Entrada) : bool :=
  match u with
  | Bot.Texto t => negb (String.eqb t "📦 Insertar Producto")
                   && negb (String.eqb t "🗑️ Borrar Producto")
  | Bot.Comando _ => true
  end.

(** The states of the menu and of the update flow. *)
Definition en_actualizacion (e : Bot.Estado) : bool :=
  match e with
  | Bot.MENU | Bot.ACTUALIZAR_SELECCION | Bot.ACTUALIZAR_CANTIDAD => true
  | _ => false
  end.

(* ------------------------------------------------------------------ *)
(** ** The two backends side by side *)

(** The operations of the store, with the numbers as the texts a user
    types. *)
Inductive Operacion :=
| OpInsertar (n tc tp cat : string)
| OpActualizar (n tc : string)
| OpBorrar (n : string)
| OpListar
| OpStockBajo
| OpCostoTotal.

(** What a caller observes of an operation: whether a mutation succeeded,
    the names a query returned, in order, or the total. *)
Inductive Observacion (R : Type) :=
| Exito (b : bool)
| Nombres (l : list string)
| Total (x : R)
| SinRespuesta.
Arguments Exito {R} b.
Arguments Nombres {R} l.
Arguments Total {R} x.
Arguments SinRespuesta {R}.

Definition estado_eqb (a b : Bot.Estado) : bool :=
  match a, b with
  | Bot.MENU, Bot.MENU
  | Bot.INSERTAR_NOMBRE, Bot.INSERTAR_NOMBRE
  | Bot.INSERTAR_CANTIDAD, Bot.INSERTAR_CANTIDAD
  | Bot.INSERTAR_PRECIO, Bot.INSERTAR_PRECIO
  | Bot.INSERTAR_CATEGORIA, Bot.INSERTAR_CATEGORIA
  | Bot.ACTUALIZAR_SELECCION, Bot.ACTUALIZAR_SELECCION
  | Bot.ACTUALIZAR_CANTIDAD, Bot.ACTUALIZAR_CANTIDAD
  | Bot.BORRAR_SELECCION, Bot.BORRAR_SELECCION => true
  | _, _ => false
  end.

Section Clientes.
Context {R : Type} `{Aritmetica R} `{Builtins R}.

Definition en_estado (e : Bot.Estado) (s : Bot.Sesion R) : bool :=
  match Bot.estado s with
  | Some e' => estado_eqb e e'
  | None => false
  end.

(** The user of the bot follows the prompts of a flow and sends [/cancelar]
    as soon as the bot asks again instead of moving on. *)
Definition cancelar_y_fallar (ahora : string) (s : Bot.Sesion R)
    : Bot.Sesion R * Observacion R :=
  (fst (Bot.despachar ahora (Bot.Comando "cancelar") s), Exito false).

Definition bot_insertar (ahora n tc tp cat : string) (s : Bot.Sesion R)
    : Bot.Sesion R * Observacion R :=
  let s1 := fst (Bot.despachar ahora (Bot.Texto "📦 Insertar Producto") s) in
  let s2 := fst (Bot.despachar ahora (Bot.Texto n) s1) in
  let s3 := fst (Bot.despachar ahora (Bot.Texto tc) s2) in
  if negb (en_estado Bot.INSERTAR_PRECIO s3) then cancelar_y_fallar ahora s3 else
  let s4 := fst (Bot.despachar ahora (Bot.Texto tp) s3) in
  if negb (en_estado Bot.INSERTAR_CATEGORIA s4) then cancelar_y_fallar ahora s4 else
  let s5 := fst (Bot.despachar ahora (Bot.Texto cat) s4) in
  (s5, Exito (en_estado Bot.MENU s5)).

Definition bot_actualizar (ahora n tc : string) (s : Bot.Sesion R)
    : Bot.Sesion R * Observacion R :=
  let s1 := fst (Bot.despachar ahora (Bot.Texto "🔄 Actualizar Producto") s) in
  if negb (en_estado Bot.ACTUALIZAR_SELECCION s1) then (s1, Exito false) else
  let s2 := fst (Bot.despachar ahora (Bot.Texto n) s1) in
  if negb (en_estado Bot.ACTUALIZAR_CANTIDAD s2) then cancelar_y_fallar ahora s2 else
  let s3 := fst (Bot.despachar ahora (Bot.Texto tc) s2) in
  if en_estado Bot.MENU s3 then (s3, Exito true) else cancelar_y_fallar ahora s3.

Definition bot_borrar (ahora n : string) (s : Bot.Sesion R)
    : Bot.Sesion R * Observacion R :=
  let s1 := fst (Bot.despachar ahora (Bot.Texto "🗑️ Borrar Producto") s) in
  if negb (en_estado Bot.BORRAR_SELECCION s1) then (s1, Exito false) else
  let s2 := fst (Bot.despachar ahora (Bot.Texto n) s1) in
  if en_estado Bot.MENU s2 then (s2, Exito true) else cancelar_y_fallar ahora s2.

(** What a report message shows. *)
Definition observar_informe (rs : list (Bot.Respuesta R)) : Observacion R :=
  match rs with
  | [Bot.InventarioVacio] => Nombres []
  | [Bot.InventarioCompleto lineas] => Nombres (map (@Bot.li_nombre R) lineas)
  | [Bot.StockSuficiente] => Nombres []
  | [Bot.StockBajo productos] => Nombres (map (@Bot.bs_nombre R) productos)
  | [Bot.CostoTotal t] => Total t
  | _ => SinRespuesta
  end.

Definition bot_consultar (ahora texto : string) (s : Bot.Sesion R)
    : Bot.Sesion R * Observacion R :=
  let '(s1, rs) := Bot.despachar ahora (Bot.Texto texto) s in
  (s1, observar_informe rs).

Definition bot_aplicar (ahora : string) (op : Operacion) (s : Bot.Sesion R)
    : Bot.Sesion R * Observacion R :=
  match op with
  | OpInsertar n tc tp cat => bot_insertar ahora n tc tp cat s
  | OpActualizar n tc => bot_actualizar ahora n tc s
  | OpBorrar n => bot_borrar ahora n s
  | OpListar => bot_consultar ahora "📊 Ver Inventario" s
  | OpStockBajo => bot_consultar ahora "⚠️ Stock Bajo" s
  | OpCostoTotal => bot_consultar ahora "💰 Costo Total" s
  end.

(** The caller of [Database] converts the same texts with [int] and [float]
    and makes no call when a text is not a number. *)
Definition db_aplicar (ahora : string) (op : Operacion) (t : Database.Tabla R)
    : Database.Tabla R * Observacion R :=
  match op with
  | OpInsertar n tc tp cat =>
      match py_int tc, py_float tp with
      | Some c, Some p =>
          let '(r, t') := Database.insertar_producto ahora n (r_de_entero c) p cat t in
          (t', Exito (Database.success r))
      | _, _ => (t, Exito false)
      end
  | OpActualizar n tc =>
      match py_int tc with
      | Some c =>
          let '(r, t') :=
            Database.actualizar_producto ahora n (Some (r_de_entero c)) None t in
          (t', Exito (Database.success r))
      | None => (t, Exito false)
      end
  | OpBorrar n =>
      let '(r, t') := Database.borrar_producto n t in
      (t', Exito (Database.success r))
  | OpListar =>
      (t, Nombres (map (@Database.l_nombre R) (Database.listar_productos t)))
  | OpStockBajo =>
      (t, Nombres (map (@Database.b_nombre R) (Database.obtener_productos_bajos t)))
  | OpCostoTotal =>
      (t, Total (Database.total (Database.calcular_costo_total t)))
  end.

Fixpoint correr_bot (ops : list (string * Operacion)) (s : Bot.Sesion R)
    : list (Observacion R) :=
  match ops with
  | [] => []
  | (ahora, op) :: ops' =>
      let '(s', o) := bot_aplicar ahora op s in o :: correr_bot ops' s'
  end.

Fixpoint correr_db (ops : list (string * Operacion)) (t : Database.Tabla R)
    : list (Observacion R) :=
  match ops with
  | [] => []
  | (ahora, op) :: ops' =>
      let '(t', o) := db_aplicar ahora op t in o :: correr_db ops' t'
  end.

(** An operation both backends treat alike on the table [t]: an insertion
    names no product of [t], and no number is negative. *)
Definition admisible (t : Database.Tabla R) (op : Operacion) : Prop :=
  match op with
  | OpInsertar n tc tp cat =>
      Database.seleccionar n t = None
      /\ (forall c, py_int tc = Some c -> (0 <= c)%Z)
      /\ (forall p, py_float tp = Some p -> r_ltb p r_cero = false)
  | OpActualizar n tc => forall c, py_int tc = Some c -> (0 <= c)%Z
  | _ => True
  end.

Fixpoint admisibles (ops : list (string * Operacion)) (t : Database.Tabla R) : Prop :=
  match ops with
  | [] => True
  | (ahora, op) :: ops' =>
      admisible t op /\ admisibles ops' (fst (db_aplicar ahora op t))
  end.

End Clientes.

(** The same observation up to the order of the names. *)
Inductive obs_equiv {R : Type} : Observacion R -> Observacion R -> Prop :=
| equiv_exito b : obs_equiv (Exito b) (Exito b)
| equiv_nombres l l' : Permutation l l' -> obs_equiv (Nombres l) (Nombres l')
| equiv_total x : obs_equiv (Total x) (Total x).

(** A product of the document and a row of the table that hold the same
    record. *)
Definition mismo_registro (kv : string * Bot.Producto Q) (f : Database.Fila Q) : Prop :=
  fst kv = Database.nombre f
  /\ exists c ci,
       Bot.cantidad (snd kv) = Some c
       /\ Bot.cantidad_inicial (snd kv) = Some ci
       /\ Database.cantidad f = inject_Z c
       /\ Database.cantidad_inicial f = inject_Z ci
       /\ Bot.precio (snd kv) = Some (Database.precio f)
       /\ Bot.categoria (snd kv) = Some (Database.categoria f).

(** The document and the table hold the same records in the same storage
    order, under distinct names. *)
Definition corresponde (inv : Bot.Inventario Q) (t : Database.Tabla Q) : Prop :=
  Forall2 mismo_registro inv (Database.filas t) /\ NoDup (map fst inv).

(* ------------------------------------------------------------------ *)
(** ** Concrete runs *)

(** [/start], then "banana" and "arroz" are inserted in that order. *)
Definition sesion_banana_arroz : Bot.Sesion Q :=
  Eval vm_compute in
  fst (Bot.ejecutar (H0 := builtins_decimales)
         ((("t0", Bot.Comando "start") :: guion_insertar "t1" "banana" "5" "0.50" "Frutas")
          ++ guion_insertar "t2" "arroz" "100" "1.20" "Granos")
         sesion_nueva).

(** [/start]; "arroz" is inserted with 10 and updated to 1; "frijol" is
    inserted with 10 and updated to 0. *)
Definition sesion_arroz_frijol : Bot.Sesion Q :=
  Eval vm_compute in
  fst (Bot.ejecutar (H0 := builtins_decimales)
         ((("t0", Bot.Comando "start") :: guion_insertar "t1" "arroz" "10" "1.20" "Granos")
          ++ guion_actualizar "t2" "arroz" "1"
          ++ guion_insertar "t3" "frijol" "10" "0.80" "Legumbres"
          ++ guion_actualizar "t4" "frijol" "0")
         sesion_nueva).

(** [/start], then "hilo" is inserted with quantity 1 and price 0.001. *)
Definition sesion_hilo : Bot.Sesion Q :=
  Eval vm_compute in
  fst (Bot.ejecutar (H0 := builtins_decimales)
         (("t0", Bot.Comando "start") :: guion_insertar "t1" "hilo" "1" "0.001" "Merceria")
         sesion_nueva).

(** A context in the middle of the insert flow: the draft holds the name
    only, and there is no document yet. *)
Definition ctx_con_borrador : Bot.Contexto Q :=
  {| Bot.user_data :=
       {| Bot.nuevo_producto :=
            Some {| Bot.nombre := "arroz"; Bot.cantidad := None;
                    Bot.cantidad_inicial := None; Bot.precio := None;
                    Bot.categoria := None; Bot.fecha_creacion := None |};
          Bot.producto_actualizar := None |};
     Bot.archivo := Bot.Ausente |}.

(** "arroz" is created with 100 and updated to 8; "vacio" is created with
    quantity 0. *)
Definition tabla_arroz_vacio : Database.Tabla Q :=
  Eval vm_compute in
  let t1 := snd (Database.insertar_producto "t1" "arroz" (100 # 1) (12 # 10) "Granos"
                   Database.init_db) in
  let t2 := snd (Database.actualizar_producto "t2" "arroz" (Some (8 # 1)) None t1) in
  snd (Database.insertar_producto "t3" "vacio" 0 (1 # 1) "General" t2).

(** "vacio" is created with quantity 0; "harina" is created with 100 and
    then updated to -5. *)
Definition tabla_con_negativo : Database.Tabla Q :=
  Eval vm_compute in
  let t1 := snd (Database.insertar_producto "t1" "vacio" 0 (1 # 1) "General"
                   Database.init_db) in
  let t2 := snd (Database.insertar_producto "t2" "harina" (100 # 1) (2 # 1) "Granos" t1) in
  snd (Database.actualizar_producto "t3" "harina" (Some (- (5 # 1))) None t2).

(** In binary64: "clavo" is created with quantity 1 and price 0.005. *)
Definition tabla_clavo : Database.Tabla float :=
  Eval vm_compute in
  snd (Database.insertar_producto "t1" "clavo" 1%float 0.005%float "Ferreteria"
         Database.init_db).

(** [/start] was sent and there is no document yet. *)
Definition sesion_menu {R} : Bot.Sesion R :=
  sesion_en Bot.MENU {| Bot.user_data := Bot.user_data_vacio;
                        Bot.archivo := Bot.Ausente |}.

(** "banana" and "arroz" are inserted, then the store is listed. *)
Definition ops_banana_arroz : list (string * Operacion) :=
  [("t1", OpInsertar "banana" "5" "0.50" "Frutas");
   ("t2", OpInsertar "arroz" "100" "1.20" "Granos");
   ("t3", OpListar)].

(** "arroz" is inserted twice. *)
Definition ops_duplicado : list (string * Operacion) :=
  [("t1", OpInsertar "arroz" "100" "1.20" "Granos");
   ("t2", OpInsertar "arroz" "7" "9.99" "Otros")].

(** "arroz" is inserted and then updated to -5. *)
Definition ops_negativo : list (string * Operacion) :=
  [("t1", OpInsertar "arroz" "100" "1.20" "Granos");
   ("t2", OpActualizar "arroz" "-5")].

(* ------------------------------------------------------------------ *)
(** ** Sequences of calls of [Database] *)

(** A call of one of the three mutating methods, with its arguments and,
    where the method reads the clock, the time it reads. *)
Inductive Llamada (R : Type) :=
| LlInsertar (ahora n : string) (c p : R) (cat : string)
| LlActualizar (ahora n : string) (c p : option R)
| LlBorrar (n : string).
Arguments LlInsertar {R} ahora n c p cat.
Arguments LlActualizar {R} ahora n c p.
Arguments LlBorrar {R} n.

Definition llamar {R} (l : Llamada R) (t : Database.Tabla R)
    : Database.Resultado R * Database.Tabla R :=
  match l with
  | LlInsertar ahora n c p cat => Database.insertar_producto ahora n c p cat t
  | LlActualizar ahora n c p => Database.actualizar_producto ahora n c p t
  | LlBorrar n => Database.borrar_producto n t
  end.

Fixpoint llamar_todas {R} (ls : list (Llamada R)) (t : Database.Tabla R)
    : Database.Tabla R :=
  match ls with
  | [] => t
  | l :: ls' => llamar_todas ls' (snd (llamar l t))
  end.

(** The names are distinct, the ids grow along the rows, and no id exceeds
    the AUTOINCREMENT counter. *)
Definition tabla_consistente {R} (t : Database.Tabla R) : Prop :=
  NoDup (map (@Database.nombre R) (Database.filas t))
  /\ StronglySorted Z.lt (map (@Database.id R) (Database.filas t))
  /\ Forall (fun f => (Database.id f <= Database.secuencia t)%Z) (Database.filas t).

(* ------------------------------------------------------------------ *)
(** ** Exceptions in the conversation *)

(** Whether the handler selected for an update raises. *)
Definition lanza {R} `{Aritmetica R} `{Builtins R} (ahora : string) (u : Bot.Entrada)
    (s : Bot.Sesion R) : bool :=
  match Bot.seleccionar_manejador ahora u s with
  | Some h => match Bot.retorno (h (Bot.ctx_sesion s)) with
              | Bot.Lanza _ => true
              | Bot.Valor _ => false
              end
  | None => false
  end.

(** A record with the keys the reports index. *)
Definition producto_completo {R} (p : Bot.Producto R) : Prop :=
  Bot.cantidad p <> None /\ Bot.precio p <> None /\ Bot.categoria p <> None.

(** What the handler of a state indexes in [user_data] is there. *)
Definition borrador_listo {R} (e : Bot.Estado) (ctx : Bot.Contexto R) : Prop :=
  match e with
  | Bot.INSERTAR_CANTIDAD => Bot.nuevo_producto (Bot.user_data ctx) <> None
  | Bot.INSERTAR_PRECIO =>
      exists b, Bot.nuevo_producto (Bot.user_data ctx) = Some b
                /\ Bot.cantidad b <> None
  | Bot.INSERTAR_CATEGORIA =>
      exists b, Bot.nuevo_producto (Bot.user_data ctx) = Some b
                /\ Bot.cantidad b <> None /\ Bot.precio b <> None
  | Bot.ACTUALIZAR_CANTIDAD =>
      exists n, Bot.producto_actualizar (Bot.user_data ctx) = Some n
                /\ Bot.dict_get n (Bot.cargar_inventario (Bot.archivo ctx)) <> None
  | _ => True
  end.

(** Every record of the document is complete, and the state of the
    conversation has its draft. *)
Definition sesion_coherente {R} (s : Bot.Sesion R) : Prop :=
  Forall (fun kv => producto_completo (snd kv))
         (Bot.cargar_inventario (Bot.archivo (Bot.ctx_sesion s)))
  /\ match Bot.estado s with
     | Some e => borrador_listo e (Bot.ctx_sesion s)
     | None => True
     end.

(** The texts a state of the flows answers with its error message, and
    that message. *)
Definition rechazado {R} `{Aritmetica R} `{Builtins R} (e : Bot.Estado)
    (ctx : Bot.Contexto R) (texto : string) : Prop :=
  match e with
  | Bot.INSERTAR_CANTIDAD | Bot.ACTUALIZAR_CANTIDAD =>
      match py_int texto with
      | Some c => (c < 0)%Z
      | None => True
      end
  | Bot.INSERTAR_PRECIO =>
      match py_float texto with
      | Some p => r_ltb p r_cero = true
      | None => True
      end
  | Bot.ACTUALIZAR_SELECCION | Bot.BORRAR_SELECCION =>
      Bot.dict_get texto (Bot.cargar_inventario (Bot.archivo ctx)) = None
  | _ => False
  end.

Definition mensaje_de_error {R} (e : Bot.Estado) : Bot.Respuesta R :=
  match e with
  | Bot.INSERTAR_PRECIO => Bot.PrecioInvalido
  | Bot.ACTUALIZAR_SELECCION | Bot.BORRAR_SELECCION => Bot.NoEncontrado
  | _ => Bot.NumeroInvalido
  end.

(* ------------------------------------------------------------------ *)
(** ** config.py *)

Module Config.

(** What [validar_configuracion] reports. *)
Inductive Error :=
| TokenSinConfigurar
| PorcentajeFueraDeRango.

(** [a or b] where [a] is [os.getenv(...)]: [None] and the empty string are
    false. *)
Definition o_bien (a : option string) (b : string) : string :=
  match a with
  | Some (String c r) => String c r
  | _ => b
  end.

(** [TELEGRAM_TOKEN], from the variables [TELEGRAM_TOKEN] and
    [TELEGRAM_BOT_TOKEN] of the environment. *)
Definition TELEGRAM_TOKEN (token bot_token : option string) : string :=
  o_bien token (o_bien bot_token "").

Section ConAritmetica.
Context {R : Type} `{Aritmetica R} `{Builtins R}.

(** [STOCK_MINIMO_PORCENTAJE], from the variable [PORCENTAJE_ALERTA_MINIMO]
    of the environment. *)
Definition STOCK_MINIMO_PORCENTAJE (porcentaje_env : option string) : R :=
  match porcentaje_env with
  | Some (String c r) =>
      match py_float (String c r) with
      | Some val =>
          if r_ltb (r_de_entero 1) val then r_div val (r_de_entero 100) else val
      | None => r_un_decimo
      end
  | _ => r_un_decimo
  end.

Definition validar_configuracion (telegram_token : string) (stock_minimo_porcentaje : R)
    : list Error :=
  (if String.eqb telegram_token "TU_TOKEN_AQUI" then [TokenSinConfigurar] else [])
  ++ (if r_ltb (r_de_entero 0) stock_minimo_porcentaje
         && r_ltb stock_minimo_porcentaje (r_de_entero 1)
      then [] else [PorcentajeFueraDeRango]).

End ConAritmetica.

End Config.

(* ------------------------------------------------------------------ *)
(** * Properties *)

(** ** Sorting *)

Section Orden.
Variable A : Type.
Variable leb : A -> A -> bool.
Hypothesis leb_total : forall a b, leb a b = true \/ leb b a = true.

Lemma insertar_ordenado_Permutation x l :
  Permutation (insertar_ordenado leb x l) (x :: l).
Proof.
  induction l as [|y l IH]; simpl.
  - apply Permutation_refl.
  - destruct (leb x y).
    + apply Permutation_refl.
    + apply Permutation_trans with (y :: x :: l).
      * apply perm_skip, IH.
      * apply perm_swap.
Qed.

Lemma ordenar_por_Permutation l : Permutation (ordenar_por leb l) l.
Proof.
  induction l as [|x l IH]; simpl.
  - apply perm_nil.
  - eapply Permutation_trans.
    + apply insertar_ordenado_Permutation.
    + apply perm_skip, IH.
Qed.

Lemma insertar_ordenado_HdRel a x l :
  leb a x = true ->
  HdRel (fun u v => leb u v = true) a l ->
  HdRel (fun u v => leb u v = true) a (insertar_ordenado leb x l).
Proof.
  intros Hax Hl. destruct l as [|y l]; simpl.
  - constructor. exact Hax.
  - destruct (leb x y); constructor.
    + exact Hax.
    + inversion Hl; assumption.
Qed.

Lemma insertar_ordenado_Sorted x l :
  Sorted (fun u v => leb u v = true) l ->
  Sorted (fun u v => leb u v = true) (insertar_ordenado leb x l).
Proof.
  induction l as [|y l IH]; intros Hs; simpl.
  - repeat constructor.
  - destruct (leb x y) eqn:Hxy.
    + constructor; [exact Hs | constructor; exact Hxy].
    + inversion Hs as [|? ? Hs' Hhd]; subst.
      constructor.
      * apply IH, Hs'.
      * apply insertar_ordenado_HdRel; [|exact Hhd].
        destruct (leb_total x y) as [H|H]; [congruence | exact H].
Qed.

Lemma ordenar_por_Sorted l :
  Sorted (fun u v => leb u v = true) (ordenar_por leb l).
Proof.
  induction l as [|x l IH]; simpl.
  - constructor.
  - apply insertar_ordenado_Sorted, IH.
Qed.

End Orden.

Lemma Sorted_map_inv {A B} (f : A -> B) (P : B -> B -> Prop) (l : list A) :
  Sorted (fun a b => P (f a) (f b)) l -> Sorted P (map f l).
Proof.
  induction 1 as [|a l Hs IH Hhd]; simpl; constructor.
  - exact IH.
  - destruct Hhd; simpl; constructor; assumption.
Qed.

Lemma secuenciar_map_fst {A B} (f : string * A -> Bot.Quiza B) (g : B -> string)
    (l : list (string * A)) (r : list B) :
  (forall kv b, f kv = Bot.Valor b -> g b = fst kv) ->
  Bot.secuenciar (map f l) = Bot.Valor r ->
  map g r = map fst l.
Proof.
  intros Hf. revert r.
  induction l as [|kv l IH]; simpl; intros r Hr.
  - inversion Hr. reflexivity.
  - destruct (f kv) as [b|e] eqn:Hb; simpl in Hr; [|discriminate].
    destruct (Bot.secuenciar (map f l)) as [r'|e]; simpl in Hr; [|discriminate].
    inversion Hr; subst. simpl. f_equal.
    + apply Hf, Hb.
    + apply IH. reflexivity.
Qed.

(** ** The inventory listing *)

Section Listado.
Context {R : Type} `{Aritmetica R}.

Lemma linea_de_nombre (kv : string * Bot.Producto R) (li : Bot.Linea R) :
  Bot.linea_de kv = Bot.Valor li -> Bot.li_nombre li = fst kv.
Proof.
  unfold Bot.linea_de, Bot.ligar, Bot.indice.
  destruct (Bot.cantidad (snd kv)); [|discriminate].
  destruct (Bot.precio (snd kv)); [|discriminate].
  destruct (Bot.categoria (snd kv)); [|discriminate].
  intros E. inversion E. reflexivity.
Qed.

(** C7 (as amended): [Database.listar_productos] returns every row of the
    table exactly once, sorted by name in ascending byte order, and the empty
    list for the empty table; [mostrar_inventario] of bot.py reports every
    product of the document once, in the order of the document (insertion
    order, not sorted), and answers an empty document with the "inventory is
    empty" message instead of raising. *)
Theorem C7_listar_productos :
  (forall t : Database.Tabla R,
      Permutation (Database.listar_productos t)
                  (map Database.listado_de_fila (Database.filas t))
      /\ Sorted (fun a b => String.leb a b = true)
                (map (@Database.l_nombre R) (Database.listar_productos t)))
  /\ Database.listar_productos (@Database.init_db R) = []
  /\ (forall ctx : Bot.Contexto R,
         Bot.cargar_inventario (Bot.archivo ctx) = [] ->
         Bot.mostrar_inventario ctx = Bot.Valor Bot.InventarioVacio)
  /\ (forall (ctx : Bot.Contexto R) r,
         Bot.mostrar_inventario ctx = Bot.Valor r ->
         Bot.cargar_inventario (Bot.archivo ctx) <> [] ->
         exists lineas,
           r = Bot.InventarioCompleto lineas
           /\ map (@Bot.li_nombre R) lineas
              = map fst (Bot.cargar_inventario (Bot.archivo ctx))).
Proof.
  split; [|split; [|split]].
  - intros t. split.
    + unfold Database.listar_productos.
      apply Permutation_map, ordenar_por_Permutation.
    + unfold Database.listar_productos. rewrite map_map. simpl.
      apply Sorted_map_inv with (f := @Database.nombre R).
      apply ordenar_por_Sorted.
      intros a b. apply String.leb_total.
  - reflexivity.
  - intros ctx He. unfold Bot.mostrar_inventario. rewrite He. reflexivity.
  - intros ctx r Hr Hne. unfold Bot.mostrar_inventario in Hr.
    destruct (Bot.cargar_inventario (Bot.archivo ctx)) as [|kv l] eqn:Hinv;
      [congruence|].
    destruct (Bot.secuenciar (map Bot.linea_de (kv :: l))) as [lineas|e] eqn:Hs;
      simpl in Hr; [|discriminate].
    exists lineas. split; [congruence|].
    eapply secuenciar_map_fst; [|exact Hs].
    intros kv' b Hb. apply linea_de_nombre, Hb.
Qed.

End Listado.

(** The theorem at the document holding "banana" then "arroz". *)
Lemma C7_listar_productos_witness :
  exists lineas,
    Bot.mostrar_inventario (Bot.ctx_sesion sesion_banana_arroz)
    = Bot.Valor (Bot.InventarioCompleto lineas)
    /\ map (@Bot.li_nombre Q) lineas = ["banana"; "arroz"].
Proof.
  destruct (@C7_listar_productos Q _) as [_ [_ [_ Hbot]]].
  destruct (Hbot (Bot.ctx_sesion sesion_banana_arroz) _ eq_refl) as [l [Hl Hn]].
  - vm_compute. discriminate.
  - exists l. split.
    + rewrite <- Hl. reflexivity.
    + exact Hn.
Defined.

(** C7 (as stated) fails on bot.py: after inserting "banana" and then
    "arroz", [mostrar_inventario] lists "banana" before "arroz". *)
Lemma C7_listar_counterexample :
  ~ (forall (ctx : Bot.Contexto Q) lineas,
        Bot.mostrar_inventario ctx = Bot.Valor (Bot.InventarioCompleto lineas) ->
        Sorted (fun a b => String.leb a b = true) (map (@Bot.li_nombre Q) lineas)).
Proof.
  intros Hc.
  specialize (Hc (Bot.ctx_sesion sesion_banana_arroz) _ eq_refl).
  vm_compute in Hc.
  inversion Hc as [|? ? _ Hhd]; subst.
  inversion Hhd as [|? ? Hle]; subst.
  discriminate Hle.
Qed.

(** ** Low stock *)

Lemma Sorted_Forall_impl {A} (P P' : A -> A -> Prop) (I : A -> Prop) (l : list A) :
  (forall a b, I a -> I b -> P a b -> P' a b) ->
  Forall I l -> Sorted P l -> Sorted P' l.
Proof.
  intros Himp Hall Hs. induction Hs as [|a l Hs IH Hhd].
  - constructor.
  - inversion Hall as [|? ? Ha Hl]; subst. constructor.
    + apply IH, Hl.
    + destruct Hhd as [|b l' Hab]; constructor.
      inversion Hl; subst. apply Himp; assumption.
Qed.

Lemma Q_es_cero_iff (x : Q) : Q_es_cero x = true <-> x == 0.
Proof. unfold Q_es_cero. apply Qeq_bool_iff. Qed.

Lemma es_bajo_iff (f : Database.Fila Q) :
  Database.es_bajo f = true
  <-> Database.cantidad f <= Database.cantidad_inicial f * (1 # 10).
Proof. unfold Database.es_bajo. simpl. apply Qle_bool_iff. Qed.

Lemma razon_sql_orden (a b : Database.Fila Q) :
  0 <= Database.cantidad b ->
  Database.es_bajo b = true ->
  clave_leb (Database.razon_sql a) (Database.razon_sql b) = true ->
  razon_o_cero (Database.cantidad a) (Database.cantidad_inicial a)
  <= razon_o_cero (Database.cantidad b) (Database.cantidad_inicial b).
Proof.
  intros Hb Hlow. rewrite es_bajo_iff in Hlow.
  unfold Database.razon_sql, razon_o_cero. simpl.
  destruct (Q_es_cero (Database.cantidad_inicial a)) eqn:Ea;
  destruct (Q_es_cero (Database.cantidad_inicial b)) eqn:Eb; simpl; intros Hk.
  - apply Qle_refl.
  - assert (Hnz : ~ Database.cantidad_inicial b == 0).
    { intros E. apply Q_es_cero_iff in E. congruence. }
    apply Qle_shift_div_l; [|lra].
    destruct (Qlt_le_dec 0 (Database.cantidad_inicial b)) as [Hp|Hn]; [exact Hp|].
    exfalso. apply Hnz. lra.
  - discriminate.
  - apply Qle_bool_iff. exact Hk.
Qed.

Lemma clave_leb_total_Q (a b : option Q) :
  clave_leb a b = true \/ clave_leb b a = true.
Proof.
  destruct a as [x|], b as [y|]; simpl; auto.
  destruct (Qlt_le_dec y x) as [Hlt|Hle].
  - right. apply Qle_bool_iff. lra.
  - left. apply Qle_bool_iff. exact Hle.
Qed.

Lemma filas_bajas_Permutation (t : Database.Tabla Q) :
  Permutation (Database.filas_bajas t) (filter Database.es_bajo (Database.filas t)).
Proof. apply ordenar_por_Permutation. Qed.

Lemma filas_bajas_In (t : Database.Tabla Q) f :
  In f (Database.filas_bajas t) <-> In f (Database.filas t) /\ Database.es_bajo f = true.
Proof.
  rewrite <- filter_In. split; apply Permutation_in.
  - apply filas_bajas_Permutation.
  - apply Permutation_sym, filas_bajas_Permutation.
Qed.

Lemma productos_bajo_stock_filter (inv : Bot.Inventario Q) l :
  Bot.productos_bajo_stock inv = Bot.Valor l ->
  l = map Bot.entrada_de (filter Bot.es_bajo_stock inv).
Proof.
  revert l. induction inv as [|[n p] inv IH]; intros l Hl.
  - inversion Hl. reflexivity.
  - cbn [Bot.productos_bajo_stock] in Hl. cbn [filter].
    unfold Bot.es_bajo_stock at 1. cbn [snd fst].
    destruct (Bot.cantidad p) as [c|] eqn:Hc; [|discriminate].
    cbn [Bot.indice Bot.ligar] in Hl.
    destruct (Bot.productos_bajo_stock inv) as [r|e]; [|discriminate].
    cbn [Bot.ligar] in Hl.
    specialize (IH r eq_refl). inversion Hl; subst. clear Hl.
    fold (Bot.inicial_leida p c).
    unfold Bot.limite_de. cbn [r_leb r_de_entero r_mult r_un_decimo aritmetica_Q].
    destruct (Qle_bool _ _); [|reflexivity].
    cbn [map]. f_equal.
    unfold Bot.entrada_de, Bot.limite_de. cbn [snd fst]. rewrite Hc. reflexivity.
Qed.

Lemma productos_bajo_stock_total (inv : Bot.Inventario Q) :
  (forall kv, In kv inv -> Bot.cantidad (snd kv) <> None) ->
  exists l, Bot.productos_bajo_stock inv = Bot.Valor l.
Proof.
  induction inv as [|[n p] inv IH]; simpl; intros Hwf.
  - eauto.
  - destruct (Bot.cantidad p) as [c|] eqn:Hc.
    + destruct IH as [r Hr]; [intros kv Hkv; apply Hwf; auto|].
      rewrite Hr. simpl. eauto.
    + exfalso. apply (Hwf (n, p)); auto.
Qed.





(** ** Loading the document *)

Section Carga.
Context {R : Type} `{Aritmetica R} `{Builtins R}.


End Carga.


(** ** The conversation flow *)

Section Flujo.
Context {R : Type} `{Aritmetica R} `{Builtins R}.

(** Only the commit steps write the document: the handlers of every other
    state leave [inventario.json] as it is. *)
Lemma manejador_archivo (e : Bot.Estado) (ahora texto : string) (ctx : Bot.Contexto R) :
  e <> Bot.INSERTAR_CATEGORIA -> e <> Bot.ACTUALIZAR_CANTIDAD ->
  e <> Bot.BORRAR_SELECCION ->
  Bot.archivo (Bot.contexto (Bot.manejador e ahora texto ctx)) = Bot.archivo ctx.
Proof.
  intros H1 H2 H3. destruct e; try congruence; simpl.
  - unfold Bot.menu_handler, Bot.informe.
    repeat match goal with
           | |- context [if ?b then _ else _] => destruct b
           | |- context [match ?m with Bot.Valor _ => _ | Bot.Lanza _ => _ end] =>
               destruct m
           | |- context [match Bot.cargar_inventario ?a with _ => _ end] =>
               destruct (Bot.cargar_inventario a)
           end; reflexivity.
  - reflexivity.
  - unfold Bot.insertar_cantidad.
    destruct (py_int texto) as [c|]; [|reflexivity].
    destruct (c <? 0)%Z; [reflexivity|].
    destruct (Bot.nuevo_producto (Bot.user_data ctx)); reflexivity.
  - unfold Bot.insertar_precio.
    destruct (py_float texto) as [p|]; [|reflexivity].
    destruct (r_ltb p r_cero); [reflexivity|].
    destruct (Bot.nuevo_producto (Bot.user_data ctx)); reflexivity.
  - unfold Bot.actualizar_seleccion.
    destruct (Bot.dict_get texto _) as [p|]; [|reflexivity].
    destruct (Bot.cantidad p); reflexivity.
Qed.

(** C9: in every conversation state the command [/cancelar] is handled by
    the fallback [cancelar]: the session goes to [MENU], [user_data] is
    cleared, the cancellation message is sent (followed by the welcome menu
    of [start]), and [inventario.json] is left as it was. *)
Theorem C9_cancelar (ahora : string) (e : Bot.Estado) (ctx : Bot.Contexto R) :
  Bot.despachar ahora (Bot.Comando "cancelar")
                {| Bot.estado := Some e; Bot.ctx_sesion := ctx |}
  = ({| Bot.estado := Some Bot.MENU;
        Bot.ctx_sesion := {| Bot.user_data := Bot.user_data_vacio;
                             Bot.archivo := Bot.archivo ctx |} |},
     [Bot.OperacionCancelada; Bot.Bienvenida]).
Proof.
  unfold Bot.despachar, Bot.seleccionar_manejador.
  cbn [Bot.estado Bot.ctx_sesion].
  change (String.eqb "cancelar" "cancelar") with true. cbv iota.
  unfold Bot.cancelar, Bot.start, Bot.con_user_data.
  reflexivity.
Qed.

(** C8 (as amended): in [INSERTAR_CANTIDAD], with the draft of the insert
    flow in [user_data], a text that [int] parses as a non-negative integer
    stores it in the draft as [cantidad] and [cantidad_inicial], asks for the
    price and moves to [INSERTAR_PRECIO]; a text that [int] rejects, or a
    negative integer, gets the "enter a valid number" message and leaves the
    state, the draft and the document unchanged, so no product is created. *)
Theorem C8_insertar_cantidad (ahora texto : string) (ctx : Bot.Contexto R)
    (b : Bot.Producto R) :
  Bot.nuevo_producto (Bot.user_data ctx) = Some b ->
  let s := {| Bot.estado := Some Bot.INSERTAR_CANTIDAD; Bot.ctx_sesion := ctx |} in
  (forall c, py_int texto = Some c -> (0 <= c)%Z ->
     Bot.despachar ahora (Bot.Texto texto) s
     = ({| Bot.estado := Some Bot.INSERTAR_PRECIO;
           Bot.ctx_sesion :=
             {| Bot.user_data :=
                  {| Bot.nuevo_producto :=
                       Some {| Bot.nombre := Bot.nombre b; Bot.cantidad := Some c;
                               Bot.cantidad_inicial := Some c;
                               Bot.precio := Bot.precio b;
                               Bot.categoria := Bot.categoria b;
                               Bot.fecha_creacion := Bot.fecha_creacion b |};
                     Bot.producto_actualizar :=
                       Bot.producto_actualizar (Bot.user_data ctx) |};
                Bot.archivo := Bot.archivo ctx |} |},
        [Bot.PedirPrecio]))
  /\ ((py_int texto = None \/ exists c, py_int texto = Some c /\ (c < 0)%Z) ->
      Bot.despachar ahora (Bot.Texto texto) s = (s, [Bot.NumeroInvalido])).
Proof.
  intros Hb s. split.
  - intros c Hc Hpos.
    unfold Bot.despachar, s. cbn [Bot.seleccionar_manejador Bot.estado Bot.manejador
                                   Bot.ctx_sesion].
    unfold Bot.insertar_cantidad. rewrite Hc, Hb.
    destruct (c <? 0)%Z eqn:Hlt; [apply Z.ltb_lt in Hlt; lia|].
    reflexivity.
  - intros Hbad.
    unfold Bot.despachar, s. cbn [Bot.seleccionar_manejador Bot.estado Bot.manejador
                                   Bot.ctx_sesion].
    unfold Bot.insertar_cantidad.
    destruct Hbad as [Hn | [c [Hc Hneg]]].
    + rewrite Hn. reflexivity.
    + rewrite Hc. apply Z.ltb_lt in Hneg. rewrite Hneg. reflexivity.
Qed.

End Flujo.

(** The theorem at the texts "12" and "doce". *)
Lemma C8_insertar_cantidad_witness :
  Bot.estado (fst (Bot.despachar (H0 := builtins_decimales) "t" (Bot.Texto "12")
                     {| Bot.estado := Some Bot.INSERTAR_CANTIDAD;
                        Bot.ctx_sesion := ctx_con_borrador |}))
  = Some Bot.INSERTAR_PRECIO
  /\ Bot.despachar (H0 := builtins_decimales) "t" (Bot.Texto "doce")
                   {| Bot.estado := Some Bot.INSERTAR_CANTIDAD;
                      Bot.ctx_sesion := ctx_con_borrador |}
     = ({| Bot.estado := Some Bot.INSERTAR_CANTIDAD;
           Bot.ctx_sesion := ctx_con_borrador |}, [Bot.NumeroInvalido]).
Proof.
  split.
  - destruct (@C8_insertar_cantidad Q _ builtins_decimales "t" "12" ctx_con_borrador
                _ eq_refl) as [Hok _].
    rewrite (Hok 12%Z eq_refl ltac:(lia)). reflexivity.
  - destruct (@C8_insertar_cantidad Q _ builtins_decimales "t" "doce" ctx_con_borrador
                _ eq_refl) as [_ Hbad].
    apply Hbad. left. reflexivity.
Defined.

(** C8 (as stated) fails: the text "3.5" is parseable as a non-negative
    number ([float] returns 3.5), yet [int] rejects it and the session stays
    in [INSERTAR_CANTIDAD]. *)
Lemma C8_insertar_cantidad_counterexample :
  ~ (forall (texto : string) (x : Q),
        py_float (Builtins := builtins_decimales) texto = Some x -> 0 <= x ->
        Bot.estado (fst (Bot.despachar (H0 := builtins_decimales) "t" (Bot.Texto texto)
                           {| Bot.estado := Some Bot.INSERTAR_CANTIDAD;
                              Bot.ctx_sesion := ctx_con_borrador |}))
        = Some Bot.INSERTAR_PRECIO).
Proof.
  intros Hc.
  specialize (Hc "3.5" (35 # 10) eq_refl ltac:(discriminate)).
  vm_compute in Hc. discriminate Hc.
Qed.


(** ** Dictionaries *)

Section DictFacts.
Variable V : Type.
Implicit Types (d : list (string * V)) (k : string) (v : V).

Lemma dict_get_In k d v : Bot.dict_get k d = Some v -> In (k, v) d.
Proof.
  induction d as [|[k' v'] d IH]; simpl; [discriminate|].
  destruct (String.eqb_spec k' k) as [->|Hne]; intros E.
  - inversion E. left. reflexivity.
  - right. apply IH, E.
Qed.

Lemma dict_set_In k v d kv : In kv (Bot.dict_set k v d) -> kv = (k, v) \/ In kv d.
Proof.
  induction d as [|[k' v'] d IH]; simpl.
  - intros [<-|[]]. left. reflexivity.
  - destruct (String.eqb k' k); simpl.
    + intros [<-|Hin]; [left; reflexivity | right; right; exact Hin].
    + intros [<-|Hin]; [right; left; reflexivity|].
      destruct (IH Hin) as [->|Hd]; [left; reflexivity | right; right; exact Hd].
Qed.

Lemma dict_del_In k d kv : In kv (Bot.dict_del k d) -> In kv d.
Proof. unfold Bot.dict_del. intros Hin. apply filter_In in Hin. apply Hin. Qed.

Lemma dict_get_set_eq k v d : Bot.dict_get k (Bot.dict_set k v d) = Some v.
Proof.
  induction d as [|[k' v'] d IH]; simpl.
  - rewrite String.eqb_refl. reflexivity.
  - destruct (String.eqb k' k) eqn:E; simpl.
    + rewrite String.eqb_refl. reflexivity.
    + rewrite E. exact IH.
Qed.

Lemma dict_get_set_neq k k' v d :
  k <> k' -> Bot.dict_get k' (Bot.dict_set k v d) = Bot.dict_get k' d.
Proof.
  intros Hne. induction d as [|[k0 v0] d IH]; simpl.
  - apply String.eqb_neq in Hne. rewrite Hne. reflexivity.
  - destruct (String.eqb_spec k0 k) as [->|Hk0]; simpl.
    + apply String.eqb_neq in Hne. rewrite Hne. reflexivity.
    + destruct (String.eqb k0 k'); [reflexivity | exact IH].
Qed.

Lemma dict_set_nuevo k v d :
  Bot.dict_get k d = None -> Bot.dict_set k v d = d ++ [(k, v)].
Proof.
  induction d as [|[k' v'] d IH]; simpl; [reflexivity|].
  destruct (String.eqb k' k); [discriminate|].
  intros E. rewrite (IH E). reflexivity.
Qed.

Lemma dict_set_claves k v v0 d :
  Bot.dict_get k d = Some v0 -> map fst (Bot.dict_set k v d) = map fst d.
Proof.
  induction d as [|[k' v'] d IH]; simpl; [discriminate|].
  destruct (String.eqb_spec k' k) as [->|Hne]; simpl.
  - reflexivity.
  - intros E. rewrite (IH E). reflexivity.
Qed.

End DictFacts.

(** ** The flows, step by step *)

Section Pasos.
Context {R : Type} `{Aritmetica R} `{Builtins R}.

Lemma ejecutar_app us vs (s : Bot.Sesion R) :
  Bot.ejecutar (us ++ vs) s
  = (fst (Bot.ejecutar vs (fst (Bot.ejecutar us s))),
     snd (Bot.ejecutar us s) ++ snd (Bot.ejecutar vs (fst (Bot.ejecutar us s)))).
Proof.
  revert s. induction us as [|[ahora u] us IH]; intros s; simpl.
  - destruct (Bot.ejecutar vs s). reflexivity.
  - destruct (Bot.despachar ahora u s) as [s1 r1].
    rewrite IH.
    destruct (Bot.ejecutar us s1) as [s2 r2]. simpl.
    destruct (Bot.ejecutar vs s2) as [s3 r3]. simpl.
    rewrite app_assoc. reflexivity.
Qed.

Lemma insertar_cantidad_rechaza (texto : string) (ctx : Bot.Contexto R) :
  (py_int texto = None \/ exists c, py_int texto = Some c /\ (c < 0)%Z) ->
  Bot.insertar_cantidad texto ctx
  = {| Bot.retorno := Bot.Valor Bot.INSERTAR_CANTIDAD; Bot.contexto := ctx;
       Bot.respuestas := [Bot.NumeroInvalido] |}.
Proof.
  unfold Bot.insertar_cantidad. intros [Hn | [c [Hc Hneg]]].
  - rewrite Hn. reflexivity.
  - rewrite Hc. apply Z.ltb_lt in Hneg. rewrite Hneg. reflexivity.
Qed.

Lemma insertar_precio_rechaza (texto : string) (ctx : Bot.Contexto R) :
  (py_float texto = None \/ exists p, py_float texto = Some p /\ r_ltb p r_cero = true) ->
  Bot.insertar_precio texto ctx
  = {| Bot.retorno := Bot.Valor Bot.INSERTAR_PRECIO; Bot.contexto := ctx;
       Bot.respuestas := [Bot.PrecioInvalido] |}.
Proof.
  unfold Bot.insertar_precio. intros [Hn | [p [Hp Hneg]]].
  - rewrite Hn. reflexivity.
  - rewrite Hp, Hneg. reflexivity.
Qed.

Lemma actualizar_cantidad_rechaza (texto : string) (ctx : Bot.Contexto R) :
  (py_int texto = None \/ exists c, py_int texto = Some c /\ (c < 0)%Z) ->
  Bot.actualizar_cantidad texto ctx
  = {| Bot.retorno := Bot.Valor Bot.ACTUALIZAR_CANTIDAD; Bot.contexto := ctx;
       Bot.respuestas := [Bot.NumeroInvalido] |}.
Proof.
  unfold Bot.actualizar_cantidad. intros [Hn | [c [Hc Hneg]]].
  - rewrite Hn. reflexivity.
  - rewrite Hc. apply Z.ltb_lt in Hneg. rewrite Hneg. reflexivity.
Qed.

(** A complete pass through the insert flow with valid texts. *)
Lemma ejecutar_guion_insertar (ahora n tc tp cat : string) (c : Z) (p : R)
    (ctx : Bot.Contexto R) :
  py_int tc = Some c -> (0 <= c)%Z ->
  py_float tp = Some p -> r_ltb p r_cero = false ->
  Bot.ejecutar (guion_insertar ahora n tc tp cat) (sesion_en Bot.MENU ctx)
  = (sesion_en Bot.MENU
       {| Bot.user_data := Bot.user_data_vacio;
          Bot.archivo :=
            Bot.guardar_inventario
              (Bot.dict_set n (producto_nuevo ahora n c p cat)
                 (Bot.cargar_inventario (Bot.archivo ctx))) |},
     [Bot.PedirNombre; Bot.PedirCantidad; Bot.PedirPrecio; Bot.PedirCategoria;
      Bot.ProductoAgregado n c (r_redondear 2 p) cat]).
Proof.
  intros Hc Hpos Hp Hnn.
  assert (Hlt : (c <? 0)%Z = false) by (apply Z.ltb_ge; exact Hpos).
  unfold guion_insertar, sesion_en. cbn [Bot.ejecutar].
  unfold Bot.despachar at 1.
  cbn [Bot.seleccionar_manejador Bot.estado Bot.manejador Bot.ctx_sesion].
  unfold Bot.menu_handler.
  change (String.eqb "📦 Insertar Producto" "📦 Insertar Producto") with true.
  cbv iota. cbn [Bot.retorno Bot.contexto Bot.respuestas].
  unfold Bot.despachar at 1.
  cbn [Bot.seleccionar_manejador Bot.estado Bot.manejador Bot.ctx_sesion].
  unfold Bot.insertar_nombre. cbn [Bot.retorno Bot.contexto Bot.respuestas].
  unfold Bot.despachar at 1.
  cbn [Bot.seleccionar_manejador Bot.estado Bot.manejador Bot.ctx_sesion].
  unfold Bot.insertar_cantidad. rewrite Hc, Hlt.
  cbn [Bot.con_nuevo_producto Bot.con_user_data Bot.user_data Bot.nuevo_producto
       Bot.retorno Bot.contexto Bot.respuestas].
  unfold Bot.despachar at 1.
  cbn [Bot.seleccionar_manejador Bot.estado Bot.manejador Bot.ctx_sesion].
  unfold Bot.insertar_precio. rewrite Hp, Hnn.
  cbn [Bot.con_nuevo_producto Bot.con_user_data Bot.user_data Bot.nuevo_producto
       Bot.retorno Bot.contexto Bot.respuestas].
  unfold Bot.despachar at 1.
  cbn [Bot.seleccionar_manejador Bot.estado Bot.manejador Bot.ctx_sesion].
  unfold Bot.insertar_categoria.
  cbn. reflexivity.
Qed.

Lemma menu_actualizar (ctx : Bot.Contexto R) :
  Bot.menu_handler "🔄 Actualizar Producto" ctx
  = match Bot.cargar_inventario (Bot.archivo ctx) with
    | [] => {| Bot.retorno := Bot.Valor Bot.MENU; Bot.contexto := ctx;
               Bot.respuestas := [Bot.NoHayProductos] |}
    | inventario =>
        {| Bot.retorno := Bot.Valor Bot.ACTUALIZAR_SELECCION; Bot.contexto := ctx;
           Bot.respuestas := [Bot.ProductosParaActualizar (map fst inventario)] |}
    end.
Proof. reflexivity. Qed.

Lemma menu_borrar (ctx : Bot.Contexto R) :
  Bot.menu_handler "🗑️ Borrar Producto" ctx
  = match Bot.cargar_inventario (Bot.archivo ctx) with
    | [] => {| Bot.retorno := Bot.Valor Bot.MENU; Bot.contexto := ctx;
               Bot.respuestas := [Bot.NoHayProductos] |}
    | inventario =>
        {| Bot.retorno := Bot.Valor Bot.BORRAR_SELECCION; Bot.contexto := ctx;
           Bot.respuestas := [Bot.ProductosParaBorrar (map fst inventario)] |}
    end.
Proof. reflexivity. Qed.

(** A complete pass through the update flow on an existing product. *)
Lemma ejecutar_guion_actualizar (ahora n tc : string) (c c0 : Z)
    (prod : Bot.Producto R) (ctx : Bot.Contexto R) :
  Bot.dict_get n (Bot.cargar_inventario (Bot.archivo ctx)) = Some prod ->
  Bot.cantidad prod = Some c0 ->
  py_int tc = Some c -> (0 <= c)%Z ->
  Bot.ejecutar (guion_actualizar ahora n tc) (sesion_en Bot.MENU ctx)
  = (sesion_en Bot.MENU
       {| Bot.user_data := Bot.user_data_vacio;
          Bot.archivo :=
            Bot.guardar_inventario
              (Bot.dict_set n (con_cantidad c prod)
                 (Bot.cargar_inventario (Bot.archivo ctx))) |},
     [Bot.ProductosParaActualizar (map fst (Bot.cargar_inventario (Bot.archivo ctx)));
      Bot.ProductoSeleccionado n c0; Bot.ProductoActualizado n c]
     ++ (if r_leb (r_de_entero c) (Bot.limite_de (Bot.inicial_leida (con_cantidad c prod) c))
         then [Bot.AlertaStockBajo n] else [])).
Proof.
  intros Hget Hc0 Hc Hpos.
  assert (Hlt : (c <? 0)%Z = false) by (apply Z.ltb_ge; exact Hpos).
  unfold guion_actualizar, sesion_en. cbn [Bot.ejecutar].
  unfold Bot.despachar at 1.
  cbn [Bot.seleccionar_manejador Bot.estado Bot.manejador Bot.ctx_sesion].
  rewrite menu_actualizar.
  destruct (Bot.cargar_inventario (Bot.archivo ctx)) as [|kv inv] eqn:Hinv;
    [discriminate Hget|].
  cbn [Bot.retorno Bot.contexto Bot.respuestas].
  unfold Bot.despachar at 1.
  cbn [Bot.seleccionar_manejador Bot.estado Bot.manejador Bot.ctx_sesion].
  unfold Bot.actualizar_seleccion. rewrite Hinv, Hget, Hc0.
  cbn [Bot.retorno Bot.contexto Bot.respuestas].
  unfold Bot.despachar at 1.
  cbn [Bot.seleccionar_manejador Bot.estado Bot.manejador Bot.ctx_sesion].
  unfold Bot.actualizar_cantidad. rewrite Hc, Hlt.
  cbn [Bot.con_user_data Bot.user_data Bot.producto_actualizar Bot.archivo].
  rewrite Hinv, Hget.
  cbn [Bot.retorno Bot.contexto Bot.respuestas app].
  rewrite app_nil_r. reflexivity.
Qed.

(** A complete pass through the delete flow on an existing product. *)
Lemma ejecutar_guion_borrar (ahora n : string) (prod : Bot.Producto R)
    (ctx : Bot.Contexto R) :
  Bot.dict_get n (Bot.cargar_inventario (Bot.archivo ctx)) = Some prod ->
  Bot.ejecutar (guion_borrar ahora n) (sesion_en Bot.MENU ctx)
  = (sesion_en Bot.MENU
       {| Bot.user_data := Bot.user_data ctx;
          Bot.archivo :=
            Bot.guardar_inventario
              (Bot.dict_del n (Bot.cargar_inventario (Bot.archivo ctx))) |},
     [Bot.ProductosParaBorrar (map fst (Bot.cargar_inventario (Bot.archivo ctx)));
      Bot.ProductoEliminado n]).
Proof.
  intros Hget.
  unfold guion_borrar, sesion_en. cbn [Bot.ejecutar].
  unfold Bot.despachar at 1.
  cbn [Bot.seleccionar_manejador Bot.estado Bot.manejador Bot.ctx_sesion].
  rewrite menu_borrar.
  destruct (Bot.cargar_inventario (Bot.archivo ctx)) as [|kv inv] eqn:Hinv;
    [discriminate Hget|].
  cbn [Bot.retorno Bot.contexto Bot.respuestas].
  unfold Bot.despachar at 1.
  cbn [Bot.seleccionar_manejador Bot.estado Bot.manejador Bot.ctx_sesion].
  unfold Bot.borrar_producto. rewrite Hinv, Hget.
  reflexivity.
Qed.

End Pasos.


(** ** Duplicate names *)

Section Duplicados.
Context {R : Type} `{Aritmetica R} `{Builtins R}.

Lemma seleccionar_In (t : Database.Tabla R) (f : Database.Fila R) :
  In f (Database.filas t) ->
  exists f', Database.seleccionar (Database.nombre f) t = Some f'.
Proof.
  unfold Database.seleccionar. intros Hin.
  destruct (find _ (Database.filas t)) as [f'|] eqn:E; [eauto|].
  exfalso. apply (find_none _ _ E) in Hin.
  rewrite String.eqb_refl in Hin. discriminate.
Qed.

Lemma seleccionar_Some (t : Database.Tabla R) n f :
  Database.seleccionar n t = Some f ->
  In f (Database.filas t) /\ Database.nombre f = n.
Proof.
  unfold Database.seleccionar. intros E. apply find_some in E.
  destruct E as [Hin Hn]. split; [exact Hin | apply String.eqb_eq, Hn].
Qed.

(** C3 (as amended): in [Database], inserting a name the table already holds
    fails with the "already exists" result and leaves the whole table, hence
    every column of the existing row, as it was.  In bot.py the commit step
    [insertar_categoria] makes no such check: it reports success and the
    record stored under the name becomes the new draft, in the position of
    the old one. *)
Theorem C3_nombre_duplicado :
  (forall (t : Database.Tabla R) (f : Database.Fila R) (ahora : string)
          (c p : R) (cat : string),
      In f (Database.filas t) ->
      Database.insertar_producto ahora (Database.nombre f) c p cat t
      = ({| Database.success := false;
            Database.message := Database.ProductoYaExiste (Database.nombre f);
            Database.producto_id := None |}, t))
  /\ (forall (ctx : Bot.Contexto R) (ahora n tc tp cat : string) (c : Z) (p : R)
             (viejo : Bot.Producto R),
         Bot.dict_get n (Bot.cargar_inventario (Bot.archivo ctx)) = Some viejo ->
         py_int tc = Some c -> (0 <= c)%Z ->
         py_float tp = Some p -> r_ltb p r_cero = false ->
         let fin := Bot.ejecutar (guion_insertar ahora n tc tp cat)
                                 (sesion_en Bot.MENU ctx) in
         let inventario := Bot.cargar_inventario (Bot.archivo (Bot.ctx_sesion (fst fin))) in
         In (Bot.ProductoAgregado n c (r_redondear 2 p) cat) (snd fin)
         /\ Bot.dict_get n inventario = Some (producto_nuevo ahora n c p cat)
         /\ map fst inventario = map fst (Bot.cargar_inventario (Bot.archivo ctx))).
Proof.
  split.
  - intros t f ahora c p cat Hin.
    unfold Database.insertar_producto.
    destruct (seleccionar_In t f Hin) as [f' ->]. reflexivity.
  - intros ctx ahora n tc tp cat c p viejo Hget Hc Hpos Hp Hnn fin inventario.
    subst inventario fin.
    rewrite (ejecutar_guion_insertar ahora n tc tp cat ctx Hc Hpos Hp Hnn).
    cbn [fst snd sesion_en Bot.ctx_sesion Bot.archivo Bot.guardar_inventario
         Bot.cargar_inventario].
    split; [|split].
    + simpl. tauto.
    + apply dict_get_set_eq.
    + eapply dict_set_claves, Hget.
Qed.

End Duplicados.

(** The theorem at the table of "arroz" and "vacio" and at the document of
    "banana" and "arroz". *)
Lemma C3_nombre_duplicado_witness :
  snd (Database.insertar_producto "t9" "arroz" (7 # 1) (999 # 100) "Otros" tabla_arroz_vacio)
  = tabla_arroz_vacio
  /\ Bot.dict_get "arroz"
       (Bot.cargar_inventario
          (Bot.archivo (Bot.ctx_sesion
             (fst (Bot.ejecutar (H0 := builtins_decimales)
                     (guion_insertar "t9" "arroz" "7" "9.99" "Otros")
                     sesion_banana_arroz)))))
     = Some (producto_nuevo "t9" "arroz" 7 (999 # 100) "Otros").
Proof.
  destruct (@C3_nombre_duplicado Q _ builtins_decimales) as [Hdb Hbot].
  split.
  - pose proof (Hdb tabla_arroz_vacio
               {| Database.id := 1; Database.nombre := "arroz";
                  Database.cantidad := 8 # 1; Database.cantidad_inicial := 100 # 1;
                  Database.precio := 12 # 10; Database.categoria := "Granos";
                  Database.fecha_creacion := "t1";
                  Database.fecha_actualizacion := "t2" |} "t9" (7 # 1) (999 # 100) "Otros"
               (or_introl eq_refl)) as E.
    cbn [Database.nombre] in E. rewrite E. reflexivity.
  - apply (Hbot (Bot.ctx_sesion sesion_banana_arroz) "t9" "arroz" "7" "9.99" "Otros"
                7%Z (999 # 100)
                {| Bot.nombre := "arroz"; Bot.cantidad := Some 100%Z;
                   Bot.cantidad_inicial := Some 100%Z; Bot.precio := Some (120 # 100);
                   Bot.categoria := Some "Granos"; Bot.fecha_creacion := Some "t2" |}).
    + reflexivity.
    + reflexivity.
    + lia.
    + reflexivity.
    + reflexivity.
Defined.

(** C3 (as stated) fails on bot.py: inserting "arroz" a second time replaces
    the record of "arroz". *)
Lemma C3_nombre_duplicado_counterexample :
  ~ (forall (s : Bot.Sesion Q) (ahora n tc tp cat : string) (viejo : Bot.Producto Q),
        Bot.estado s = Some Bot.MENU ->
        Bot.dict_get n (Bot.cargar_inventario (Bot.archivo (Bot.ctx_sesion s)))
        = Some viejo ->
        Bot.dict_get n
          (Bot.cargar_inventario
             (Bot.archivo (Bot.ctx_sesion
                (fst (Bot.ejecutar (H0 := builtins_decimales)
                        (guion_insertar ahora n tc tp cat) s)))))
        = Some viejo).
Proof.
  intros Hc.
  specialize (Hc sesion_banana_arroz "t9" "arroz" "7" "9.99" "Otros" _ eq_refl eq_refl).
  vm_compute in Hc. discriminate Hc.
Qed.


(** ** Negative values *)

Lemma find_app_None {A} (p : A -> bool) (l l' : list A) :
  find p l = None -> find p (l ++ l') = find p l'.
Proof.
  induction l as [|x l IH]; simpl; [reflexivity|].
  destruct (p x); [discriminate | exact IH].
Qed.

Section Negativos.
Context {R : Type} `{Aritmetica R} `{Builtins R}.

Lemma menu_handler_contexto (texto : string) (ctx : Bot.Contexto R) :
  Bot.contexto (Bot.menu_handler texto ctx) = ctx.
Proof.
  unfold Bot.menu_handler, Bot.informe.
  repeat match goal with
         | |- context [if ?b then _ else _] => destruct b
         | |- context [match ?m with Bot.Valor _ => _ | Bot.Lanza _ => _ end] =>
             destruct m
         | |- context [match Bot.cargar_inventario ?a with _ => _ end] =>
             destruct (Bot.cargar_inventario a)
         end; reflexivity.
Qed.

Lemma manejador_sin_negativos (e : Bot.Estado) (ahora texto : string)
    (ctx : Bot.Contexto R) :
  ctx_sin_negativos ctx ->
  ctx_sin_negativos (Bot.contexto (Bot.manejador e ahora texto ctx)).
Proof.
  intros Hctx. pose proof Hctx as [Hinv Hdraft]. destruct e; cbn [Bot.manejador].
  - rewrite menu_handler_contexto. exact Hctx.
  - split; [exact Hinv|].
    intros b Hb. inversion Hb; subst. split; intros ? E; discriminate E.
  - unfold Bot.insertar_cantidad.
    destruct (py_int texto) as [c|]; [|exact Hctx].
    destruct (c <? 0)%Z eqn:Hlt; [exact Hctx|].
    destruct (Bot.nuevo_producto (Bot.user_data ctx)) as [b|] eqn:Hb;
      [|exact Hctx].
    split; [exact Hinv|].
    intros b' Hb'. inversion Hb'; subst. clear Hb'.
    destruct (Hdraft b eq_refl) as [_ Hp]. split.
    + intros c' E. inversion E; subst. apply Z.ltb_ge, Hlt.
    + exact Hp.
  - unfold Bot.insertar_precio.
    destruct (py_float texto) as [p|]; [|exact Hctx].
    destruct (r_ltb p r_cero) eqn:Hlt; [exact Hctx|].
    destruct (Bot.nuevo_producto (Bot.user_data ctx)) as [b|] eqn:Hb;
      [|exact Hctx].
    split; [exact Hinv|].
    intros b' Hb'. inversion Hb'; subst. clear Hb'.
    destruct (Hdraft b eq_refl) as [Hc _]. split.
    + exact Hc.
    + intros x E. inversion E; subst. exact Hlt.
  - unfold Bot.insertar_categoria.
    destruct (Bot.nuevo_producto (Bot.user_data ctx)) as [b|] eqn:Hb;
      [|exact Hctx].
    destruct (Hdraft b eq_refl) as [Hc Hp].
    assert (Hnuevo : producto_sin_negativos
                       {| Bot.nombre := Bot.nombre b; Bot.cantidad := Bot.cantidad b;
                          Bot.cantidad_inicial := Bot.cantidad_inicial b;
                          Bot.precio := Bot.precio b; Bot.categoria := Some texto;
                          Bot.fecha_creacion := Some ahora |})
      by (split; assumption).
    assert (Hinv' : forall kv,
               In kv (Bot.dict_set (Bot.nombre b)
                        {| Bot.nombre := Bot.nombre b; Bot.cantidad := Bot.cantidad b;
                           Bot.cantidad_inicial := Bot.cantidad_inicial b;
                           Bot.precio := Bot.precio b; Bot.categoria := Some texto;
                           Bot.fecha_creacion := Some ahora |}
                        (Bot.cargar_inventario (Bot.archivo ctx))) ->
               producto_sin_negativos (snd kv)).
    { intros kv Hin. apply dict_set_In in Hin. destruct Hin as [->|Hin].
      - exact Hnuevo.
      - apply Hinv, Hin. }
    cbn [Bot.cantidad Bot.precio Bot.nombre].
    destruct (Bot.cantidad b) as [c|] eqn:Ec; [destruct (Bot.precio b) as [p|] eqn:Ep|];
      (split; [exact Hinv' | ]); cbn; intros b' Hb'; try discriminate Hb';
      inversion Hb'; subst; exact Hnuevo.
  - unfold Bot.actualizar_seleccion.
    destruct (Bot.dict_get texto _) as [p|]; [|exact Hctx].
    destruct (Bot.cantidad p); exact Hctx.
  - unfold Bot.actualizar_cantidad.
    destruct (py_int texto) as [c|]; [|exact Hctx].
    destruct (c <? 0)%Z eqn:Hlt; [exact Hctx|].
    destruct (Bot.producto_actualizar (Bot.user_data ctx)) as [n|];
      [|exact Hctx].
    destruct (Bot.dict_get n _) as [p|] eqn:Hget; [|exact Hctx].
    split; cbn; [|intros b Hb; discriminate Hb].
    intros kv Hin. apply dict_set_In in Hin. destruct Hin as [->|Hin].
    + apply dict_get_In in Hget. destruct (Hinv _ Hget) as [_ Hp]. split.
      * intros c' E. inversion E; subst. apply Z.ltb_ge, Hlt.
      * exact Hp.
    + apply Hinv, Hin.
  - unfold Bot.borrar_producto.
    destruct (Bot.dict_get texto _) as [p|]; [|exact Hctx].
    split; cbn; [|exact Hdraft].
    intros kv Hin. apply dict_del_In in Hin. apply Hinv, Hin.
Qed.

Lemma despachar_sin_negativos (ahora : string) (u : Bot.Entrada) (s : Bot.Sesion R) :
  ctx_sin_negativos (Bot.ctx_sesion s) ->
  ctx_sin_negativos (Bot.ctx_sesion (fst (Bot.despachar ahora u s))).
Proof.
  intros Hs. unfold Bot.despachar, Bot.seleccionar_manejador.
  destruct (Bot.estado s) as [e|], u as [t|c]; cbn [fst Bot.ctx_sesion];
    try exact Hs.
  - apply manejador_sin_negativos, Hs.
  - destruct (String.eqb c "cancelar"); cbn [fst Bot.ctx_sesion]; [|exact Hs].
    destruct Hs as [Hinv _]. split; [exact Hinv|].
    intros b Hb. discriminate Hb.
  - destruct (String.eqb c "start"); cbn [fst Bot.ctx_sesion]; exact Hs.
Qed.

Lemma ejecutar_sin_negativos (us : list (string * Bot.Entrada)) (s : Bot.Sesion R) :
  ctx_sin_negativos (Bot.ctx_sesion s) ->
  ctx_sin_negativos (Bot.ctx_sesion (fst (Bot.ejecutar us s))).
Proof.
  revert s. induction us as [|[ahora u] us IH]; intros s Hs; cbn [Bot.ejecutar].
  - exact Hs.
  - pose proof (despachar_sin_negativos ahora u s Hs) as H1.
    destruct (Bot.despachar ahora u s) as [s1 r1]. cbn [fst] in H1.
    specialize (IH s1 H1).
    destruct (Bot.ejecutar us s1) as [s2 r2]. exact IH.
Qed.

(** C4 (as amended): the conversation flow of bot.py rejects a negative
    quantity or price before anything is written: in [INSERTAR_CANTIDAD],
    [INSERTAR_PRECIO] and [ACTUALIZAR_CANTIDAD] a text that parses to a
    negative value gets the error message and leaves the state, the draft
    and the document unchanged; hence along every run of the conversation a
    document without negative quantities and prices stays without them.
    The methods of [Database] make no sign test: [insertar_producto] of a
    new name and [actualizar_producto] of an existing one succeed and store
    the values they are given. *)
Theorem C4_valores_negativos :
  (forall (ahora texto : string) (ctx : Bot.Contexto R) (c : Z),
      py_int texto = Some c -> (c < 0)%Z ->
      Bot.despachar ahora (Bot.Texto texto) (sesion_en Bot.INSERTAR_CANTIDAD ctx)
      = (sesion_en Bot.INSERTAR_CANTIDAD ctx, [Bot.NumeroInvalido])
      /\ Bot.despachar ahora (Bot.Texto texto) (sesion_en Bot.ACTUALIZAR_CANTIDAD ctx)
         = (sesion_en Bot.ACTUALIZAR_CANTIDAD ctx, [Bot.NumeroInvalido]))
  /\ (forall (ahora texto : string) (ctx : Bot.Contexto R) (p : R),
         py_float texto = Some p -> r_ltb p r_cero = true ->
         Bot.despachar ahora (Bot.Texto texto) (sesion_en Bot.INSERTAR_PRECIO ctx)
         = (sesion_en Bot.INSERTAR_PRECIO ctx, [Bot.PrecioInvalido]))
  /\ (forall (us : list (string * Bot.Entrada)) (s : Bot.Sesion R),
         ctx_sin_negativos (Bot.ctx_sesion s) ->
         ctx_sin_negativos (Bot.ctx_sesion (fst (Bot.ejecutar us s))))
  /\ (forall (t : Database.Tabla R) (ahora n : string) (c p : R) (cat : string),
         Database.seleccionar n t = None ->
         let r := Database.insertar_producto ahora n c p cat t in
         Database.success (fst r) = true
         /\ exists f, Database.seleccionar n (snd r) = Some f
                      /\ Database.cantidad f = c /\ Database.precio f = p)
  /\ (forall (t : Database.Tabla R) (ahora n : string) (c : R) (f : Database.Fila R),
         Database.seleccionar n t = Some f ->
         let r := Database.actualizar_producto ahora n (Some c) None t in
         Database.success (fst r) = true
         /\ exists f', Database.seleccionar n (snd r) = Some f'
                       /\ Database.cantidad f' = c).
Proof.
  split; [|split; [|split; [|split]]].
  - intros ahora texto ctx c Hc Hneg. split.
    + unfold Bot.despachar, sesion_en.
      cbn [Bot.seleccionar_manejador Bot.estado Bot.manejador Bot.ctx_sesion].
      rewrite insertar_cantidad_rechaza by (right; eauto). reflexivity.
    + unfold Bot.despachar, sesion_en.
      cbn [Bot.seleccionar_manejador Bot.estado Bot.manejador Bot.ctx_sesion].
      rewrite actualizar_cantidad_rechaza by (right; eauto). reflexivity.
  - intros ahora texto ctx p Hp Hneg.
    unfold Bot.despachar, sesion_en.
    cbn [Bot.seleccionar_manejador Bot.estado Bot.manejador Bot.ctx_sesion].
    rewrite insertar_precio_rechaza by (right; eauto). reflexivity.
  - apply ejecutar_sin_negativos.
  - intros t ahora n c p cat Hnone r. subst r.
    unfold Database.insertar_producto. rewrite Hnone. cbn [fst snd Database.success].
    split; [reflexivity|].
    unfold Database.seleccionar in *. cbn [Database.filas].
    rewrite (find_app_None _ _ _ Hnone). cbn [find Database.nombre].
    rewrite String.eqb_refl. eexists. split; [reflexivity|]. split; reflexivity.
  - intros t ahora n c f Hsome r. subst r.
    unfold Database.actualizar_producto. rewrite Hsome. cbn [fst snd Database.success].
    split; [reflexivity|].
    unfold Database.seleccionar, Database.modificar in *. cbn [Database.filas].
    induction (Database.filas t) as [|g l IH]; [discriminate Hsome|].
    cbn [find map] in *.
    destruct (String.eqb (Database.nombre g) n) eqn:E.
    + cbn [Database.poner_cantidad Database.nombre]. rewrite E.
      eexists. split; [reflexivity|]. reflexivity.
    + rewrite E. apply IH, Hsome.
Qed.

End Negativos.

(** The theorem at the texts "-5" and "-1.5", along the run that inserts
    "banana" and "arroz", and at the table of "arroz" and "vacio". *)
Lemma C4_valores_negativos_witness :
  Bot.despachar (H0 := builtins_decimales) "t" (Bot.Texto "-5")
                (sesion_en Bot.INSERTAR_CANTIDAD ctx_con_borrador)
  = (sesion_en Bot.INSERTAR_CANTIDAD ctx_con_borrador, [Bot.NumeroInvalido])
  /\ Bot.despachar (H0 := builtins_decimales) "t" (Bot.Texto "-1.5")
                   (sesion_en Bot.INSERTAR_PRECIO ctx_con_borrador)
     = (sesion_en Bot.INSERTAR_PRECIO ctx_con_borrador, [Bot.PrecioInvalido])
  /\ ctx_sin_negativos
       (Bot.ctx_sesion
          (fst (Bot.ejecutar (H0 := builtins_decimales)
                  (("t0", Bot.Comando "start")
                   :: guion_insertar "t1" "banana" "5" "0.50" "Frutas")
                  (@sesion_nueva Q))))
  /\ Database.success
       (fst (Database.insertar_producto "t" "sal" (- (5 # 1)) (1 # 1) "General"
               (@Database.init_db Q))) = true
  /\ Database.success
       (fst (Database.actualizar_producto "t" "arroz" (Some (- (5 # 1))) None
               tabla_arroz_vacio)) = true.
Proof.
  destruct (@C4_valores_negativos Q _ builtins_decimales)
    as [Hint [Hfloat [Hinv [Hins Hact]]]].
  split; [|split; [|split; [|split]]].
  - apply (Hint "t" "-5" ctx_con_borrador (-5)%Z); [reflexivity | lia].
  - apply (Hfloat "t" "-1.5" ctx_con_borrador (- (15 # 10))); reflexivity.
  - apply Hinv. split.
    + intros kv [].
    + intros b Hb. discriminate Hb.
  - apply (Hins Database.init_db "t" "sal" (- (5 # 1)) (1 # 1) "General").
    reflexivity.
  - apply (Hact tabla_arroz_vacio "t" "arroz" (- (5 # 1))
                {| Database.id := 1; Database.nombre := "arroz";
                   Database.cantidad := 8 # 1; Database.cantidad_inicial := 100 # 1;
                   Database.precio := 12 # 10; Database.categoria := "Granos";
                   Database.fecha_creacion := "t1";
                   Database.fecha_actualizacion := "t2" |}).
    reflexivity.
Defined.

(** C4 (as stated) fails on database.py: [insertar_producto] with quantity
    -5 into the empty table succeeds, and so does [actualizar_producto] of
    "arroz" to quantity -5; both store -5. *)
Lemma C4_valores_negativos_counterexample :
  ~ (forall (t : Database.Tabla Q) (ahora n : string) (c p : Q) (cat : string),
        c < 0 \/ p < 0 ->
        Database.success (fst (Database.insertar_producto ahora n c p cat t)) = false
        /\ snd (Database.insertar_producto ahora n c p cat t) = t)
  /\ ~ (forall (t : Database.Tabla Q) (ahora n : string) (c : Q),
          c < 0 ->
          Database.success (fst (Database.actualizar_producto ahora n (Some c) None t))
          = false
          /\ snd (Database.actualizar_producto ahora n (Some c) None t) = t).
Proof.
  split.
  - intros Hc.
    destruct (Hc Database.init_db "t" "sal" (- (5 # 1)) (1 # 1) "General") as [Hs _].
    + left. reflexivity.
    + vm_compute in Hs. discriminate Hs.
  - intros Hc.
    destruct (Hc tabla_arroz_vacio "t" "arroz" (- (5 # 1))) as [Hs _].
    + reflexivity.
    + vm_compute in Hs. discriminate Hs.
Qed.


(** ** The initial quantity *)

Section CantidadInicial.
Context {R : Type} `{Aritmetica R} `{Builtins R}.

Lemma seleccionar_modificar (n m : string) (g : Database.Fila R -> Database.Fila R)
    (t : Database.Tabla R) :
  (forall f, Database.nombre (g f) = Database.nombre f) ->
  Database.seleccionar n (Database.modificar m g t)
  = option_map (fun f => if String.eqb (Database.nombre f) m then g f else f)
               (Database.seleccionar n t).
Proof.
  intros Hg. unfold Database.seleccionar, Database.modificar. cbn [Database.filas].
  induction (Database.filas t) as [|f l IH]; [reflexivity|].
  cbn [map find].
  replace (Database.nombre (if String.eqb (Database.nombre f) m then g f else f))
    with (Database.nombre f)
    by (destruct (String.eqb (Database.nombre f) m); [rewrite Hg|]; reflexivity).
  destruct (String.eqb (Database.nombre f) n); [reflexivity | exact IH].
Qed.

Lemma actualizar_producto_cantidad_inicial (ahora n m : string) (c p : option R)
    (t : Database.Tabla R) (f : Database.Fila R) :
  Database.seleccionar n t = Some f ->
  exists f', Database.seleccionar n (snd (Database.actualizar_producto ahora m c p t))
             = Some f'
             /\ Database.cantidad_inicial f' = Database.cantidad_inicial f
             /\ Database.fecha_creacion f' = Database.fecha_creacion f.
Proof.
  intros Hf. unfold Database.actualizar_producto.
  destruct (Database.seleccionar m t) as [fm|]; [|exists f; auto].
  destruct c as [c|], p as [p|]; cbn [snd];
    try (exists f; split; [exact Hf | split; reflexivity]);
    (rewrite seleccionar_modificar by reflexivity; rewrite Hf; cbn [option_map];
     eexists; split; [reflexivity|];
     destruct (String.eqb (Database.nombre f) m); split; reflexivity).
Qed.

Lemma actualizar_varias_cantidad_inicial (us : list (string * string * option R * option R))
    (n : string) (t : Database.Tabla R) (f : Database.Fila R) :
  Database.seleccionar n t = Some f ->
  exists f', Database.seleccionar n (actualizar_varias us t) = Some f'
             /\ Database.cantidad_inicial f' = Database.cantidad_inicial f
             /\ Database.fecha_creacion f' = Database.fecha_creacion f.
Proof.
  revert t f. induction us as [|[[[ahora m] c] p] us IH]; intros t f Hf.
  - exists f. auto.
  - cbn [actualizar_varias].
    destruct (@actualizar_producto_cantidad_inicial ahora n m c p t f Hf)
      as [f1 [H1 [Hci Hfc]]].
    destruct (IH _ _ H1) as [f2 [H2 [Hci2 Hfc2]]].
    exists f2. split; [exact H2|]. split; congruence.
Qed.

(** The invariant of the update flow: the session is in the menu or in the
    update flow, and [n] is stored with initial quantity [ci]. *)
Lemma despachar_cantidad_inicial (ahora : string) (u : Bot.Entrada) (s : Bot.Sesion R)
    (n : string) (ci : Z) (e : Bot.Estado) (prod : Bot.Producto R) :
  Bot.estado s = Some e -> en_actualizacion e = true ->
  no_inserta_ni_borra u = true ->
  Bot.dict_get n (Bot.cargar_inventario (Bot.archivo (Bot.ctx_sesion s))) = Some prod ->
  Bot.cantidad_inicial prod = Some ci ->
  let s' := fst (Bot.despachar ahora u s) in
  (exists e', Bot.estado s' = Some e' /\ en_actualizacion e' = true)
  /\ (exists prod',
        Bot.dict_get n (Bot.cargar_inventario (Bot.archivo (Bot.ctx_sesion s')))
        = Some prod'
        /\ Bot.cantidad_inicial prod' = Some ci).
Proof.
  intros He Hen Hu Hget Hci s'. subst s'.
  destruct s as [est ctx]. cbn [Bot.estado Bot.ctx_sesion] in *. subst est.
  unfold Bot.despachar, Bot.seleccionar_manejador. cbn [Bot.estado Bot.ctx_sesion].
  destruct u as [t|c].
  - cbn [fst Bot.estado Bot.ctx_sesion].
    cbn [no_inserta_ni_borra] in Hu. apply andb_true_iff in Hu.
    destruct Hu as [Hins Hbor]. apply negb_true_iff in Hins, Hbor.
    destruct e; try discriminate Hen; cbn [Bot.manejador].
    + (* MENU *)
      rewrite menu_handler_contexto. split; [|eauto].
      unfold Bot.menu_handler, Bot.informe. rewrite Hins.
      destruct (String.eqb t "🔄 Actualizar Producto").
      { destruct (Bot.cargar_inventario (Bot.archivo ctx)); eexists; split;
          reflexivity. }
      rewrite Hbor.
      destruct (String.eqb t "📊 Ver Inventario");
        [destruct (Bot.mostrar_inventario ctx); eexists; split; reflexivity|].
      destruct (String.eqb t "⚠️ Stock Bajo");
        [destruct (Bot.verificar_stock_bajo ctx); eexists; split; reflexivity|].
      destruct (String.eqb t "💰 Costo Total");
        [destruct (Bot.calcular_inventario_total (Bot.archivo ctx)); eexists; split;
         reflexivity|].
      destruct (String.eqb t "❓ Seguridad de Datos"); eexists; split; reflexivity.
    + (* ACTUALIZAR_SELECCION *)
      unfold Bot.actualizar_seleccion.
      destruct (Bot.dict_get t _) as [p|].
      * destruct (Bot.cantidad p); cbn; (split; [eexists; split; reflexivity | eauto]).
      * cbn. split; [eexists; split; reflexivity | eauto].
    + (* ACTUALIZAR_CANTIDAD *)
      unfold Bot.actualizar_cantidad.
      destruct (py_int t) as [c|];
        [|cbn; split; [eexists; split; reflexivity | eauto]].
      destruct (c <? 0)%Z; [cbn; split; [eexists; split; reflexivity | eauto]|].
      destruct (Bot.producto_actualizar (Bot.user_data ctx)) as [m|];
        [|cbn; split; [eexists; split; reflexivity | eauto]].
      destruct (Bot.dict_get m _) as [pm|] eqn:Hm;
        [|cbn; split; [eexists; split; reflexivity | eauto]].
      cbn [Bot.retorno Bot.contexto Bot.archivo Bot.guardar_inventario
           Bot.cargar_inventario].
      split; [eexists; split; reflexivity|].
      destruct (String.eqb_spec m n) as [->|Hne].
      * rewrite dict_get_set_eq. eexists. split; [reflexivity|].
        cbn [Bot.cantidad_inicial]. congruence.
      * rewrite dict_get_set_neq by exact Hne. eauto.
  - destruct (String.eqb c "cancelar"); cbn; (split; [eexists; split; eauto | eauto]).
Qed.

Lemma ejecutar_cantidad_inicial (us : list (string * Bot.Entrada)) (s : Bot.Sesion R)
    (n : string) (ci : Z) (e : Bot.Estado) (prod : Bot.Producto R) :
  Bot.estado s = Some e -> en_actualizacion e = true ->
  Forall (fun tu => no_inserta_ni_borra (snd tu) = true) us ->
  Bot.dict_get n (Bot.cargar_inventario (Bot.archivo (Bot.ctx_sesion s))) = Some prod ->
  Bot.cantidad_inicial prod = Some ci ->
  exists prod',
    Bot.dict_get n (Bot.cargar_inventario
                      (Bot.archivo (Bot.ctx_sesion (fst (Bot.ejecutar us s)))))
    = Some prod'
    /\ Bot.cantidad_inicial prod' = Some ci.
Proof.
  revert s e prod. induction us as [|[ahora u] us IH]; intros s e prod He Hen Hus Hget Hci.
  - cbn. eauto.
  - inversion Hus as [|? ? Hu Hus']; subst. cbn [snd] in Hu.
    destruct (@despachar_cantidad_inicial ahora u s n ci e prod He Hen Hu Hget Hci)
      as [[e' [He' Hen']] [prod' [Hget' Hci']]].
    cbn [Bot.ejecutar].
    destruct (Bot.despachar ahora u s) as [s1 r1]. cbn [fst] in *.
    specialize (@IH s1 e' prod' He' Hen' Hus' Hget' Hci').
    destruct (Bot.ejecutar us s1) as [s2 r2]. exact IH.
Qed.

(** C5: a product is created with [cantidad_inicial] equal to its creation
    quantity, and updates never change it.  In [Database], after a
    successful [insertar_producto] with quantity [c], the row has
    [cantidad = cantidad_inicial = c], and after any sequence of
    [actualizar_producto] calls (any names, quantities and prices) the row
    still has [cantidad_inicial = c].  In bot.py, after the insert flow has
    committed quantity [c], the record has [cantidad = cantidad_inicial = c],
    and after any run of the conversation that does not open the insert or
    the delete flow (so any sequence of passes through the update flow,
    reports and cancellations) the record still has [cantidad_inicial = c]. *)
Theorem C5_cantidad_inicial :
  (forall (t : Database.Tabla R) (ahora n : string) (c p : R) (cat : string),
      Database.seleccionar n t = None ->
      let t1 := snd (Database.insertar_producto ahora n c p cat t) in
      (exists f, Database.buscar_producto n t1 = Some f
                 /\ Database.cantidad f = c /\ Database.cantidad_inicial f = c)
      /\ forall us, exists f,
           Database.buscar_producto n (actualizar_varias us t1) = Some f
           /\ Database.cantidad_inicial f = c)
  /\ (forall (ctx : Bot.Contexto R) (ahora n tc tp cat : string) (c : Z) (p : R),
         py_int tc = Some c -> (0 <= c)%Z ->
         py_float tp = Some p -> r_ltb p r_cero = false ->
         let s1 := fst (Bot.ejecutar (guion_insertar ahora n tc tp cat)
                                     (sesion_en Bot.MENU ctx)) in
         (exists prod,
            Bot.dict_get n (Bot.cargar_inventario (Bot.archivo (Bot.ctx_sesion s1)))
            = Some prod
            /\ Bot.cantidad prod = Some c /\ Bot.cantidad_inicial prod = Some c)
         /\ forall us,
              Forall (fun tu => no_inserta_ni_borra (snd tu) = true) us ->
              exists prod,
                Bot.dict_get n
                  (Bot.cargar_inventario
                     (Bot.archivo (Bot.ctx_sesion (fst (Bot.ejecutar us s1)))))
                = Some prod
                /\ Bot.cantidad_inicial prod = Some c).
Proof.
  split.
  - intros t ahora n c p cat Hnone t1.
    assert (Hsel : exists f, Database.seleccionar n t1 = Some f
                             /\ Database.cantidad f = c
                             /\ Database.cantidad_inicial f = c).
    { subst t1. unfold Database.insertar_producto. rewrite Hnone. cbn [snd].
      unfold Database.seleccionar in *. cbn [Database.filas].
      rewrite (find_app_None _ _ _ Hnone). cbn [find Database.nombre].
      rewrite String.eqb_refl. eexists. split; [reflexivity|]. split; reflexivity. }
    split; [exact Hsel|].
    intros us. destruct Hsel as [f [Hf [_ Hci]]].
    destruct (@actualizar_varias_cantidad_inicial us n t1 f Hf) as [f' [Hf' [Hci' _]]].
    exists f'. split; [exact Hf' | congruence].
  - intros ctx ahora n tc tp cat c p Hc Hpos Hp Hnn s1. subst s1.
    rewrite (ejecutar_guion_insertar ahora n tc tp cat ctx Hc Hpos Hp Hnn).
    cbn [fst].
    assert (Hget : Bot.dict_get n
                     (Bot.cargar_inventario
                        (Bot.archivo (Bot.ctx_sesion
                           (sesion_en Bot.MENU
                              {| Bot.user_data := Bot.user_data_vacio;
                                 Bot.archivo :=
                                   Bot.guardar_inventario
                                     (Bot.dict_set n (producto_nuevo ahora n c p cat)
                                        (Bot.cargar_inventario (Bot.archivo ctx))) |}))))
                   = Some (producto_nuevo ahora n c p cat))
      by apply dict_get_set_eq.
    split.
    + eexists. split; [exact Hget|]. split; reflexivity.
    + intros us Hus.
      eapply ejecutar_cantidad_inicial; [reflexivity | reflexivity | exact Hus
                                        | exact Hget | reflexivity].
Qed.

End CantidadInicial.

(** The theorem at the insertion of "sal" with quantity 40, followed by two
    updates in [Database] and by a pass through the update flow in bot.py. *)
Lemma C5_cantidad_inicial_witness :
  (exists f,
      Database.buscar_producto "sal"
        (actualizar_varias [("t2", "sal", Some (3 # 1), None);
                            ("t3", "sal", Some (0 # 1), Some (5 # 2))]
           (snd (Database.insertar_producto "t1" "sal" (40 # 1) (1 # 2) "General"
                   tabla_arroz_vacio)))
      = Some f
      /\ Database.cantidad_inicial f = 40 # 1)
  /\ (exists prod,
        Bot.dict_get "sal"
          (Bot.cargar_inventario
             (Bot.archivo (Bot.ctx_sesion
                (fst (Bot.ejecutar (H0 := builtins_decimales)
                        (guion_actualizar "t2" "sal" "3")
                        (fst (Bot.ejecutar (H0 := builtins_decimales)
                                (guion_insertar "t1" "sal" "40" "0.5" "General")
                                (sesion_en Bot.MENU
                                   (Bot.ctx_sesion sesion_banana_arroz)))))))))
        = Some prod
        /\ Bot.cantidad_inicial prod = Some 40%Z).
Proof.
  destruct (@C5_cantidad_inicial Q _ builtins_decimales) as [Hdb Hbot].
  split.
  - destruct (Hdb tabla_arroz_vacio "t1" "sal" (40 # 1) (1 # 2) "General" eq_refl)
      as [_ Hus].
    apply Hus.
  - destruct (Hbot (Bot.ctx_sesion sesion_banana_arroz) "t1" "sal" "40" "0.5" "General"
                   40%Z (5 # 10) eq_refl ltac:(lia) eq_refl eq_refl) as [_ Hus].
    apply Hus.
    repeat constructor.
Defined.


(** ** Rounding and sums in exact arithmetic *)

Lemma Qfloor_unico (y : Q) (z : Z) :
  inject_Z z <= y -> y < inject_Z (z + 1) -> Qfloor y = z.
Proof.
  intros Hle Hlt. apply Z.le_antisymm.
  - assert (Hlt' : (Qfloor y < z + 1)%Z).
    { rewrite Zlt_Qlt. eapply Qle_lt_trans; [apply Qfloor_le | exact Hlt]. }
    lia.
  - rewrite <- (Qfloor_Z z). apply Qfloor_resp_le, Hle.
Qed.

Lemma Qfloor_mas_entero (x : Q) (k : Z) : Qfloor (x + inject_Z k) = (Qfloor x + k)%Z.
Proof.
  apply Qfloor_unico.
  - rewrite inject_Z_plus. pose proof (Qfloor_le x). lra.
  - replace (Qfloor x + k + 1)%Z with ((Qfloor x + 1) + k)%Z by lia.
    rewrite inject_Z_plus. pose proof (Qlt_floor x). lra.
Qed.

Lemma medio_par_compat (x y : Q) : x == y -> medio_par x = medio_par y.
Proof.
  intros Hxy. unfold medio_par.
  rewrite (Qfloor_comp _ _ Hxy).
  assert (E : Qcompare (x - inject_Z (Qfloor y)) (1 # 2) = Qcompare (y - inject_Z (Qfloor y)) (1 # 2)).
  { apply Qcompare_comp; [rewrite Hxy; reflexivity | reflexivity]. }
  rewrite E. reflexivity.
Qed.

Lemma medio_par_mas_par (x : Q) (k : Z) :
  Z.even k = true -> medio_par (x + inject_Z k) = (medio_par x + k)%Z.
Proof.
  intros Hk. unfold medio_par. rewrite Qfloor_mas_entero.
  assert (E : Qcompare (x + inject_Z k - inject_Z (Qfloor x + k)) (1 # 2)
              = Qcompare (x - inject_Z (Qfloor x)) (1 # 2)).
  { apply Qcompare_comp; [|reflexivity]. rewrite inject_Z_plus. ring. }
  rewrite E. rewrite Z.even_add, Hk.
  destruct (Qcompare (x - inject_Z (Qfloor x)) (1 # 2)); try lia.
  destruct (Z.even (Qfloor x)); simpl; lia.
Qed.

Lemma medio_par_cerca (y : Q) :
  y - (1 # 2) <= inject_Z (medio_par y) <= y + (1 # 2).
Proof.
  unfold medio_par.
  pose proof (Qfloor_le y) as Hle. pose proof (Qlt_floor y) as Hlt.
  rewrite inject_Z_plus in Hlt. change (inject_Z 1) with 1 in Hlt.
  destruct (Qcompare (y - inject_Z (Qfloor y)) (1 # 2)) eqn:E.
  - apply Qeq_alt in E.
    destruct (Z.even (Qfloor y));
      [|rewrite inject_Z_plus; change (inject_Z 1) with 1]; lra.
  - apply Qlt_alt in E. lra.
  - apply Qgt_alt in E. rewrite inject_Z_plus. change (inject_Z 1) with 1. lra.
Qed.

Lemma Q_redondear_2 (x : Q) :
  Q_redondear 2 x == inject_Z (medio_par (x * 100)) / 100.
Proof. reflexivity. Qed.

Lemma Q_redondear_2_compat (x y : Q) : x == y -> Q_redondear 2 x = Q_redondear 2 y.
Proof.
  intros Hxy. unfold Q_redondear.
  rewrite (@medio_par_compat (x * inject_Z (10 ^ Z.of_nat 2)) (y * inject_Z (10 ^ Z.of_nat 2)));
    [reflexivity | rewrite Hxy; reflexivity].
Qed.

(** The result of [round(x, 2)] is a whole number of hundredths nearest to
    [x]. *)
Lemma Q_redondear_2_cerca (x : Q) :
  (exists k : Z, Q_redondear 2 x == inject_Z k / 100)
  /\ x - (1 # 200) <= Q_redondear 2 x <= x + (1 # 200).
Proof.
  split.
  - exists (medio_par (x * 100)). apply Q_redondear_2.
  - rewrite Q_redondear_2.
    pose proof (medio_par_cerca (x * 100)) as [H1 H2].
    split.
    + apply Qle_shift_div_l; [reflexivity|]. lra.
    + apply Qle_shift_div_r; [reflexivity|]. lra.
Qed.

Lemma Q_redondear_2_mas (x : Q) :
  Q_redondear 2 (x + (75 # 10)) == Q_redondear 2 x + (75 # 10).
Proof.
  rewrite !Q_redondear_2.
  rewrite (@medio_par_compat ((x + (75 # 10)) * 100) (x * 100 + inject_Z 750))
    by (change (inject_Z 750) with (750 # 1); ring).
  rewrite medio_par_mas_par by reflexivity.
  rewrite inject_Z_plus. change (inject_Z 750) with (750 # 1). field.
Qed.

Lemma fold_left_Qplus (l : list Q) (a : Q) : fold_left Qplus l a == a + Qsuma l.
Proof.
  revert a. induction l as [|x l IH]; intros a; simpl.
  - ring.
  - rewrite IH. ring.
Qed.

Lemma py_sum_Qsuma (l : list Q) : py_sum l == Qsuma l.
Proof.
  unfold py_sum. rewrite fold_left_Qplus.
  change (@r_cero Q aritmetica_Q) with (inject_Z 0). change (inject_Z 0) with 0. ring.
Qed.

Lemma Qsuma_Permutation (l l' : list Q) : Permutation l l' -> Qsuma l == Qsuma l'.
Proof.
  induction 1 as [|x l l' _ IH|x y l|l l' l'' _ IH1 _ IH2]; simpl.
  - reflexivity.
  - rewrite IH. reflexivity.
  - ring.
  - rewrite IH1. exact IH2.
Qed.

Lemma Qsuma_app (l l' : list Q) : Qsuma (l ++ l') == Qsuma l + Qsuma l'.
Proof.
  induction l as [|x l IH]; simpl.
  - ring.
  - rewrite IH. ring.
Qed.

(** ** The total value *)

Lemma total_tabla (t : Database.Tabla Q) :
  Database.total (Database.calcular_costo_total t)
  = Q_redondear 2 (Qsuma (map valor_fila (Database.filas t))).
Proof.
  unfold Database.calcular_costo_total. cbn [Database.total r_redondear aritmetica_Q].
  apply Q_redondear_2_compat.
  rewrite py_sum_Qsuma. apply Qsuma_Permutation.
  unfold Database.filas_costo.
  eapply Permutation_trans.
  - apply Permutation_map, ordenar_por_Permutation.
  - rewrite map_map. apply Permutation_refl.
Qed.

Lemma total_documento (inv : Bot.Inventario Q) :
  (forall kv, In kv inv ->
              Bot.cantidad (snd kv) <> None /\ Bot.precio (snd kv) <> None) ->
  exists v, Bot.calcular_inventario_total (Bot.Documento inv) = Bot.Valor v
            /\ v == Qsuma (map (fun kv => valor_producto (snd kv)) inv).
Proof.
  intros Hwf. unfold Bot.calcular_inventario_total. cbn [Bot.cargar_inventario].
  match goal with
  | |- context [Bot.secuenciar (map ?f inv)] =>
      assert (Hs : exists subtotales,
                 Bot.secuenciar (map f inv) = Bot.Valor subtotales
                 /\ subtotales = map (fun kv => valor_producto (snd kv)) inv)
  end.
  { induction inv as [|[n p] inv IH]; cbn [map Bot.secuenciar].
    - exists []. split; reflexivity.
    - destruct (Hwf (n, p) (or_introl eq_refl)) as [Hc Hp]. cbn [snd] in *.
      destruct IH as [r [Hr Er]]; [intros kv Hkv; apply Hwf; right; exact Hkv|].
      unfold valor_producto at 1.
      destruct (Bot.precio p) as [x|]; [|congruence].
      destruct (Bot.cantidad p) as [c|]; [|congruence].
      cbn [Bot.indice Bot.ligar]. rewrite Hr. cbn [Bot.ligar].
      eexists. split; [reflexivity|]. rewrite Er. reflexivity. }
  destruct Hs as [subtotales [Hs Es]]. rewrite Hs. cbn [Bot.ligar].
  eexists. split; [reflexivity|]. rewrite py_sum_Qsuma, Es. reflexivity.
Qed.




(** The totals of the binary64 run above, as the program prints them. *)
Lemma costo_total_binary64 :
  Database.total (Database.calcular_costo_total tabla_clavo) = 0.01%float
  /\ Database.total
       (Database.calcular_costo_total
          (snd (Database.insertar_producto "t2" "tornillo" 3%float 2.5%float
                  "Ferreteria" tabla_clavo)))
     = 7.5%float.
Proof. split; vm_compute; reflexivity. Qed.


(** ** The clients of the two backends *)

Section ClientesBot.
Context {R : Type} `{Aritmetica R} `{Builtins R}.

Lemma despachar_texto (ahora texto : string) (e : Bot.Estado) (ctx : Bot.Contexto R) :
  Bot.despachar ahora (Bot.Texto texto) {| Bot.estado := Some e; Bot.ctx_sesion := ctx |}
  = ({| Bot.estado := match Bot.retorno (Bot.manejador e ahora texto ctx) with
                      | Bot.Valor e' => Some e'
                      | Bot.Lanza _ => Some e
                      end;
        Bot.ctx_sesion := Bot.contexto (Bot.manejador e ahora texto ctx) |},
     Bot.respuestas (Bot.manejador e ahora texto ctx)).
Proof. reflexivity. Qed.

Lemma cancelar_y_fallar_en (ahora : string) (e : Bot.Estado) (ctx : Bot.Contexto R) :
  cancelar_y_fallar ahora {| Bot.estado := Some e; Bot.ctx_sesion := ctx |}
  = (sesion_en Bot.MENU {| Bot.user_data := Bot.user_data_vacio;
                           Bot.archivo := Bot.archivo ctx |}, Exito false).
Proof. reflexivity. Qed.

Lemma menu_insertar (ctx : Bot.Contexto R) :
  Bot.menu_handler "📦 Insertar Producto" ctx
  = {| Bot.retorno := Bot.Valor Bot.INSERTAR_NOMBRE; Bot.contexto := ctx;
       Bot.respuestas := [Bot.PedirNombre] |}.
Proof. reflexivity. Qed.

(** One message of a flow: the dispatcher is replaced by the handler of the
    current state. *)
Ltac paso :=
  rewrite despachar_texto;
  cbn [Bot.manejador fst Bot.retorno Bot.contexto Bot.respuestas].

Ltac resolver_estado :=
  cbn [Bot.con_nuevo_producto Bot.con_user_data Bot.user_data Bot.nuevo_producto
       Bot.producto_actualizar Bot.archivo
       Bot.retorno Bot.contexto Bot.respuestas fst en_estado Bot.estado estado_eqb negb].

Lemma primeros_pasos_insertar (ahora n : string) (ctx : Bot.Contexto R) :
  fst (Bot.despachar ahora (Bot.Texto n)
         (fst (Bot.despachar ahora (Bot.Texto "📦 Insertar Producto")
                 (sesion_en Bot.MENU ctx))))
  = {| Bot.estado := Some Bot.INSERTAR_CANTIDAD;
       Bot.ctx_sesion :=
         Bot.con_nuevo_producto
           {| Bot.nombre := n; Bot.cantidad := None; Bot.cantidad_inicial := None;
              Bot.precio := None; Bot.categoria := None; Bot.fecha_creacion := None |}
           ctx |}.
Proof.
  unfold sesion_en. paso. rewrite menu_insertar. reflexivity.
Qed.

Lemma bot_insertar_sin_cantidad (ahora n tc tp cat : string) (ctx : Bot.Contexto R) :
  py_int tc = None ->
  bot_insertar ahora n tc tp cat (sesion_en Bot.MENU ctx)
  = (sesion_en Bot.MENU {| Bot.user_data := Bot.user_data_vacio;
                           Bot.archivo := Bot.archivo ctx |}, Exito false).
Proof.
  intros Hc. unfold bot_insertar. rewrite primeros_pasos_insertar.
  paso. rewrite insertar_cantidad_rechaza by (left; exact Hc).
  reflexivity.
Qed.

Lemma bot_insertar_sin_precio (ahora n tc tp cat : string) (c : Z)
    (ctx : Bot.Contexto R) :
  py_int tc = Some c -> (0 <= c)%Z -> py_float tp = None ->
  bot_insertar ahora n tc tp cat (sesion_en Bot.MENU ctx)
  = (sesion_en Bot.MENU {| Bot.user_data := Bot.user_data_vacio;
                           Bot.archivo := Bot.archivo ctx |}, Exito false).
Proof.
  intros Hc Hpos Hp. unfold bot_insertar. rewrite primeros_pasos_insertar.
  assert (Hlt : (c <? 0)%Z = false) by (apply Z.ltb_ge; exact Hpos).
  paso. unfold Bot.insertar_cantidad. rewrite Hc, Hlt. resolver_estado.
  paso. rewrite insertar_precio_rechaza by (left; exact Hp).
  reflexivity.
Qed.

Lemma bot_insertar_valido (ahora n tc tp cat : string) (c : Z) (p : R)
    (ctx : Bot.Contexto R) :
  py_int tc = Some c -> (0 <= c)%Z ->
  py_float tp = Some p -> r_ltb p r_cero = false ->
  bot_insertar ahora n tc tp cat (sesion_en Bot.MENU ctx)
  = (sesion_en Bot.MENU
       {| Bot.user_data := Bot.user_data_vacio;
          Bot.archivo :=
            Bot.guardar_inventario
              (Bot.dict_set n (producto_nuevo ahora n c p cat)
                 (Bot.cargar_inventario (Bot.archivo ctx))) |},
     Exito true).
Proof.
  intros Hc Hpos Hp Hnn. unfold bot_insertar. rewrite primeros_pasos_insertar.
  assert (Hlt : (c <? 0)%Z = false) by (apply Z.ltb_ge; exact Hpos).
  paso. unfold Bot.insertar_cantidad. rewrite Hc, Hlt. resolver_estado.
  paso. unfold Bot.insertar_precio. rewrite Hp, Hnn. resolver_estado.
  paso. reflexivity.
Qed.

Lemma bot_actualizar_vacio (ahora n tc : string) (ctx : Bot.Contexto R) :
  Bot.cargar_inventario (Bot.archivo ctx) = [] ->
  bot_actualizar ahora n tc (sesion_en Bot.MENU ctx)
  = (sesion_en Bot.MENU ctx, Exito false).
Proof.
  intros Hinv. unfold bot_actualizar, sesion_en. paso.
  rewrite menu_actualizar, Hinv. reflexivity.
Qed.

Lemma bot_actualizar_ausente (ahora n tc : string) (ctx : Bot.Contexto R) :
  Bot.cargar_inventario (Bot.archivo ctx) <> [] ->
  Bot.dict_get n (Bot.cargar_inventario (Bot.archivo ctx)) = None ->
  bot_actualizar ahora n tc (sesion_en Bot.MENU ctx)
  = (sesion_en Bot.MENU {| Bot.user_data := Bot.user_data_vacio;
                           Bot.archivo := Bot.archivo ctx |}, Exito false).
Proof.
  intros Hne Hget. unfold bot_actualizar, sesion_en. paso.
  rewrite menu_actualizar.
  destruct (Bot.cargar_inventario (Bot.archivo ctx)) as [|kv inv] eqn:Hinv;
    [congruence|].
  resolver_estado. paso.
  unfold Bot.actualizar_seleccion. rewrite Hinv, Hget.
  reflexivity.
Qed.

Lemma bot_actualizar_invalido (ahora n tc : string) (c0 : Z) (prod : Bot.Producto R)
    (ctx : Bot.Contexto R) :
  Bot.dict_get n (Bot.cargar_inventario (Bot.archivo ctx)) = Some prod ->
  Bot.cantidad prod = Some c0 ->
  py_int tc = None ->
  bot_actualizar ahora n tc (sesion_en Bot.MENU ctx)
  = (sesion_en Bot.MENU {| Bot.user_data := Bot.user_data_vacio;
                           Bot.archivo := Bot.archivo ctx |}, Exito false).
Proof.
  intros Hget Hc0 Hc. unfold bot_actualizar, sesion_en. paso.
  rewrite menu_actualizar.
  destruct (Bot.cargar_inventario (Bot.archivo ctx)) as [|kv inv] eqn:Hinv;
    [discriminate Hget|].
  resolver_estado. paso.
  unfold Bot.actualizar_seleccion. rewrite Hinv, Hget, Hc0. resolver_estado.
  paso. rewrite actualizar_cantidad_rechaza by (left; exact Hc).
  reflexivity.
Qed.

Lemma bot_actualizar_valido (ahora n tc : string) (c c0 : Z) (prod : Bot.Producto R)
    (ctx : Bot.Contexto R) :
  Bot.dict_get n (Bot.cargar_inventario (Bot.archivo ctx)) = Some prod ->
  Bot.cantidad prod = Some c0 ->
  py_int tc = Some c -> (0 <= c)%Z ->
  bot_actualizar ahora n tc (sesion_en Bot.MENU ctx)
  = (sesion_en Bot.MENU
       {| Bot.user_data := Bot.user_data_vacio;
          Bot.archivo :=
            Bot.guardar_inventario
              (Bot.dict_set n (con_cantidad c prod)
                 (Bot.cargar_inventario (Bot.archivo ctx))) |},
     Exito true).
Proof.
  intros Hget Hc0 Hc Hpos. unfold bot_actualizar, sesion_en. paso.
  assert (Hlt : (c <? 0)%Z = false) by (apply Z.ltb_ge; exact Hpos).
  rewrite menu_actualizar.
  destruct (Bot.cargar_inventario (Bot.archivo ctx)) as [|kv inv] eqn:Hinv;
    [discriminate Hget|].
  resolver_estado. paso.
  unfold Bot.actualizar_seleccion. rewrite Hinv, Hget, Hc0. resolver_estado.
  paso. unfold Bot.actualizar_cantidad. rewrite Hc, Hlt. resolver_estado.
  rewrite Hinv, Hget. reflexivity.
Qed.

Lemma bot_borrar_vacio (ahora n : string) (ctx : Bot.Contexto R) :
  Bot.cargar_inventario (Bot.archivo ctx) = [] ->
  bot_borrar ahora n (sesion_en Bot.MENU ctx) = (sesion_en Bot.MENU ctx, Exito false).
Proof.
  intros Hinv. unfold bot_borrar, sesion_en. paso.
  rewrite menu_borrar, Hinv. reflexivity.
Qed.

Lemma bot_borrar_ausente (ahora n : string) (ctx : Bot.Contexto R) :
  Bot.cargar_inventario (Bot.archivo ctx) <> [] ->
  Bot.dict_get n (Bot.cargar_inventario (Bot.archivo ctx)) = None ->
  bot_borrar ahora n (sesion_en Bot.MENU ctx)
  = (sesion_en Bot.MENU {| Bot.user_data := Bot.user_data_vacio;
                           Bot.archivo := Bot.archivo ctx |}, Exito false).
Proof.
  intros Hne Hget. unfold bot_borrar, sesion_en. paso.
  rewrite menu_borrar.
  destruct (Bot.cargar_inventario (Bot.archivo ctx)) as [|kv inv] eqn:Hinv;
    [congruence|].
  resolver_estado. paso.
  unfold Bot.borrar_producto. rewrite Hinv, Hget.
  reflexivity.
Qed.

Lemma bot_borrar_presente (ahora n : string) (prod : Bot.Producto R)
    (ctx : Bot.Contexto R) :
  Bot.dict_get n (Bot.cargar_inventario (Bot.archivo ctx)) = Some prod ->
  bot_borrar ahora n (sesion_en Bot.MENU ctx)
  = (sesion_en Bot.MENU
       {| Bot.user_data := Bot.user_data ctx;
          Bot.archivo :=
            Bot.guardar_inventario
              (Bot.dict_del n (Bot.cargar_inventario (Bot.archivo ctx))) |},
     Exito true).
Proof.
  intros Hget. unfold bot_borrar, sesion_en. paso.
  rewrite menu_borrar.
  destruct (Bot.cargar_inventario (Bot.archivo ctx)) as [|kv inv] eqn:Hinv;
    [discriminate Hget|].
  resolver_estado. paso.
  unfold Bot.borrar_producto. rewrite Hinv, Hget.
  reflexivity.
Qed.

End ClientesBot.

(** ** Corresponding stores *)

Lemma dict_get_None_claves {V} (n : string) (d : list (string * V)) :
  Bot.dict_get n d = None -> ~ In n (map fst d).
Proof.
  induction d as [|[k v] d IH]; simpl; [tauto|].
  destruct (String.eqb_spec k n) as [->|Hne]; [discriminate|].
  intros E [Hk|Hin]; [congruence | exact (IH E Hin)].
Qed.

Lemma corresponde_claves (inv : Bot.Inventario Q) (filas : list (Database.Fila Q)) :
  Forall2 mismo_registro inv filas ->
  map fst inv = map (@Database.nombre Q) filas.
Proof.
  induction 1 as [|kv f inv filas [Hn _] _ IH]; simpl; [reflexivity|].
  rewrite Hn, IH. reflexivity.
Qed.

Lemma corresponde_buscar (inv : Bot.Inventario Q) (filas : list (Database.Fila Q))
    (n : string) :
  Forall2 mismo_registro inv filas ->
  match Bot.dict_get n inv, find (fun f => String.eqb (Database.nombre f) n) filas with
  | None, None => True
  | Some p, Some f => mismo_registro (n, p) f
  | _, _ => False
  end.
Proof.
  induction 1 as [|[k p] f inv filas Hpar _ IH]; simpl; [exact I|].
  destruct Hpar as [Hn Hcampos]. cbn [fst snd] in Hn, Hcampos. subst k.
  destruct (String.eqb_spec (Database.nombre f) n) as [E|_]; [|exact IH].
  split; [cbn [fst]; symmetry; exact E | exact Hcampos].
Qed.

Lemma corresponde_insertar (inv : Bot.Inventario Q) (t : Database.Tabla Q)
    (ahora ahora' n cat : string) (c : Z) (p : Q) :
  corresponde inv t -> Bot.dict_get n inv = None ->
  corresponde
    (inv ++ [(n, producto_nuevo ahora n c p cat)])
    {| Database.filas :=
         Database.filas t
         ++ [{| Database.id := (Database.secuencia t + 1)%Z; Database.nombre := n;
                Database.cantidad := inject_Z c;
                Database.cantidad_inicial := inject_Z c;
                Database.precio := p; Database.categoria := cat;
                Database.fecha_creacion := ahora';
                Database.fecha_actualizacion := ahora' |}];
       Database.secuencia := (Database.secuencia t + 1)%Z |}.
Proof.
  intros [Hf Hnd] Hnone. split; cbn [Database.filas].
  - apply Forall2_app; [exact Hf|]. constructor; [|constructor].
    split; [reflexivity|]. exists c, c. cbn. repeat split; reflexivity.
  - rewrite map_app. cbn [map fst].
    apply NoDup_app; [exact Hnd | | ].
    + repeat constructor. intros [].
    + intros x Hx [<-|[]]. exact (dict_get_None_claves _ _ Hnone Hx).
Qed.

Lemma modificar_ausente (n : string) (g : Database.Fila Q -> Database.Fila Q)
    (filas : list (Database.Fila Q)) :
  ~ In n (map (@Database.nombre Q) filas) ->
  map (fun f => if String.eqb (Database.nombre f) n then g f else f) filas = filas.
Proof.
  induction filas as [|f filas IH]; simpl; [reflexivity|].
  intros Hnot.
  destruct (String.eqb_spec (Database.nombre f) n) as [E|_]; [tauto|].
  rewrite IH by tauto. reflexivity.
Qed.

Lemma corresponde_actualizar (inv : Bot.Inventario Q) (t : Database.Tabla Q)
    (ahora n : string) (c : Z) (prod : Bot.Producto Q) :
  corresponde inv t -> Bot.dict_get n inv = Some prod ->
  corresponde (Bot.dict_set n (con_cantidad c prod) inv)
              (Database.modificar n (Database.poner_cantidad (inject_Z c) ahora) t).
Proof.
  intros [Hf Hnd] Hget. split.
  - unfold Database.modificar. cbn [Database.filas].
    revert Hnd Hget.
    induction Hf as [|[k p] f inv filas Hpar Hresto IH]; intros Hnd Hget;
      [discriminate Hget|].
    cbn [Bot.dict_get Bot.dict_set map] in *.
    destruct Hpar as [Hn [c0 [ci [Hc [Hci [Hfc [Hfci [Hp Hcat]]]]]]]].
    cbn [fst snd] in *. subst k.
    inversion Hnd as [|? ? Hnotin Hnd']; subst.
    destruct (String.eqb_spec (Database.nombre f) n) as [E|Hne].
    + inversion Hget; subst prod. clear Hget.
      rewrite modificar_ausente
        by (rewrite <- (corresponde_claves Hresto); rewrite <- E; exact Hnotin).
      constructor; [|exact Hresto].
      split; [cbn; symmetry; exact E|].
      exists c, ci. cbn. repeat split; assumption.
    + constructor; [|apply IH; assumption].
      split; [reflexivity|]. exists c0, ci. cbn. repeat split; assumption.
  - rewrite (dict_set_claves _ _ _ Hget). exact Hnd.
Qed.

Lemma corresponde_borrar (inv : Bot.Inventario Q) (t : Database.Tabla Q) (n : string) :
  corresponde inv t ->
  corresponde (Bot.dict_del n inv)
              {| Database.filas :=
                   filter (fun f => negb (String.eqb (Database.nombre f) n))
                          (Database.filas t);
                 Database.secuencia := Database.secuencia t |}.
Proof.
  intros [Hf Hnd]. cbn [Database.filas]. unfold Bot.dict_del.
  induction Hf as [|[k p] f inv filas Hpar Hresto IH]; [split; constructor|].
  inversion Hnd as [|? ? Hnotin Hnd']; subst.
  destruct (IH Hnd') as [IHf IHnd].
  pose proof Hpar as [Hn _]. cbn [fst] in Hn. subst k.
  cbn [filter fst]. destruct (String.eqb (Database.nombre f) n); cbn [negb].
  - split; assumption.
  - split; [constructor; assumption|].
    cbn [map fst]. constructor; [|exact IHnd].
    intros Hin. apply Hnotin.
    apply in_map_iff in Hin. destruct Hin as [kv [Hk Hin]].
    apply filter_In in Hin. apply in_map_iff. exists kv. tauto.
Qed.

Lemma corresponde_lineas (inv : Bot.Inventario Q) (filas : list (Database.Fila Q)) :
  Forall2 mismo_registro inv filas ->
  exists lineas,
    Bot.secuenciar (map Bot.linea_de inv) = Bot.Valor lineas
    /\ map (@Bot.li_nombre Q) lineas = map fst inv.
Proof.
  induction 1 as [|[k p] f inv filas Hpar _ IH]; cbn [map Bot.secuenciar].
  - exists []. split; reflexivity.
  - destruct Hpar as [_ [c [ci [Hc [_ [_ [_ [Hp Hcat]]]]]]]]. cbn [snd] in *.
    destruct IH as [lineas [Hl Hn]].
    unfold Bot.linea_de at 1. cbn [fst snd]. rewrite Hc, Hp, Hcat.
    cbn [Bot.indice Bot.ligar]. rewrite Hl. cbn [Bot.ligar].
    eexists. split; [reflexivity|]. cbn [map Bot.li_nombre]. rewrite Hn. reflexivity.
Qed.

Lemma corresponde_bajos (inv : Bot.Inventario Q) (filas : list (Database.Fila Q)) :
  Forall2 mismo_registro inv filas ->
  (forall kv, In kv inv -> Bot.cantidad (snd kv) <> None)
  /\ map fst (filter Bot.es_bajo_stock inv)
     = map (@Database.nombre Q) (filter Database.es_bajo filas).
Proof.
  induction 1 as [|[k p] f inv filas Hpar _ [IHwf IH]].
  - split; [intros kv []|reflexivity].
  - destruct Hpar as [Hn [c [ci [Hc [Hci [Hfc [Hfci _]]]]]]]. cbn [fst snd] in *.
    split.
    + intros kv [<-|Hin]; [cbn [snd]; congruence | apply IHwf, Hin].
    + cbn [filter].
      assert (E : Bot.es_bajo_stock (k, p) = Database.es_bajo f).
      { unfold Bot.es_bajo_stock, Database.es_bajo, Bot.inicial_leida, Bot.limite_de.
        cbn [snd]. rewrite Hc, Hci, Hfc, Hfci. reflexivity. }
      rewrite E. destruct (Database.es_bajo f); cbn [map fst]; congruence.
Qed.

Lemma corresponde_valor (inv : Bot.Inventario Q) (filas : list (Database.Fila Q)) :
  Forall2 mismo_registro inv filas ->
  (forall kv, In kv inv ->
              Bot.cantidad (snd kv) <> None /\ Bot.precio (snd kv) <> None)
  /\ Qsuma (map (fun kv => valor_producto (snd kv)) inv) == Qsuma (map valor_fila filas).
Proof.
  induction 1 as [|[k p] f inv filas Hpar _ [IHwf IH]].
  - split; [intros kv []|reflexivity].
  - destruct Hpar as [Hn [c [ci [Hc [Hci [Hfc [Hfci [Hp _]]]]]]]]. cbn [fst snd] in *.
    split.
    + intros kv [<-|Hin]; [cbn [snd]; split; congruence | apply IHwf, Hin].
    + cbn [map Qsuma fold_right snd]. fold (Qsuma (map valor_fila filas)).
      fold (Qsuma (map (fun kv => valor_producto (snd kv)) inv)).
      rewrite IH. unfold valor_producto, valor_fila. rewrite Hp, Hc, Hfc. ring.
Qed.

Lemma nombres_entradas (l : Bot.Inventario Q) :
  map (@Bot.bs_nombre Q) (map Bot.entrada_de l) = map fst l.
Proof. rewrite map_map. apply map_ext. reflexivity. Qed.

Lemma nombres_redondeados (l : list (Bot.BajoStock Q)) :
  map (@Bot.bs_nombre Q) (map Bot.redondear_limite l) = map (@Bot.bs_nombre Q) l.
Proof. rewrite map_map. apply map_ext. reflexivity. Qed.

Lemma nombres_bajos (l : list (Database.Fila Q)) :
  map (@Database.b_nombre Q) (map Database.bajo_de_fila l)
  = map (@Database.nombre Q) l.
Proof. rewrite map_map. apply map_ext. reflexivity. Qed.

Lemma nombres_listados (l : list (Database.Fila Q)) :
  map (@Database.l_nombre Q) (map Database.listado_de_fila l)
  = map (@Database.nombre Q) l.
Proof. rewrite map_map. apply map_ext. reflexivity. Qed.

Section Simulacion.
Context {B : Builtins Q}.

Lemma menu_ver (ctx : Bot.Contexto Q) :
  Bot.menu_handler "📊 Ver Inventario" ctx = Bot.informe ctx (Bot.mostrar_inventario ctx).
Proof. reflexivity. Qed.

Lemma menu_stock (ctx : Bot.Contexto Q) :
  Bot.menu_handler "⚠️ Stock Bajo" ctx = Bot.informe ctx (Bot.verificar_stock_bajo ctx).
Proof. reflexivity. Qed.

Lemma menu_costo (ctx : Bot.Contexto Q) :
  Bot.menu_handler "💰 Costo Total" ctx
  = Bot.informe ctx
      (Bot.ligar (Bot.calcular_inventario_total (Bot.archivo ctx))
                 (fun t => Bot.Valor (Bot.CostoTotal (r_redondear 2 t)))).
Proof. reflexivity. Qed.

Lemma bot_consultar_informe (ahora texto : string) (ctx : Bot.Contexto Q)
    (r : Bot.Respuesta Q) :
  Bot.menu_handler texto ctx = Bot.informe ctx (Bot.Valor r) ->
  bot_consultar ahora texto (sesion_en Bot.MENU ctx)
  = (sesion_en Bot.MENU ctx, observar_informe [r]).
Proof.
  intros Hm. unfold bot_consultar, sesion_en.
  rewrite despachar_texto. cbn [Bot.manejador]. rewrite Hm. reflexivity.
Qed.

Lemma db_actualizar_ausente (ahora n tc : string) (t : Database.Tabla Q) :
  find (fun f => String.eqb (Database.nombre f) n) (Database.filas t) = None ->
  db_aplicar ahora (OpActualizar n tc) t = (t, Exito false).
Proof.
  intros Hfind. cbn [db_aplicar].
  destruct (py_int tc); [|reflexivity].
  unfold Database.actualizar_producto, Database.seleccionar. rewrite Hfind.
  reflexivity.
Qed.

(** One operation applied to corresponding stores. *)
Lemma aplicar_corresponde (ahora : string) (op : Operacion) (ctx : Bot.Contexto Q)
    (t : Database.Tabla Q) :
  corresponde (Bot.cargar_inventario (Bot.archivo ctx)) t ->
  admisible t op ->
  exists ctx',
    fst (bot_aplicar ahora op (sesion_en Bot.MENU ctx)) = sesion_en Bot.MENU ctx'
    /\ corresponde (Bot.cargar_inventario (Bot.archivo ctx'))
                   (fst (db_aplicar ahora op t))
    /\ obs_equiv (snd (bot_aplicar ahora op (sesion_en Bot.MENU ctx)))
                 (snd (db_aplicar ahora op t)).
Proof.
  intros Hcorr Hadm.
  pose proof Hcorr as [Hf Hnd].
  destruct op as [n tc tp cat | n tc | n | | | ]; cbn [bot_aplicar db_aplicar].
  - (* insertar *)
    destruct Hadm as [Hnone [Hpos Hnn]].
    pose proof (corresponde_buscar n Hf) as Hb.
    unfold Database.seleccionar in Hnone. rewrite Hnone in Hb.
    destruct (Bot.dict_get n (Bot.cargar_inventario (Bot.archivo ctx))) eqn:Hget;
      [contradiction|].
    destruct (py_int tc) as [c|] eqn:Hc.
    + destruct (py_float tp) as [p|] eqn:Hp.
      * rewrite (bot_insertar_valido ahora n tc tp cat ctx Hc (Hpos c eq_refl) Hp
                   (Hnn p eq_refl)).
        unfold Database.insertar_producto, Database.seleccionar. rewrite Hnone.
        cbn [fst snd Database.success].
        eexists. split; [reflexivity|]. split; [|constructor].
        cbn [Bot.archivo Bot.guardar_inventario Bot.cargar_inventario].
        rewrite (dict_set_nuevo _ _ _ Hget).
        apply corresponde_insertar; assumption.
      * rewrite (bot_insertar_sin_precio ahora n tc tp cat ctx Hc (Hpos c eq_refl) Hp).
        cbn [fst snd]. eexists. split; [reflexivity|]. split; [exact Hcorr | constructor].
    + rewrite (bot_insertar_sin_cantidad ahora n tc tp cat ctx Hc).
      cbn [fst snd]. eexists. split; [reflexivity|]. split; [exact Hcorr | constructor].
  - (* actualizar *)
    cbn [admisible] in Hadm.
    pose proof (corresponde_buscar n Hf) as Hb.
    destruct (Bot.dict_get n (Bot.cargar_inventario (Bot.archivo ctx)))
      as [prod|] eqn:Hget;
    destruct (find (fun f => String.eqb (Database.nombre f) n) (Database.filas t))
      as [f|] eqn:Hfind; try contradiction.
    + destruct Hb as [_ [c0 [ci [Hc0 _]]]]. cbn [snd] in Hc0.
      destruct (py_int tc) as [c|] eqn:Hc.
      * rewrite (bot_actualizar_valido ahora n tc ctx Hget Hc0 Hc (Hadm c eq_refl)).
        unfold Database.actualizar_producto, Database.seleccionar. rewrite Hfind.
        cbn [fst snd Database.success].
        eexists. split; [reflexivity|]. split; [|constructor].
        cbn [Bot.archivo Bot.guardar_inventario Bot.cargar_inventario].
        apply corresponde_actualizar; assumption.
      * rewrite (bot_actualizar_invalido ahora n tc ctx Hget Hc0 Hc).
        cbn [fst snd]. eexists. split; [reflexivity|]. split; [exact Hcorr | constructor].
    + fold (db_aplicar ahora (OpActualizar n tc) t).
      rewrite (db_actualizar_ausente ahora n tc t Hfind). cbn [fst snd].
      destruct (Bot.cargar_inventario (Bot.archivo ctx)) as [|kv inv] eqn:Hinv.
      * rewrite (bot_actualizar_vacio ahora n tc ctx Hinv). cbn [fst snd].
        exists ctx. split; [reflexivity|]. split; [rewrite Hinv; exact Hcorr | constructor].
      * rewrite (bot_actualizar_ausente ahora n tc ctx)
          by (rewrite Hinv; first [discriminate | exact Hget]).
        cbn [fst snd]. eexists. split; [reflexivity|].
        split; [cbn [Bot.archivo]; rewrite Hinv; exact Hcorr | constructor].
  - (* borrar *)
    pose proof (corresponde_buscar n Hf) as Hb.
    unfold Database.borrar_producto, Database.seleccionar.
    destruct (Bot.dict_get n (Bot.cargar_inventario (Bot.archivo ctx)))
      as [prod|] eqn:Hget;
    destruct (find (fun f => String.eqb (Database.nombre f) n) (Database.filas t))
      as [f|] eqn:Hfind; try contradiction.
    + rewrite (bot_borrar_presente ahora n ctx Hget). cbn [fst snd Database.success].
      eexists. split; [reflexivity|]. split; [|constructor].
      cbn [Bot.archivo Bot.guardar_inventario Bot.cargar_inventario].
      apply corresponde_borrar. exact Hcorr.
    + cbn [fst snd Database.success].
      destruct (Bot.cargar_inventario (Bot.archivo ctx)) as [|kv inv] eqn:Hinv.
      * rewrite (bot_borrar_vacio ahora n ctx Hinv). cbn [fst snd].
        exists ctx. split; [reflexivity|]. split; [rewrite Hinv; exact Hcorr | constructor].
      * rewrite (bot_borrar_ausente ahora n ctx)
          by (rewrite Hinv; first [discriminate | exact Hget]).
        cbn [fst snd]. eexists. split; [reflexivity|].
        split; [cbn [Bot.archivo]; rewrite Hinv; exact Hcorr | constructor].
  - (* listar *)
    destruct (corresponde_lineas Hf) as [lineas [Hl Hn]].
    assert (Hperm : Permutation (map fst (Bot.cargar_inventario (Bot.archivo ctx)))
                      (map (@Database.l_nombre Q) (Database.listar_productos t))).
    { unfold Database.listar_productos. rewrite nombres_listados.
      rewrite (corresponde_claves Hf).
      apply Permutation_map, Permutation_sym, ordenar_por_Permutation. }
    destruct (Bot.cargar_inventario (Bot.archivo ctx)) as [|kv inv] eqn:Hinv.
    + rewrite (@bot_consultar_informe ahora "📊 Ver Inventario" ctx Bot.InventarioVacio)
        by (rewrite menu_ver; unfold Bot.mostrar_inventario; rewrite Hinv; reflexivity).
      cbn [fst snd observar_informe]. exists ctx.
      split; [reflexivity|]. split; [rewrite Hinv; exact Hcorr|].
      constructor. exact Hperm.
    + rewrite (@bot_consultar_informe ahora "📊 Ver Inventario" ctx
                 (Bot.InventarioCompleto lineas))
        by (rewrite menu_ver; unfold Bot.mostrar_inventario; rewrite Hinv, Hl;
            reflexivity).
      cbn [fst snd observar_informe]. exists ctx.
      split; [reflexivity|]. split; [rewrite Hinv; exact Hcorr|].
      constructor. rewrite Hn. exact Hperm.
  - (* stock bajo *)
    destruct (corresponde_bajos Hf) as [Hwf Hnombres].
    destruct (productos_bajo_stock_total _ Hwf) as [l Hl].
    pose proof (productos_bajo_stock_filter _ Hl) as El.
    assert (Hperm : Permutation (map (@Bot.bs_nombre Q) l)
                      (map (@Database.b_nombre Q) (Database.obtener_productos_bajos t))).
    { rewrite El, nombres_entradas, Hnombres.
      unfold Database.obtener_productos_bajos. rewrite nombres_bajos.
      apply Permutation_map, Permutation_sym, filas_bajas_Permutation. }
    assert (Hv : Bot.verificar_stock_bajo ctx
                 = Bot.Valor (match l with
                              | [] => Bot.StockSuficiente
                              | _ => Bot.StockBajo (map Bot.redondear_limite l)
                              end)).
    { unfold Bot.verificar_stock_bajo, Bot.obtener_productos_bajo_stock.
      rewrite Hl. cbn [Bot.ligar]. destruct l; reflexivity. }
    rewrite (@bot_consultar_informe ahora "⚠️ Stock Bajo" ctx _)
      by (rewrite menu_stock, Hv; reflexivity).
    cbn [fst snd]. exists ctx. split; [reflexivity|]. split; [exact Hcorr|].
    destruct l as [|b l]; cbn [observar_informe]; constructor.
    + exact Hperm.
    + rewrite nombres_redondeados. exact Hperm.
  - (* costo total *)
    destruct (corresponde_valor Hf) as [Hwf Hsum].
    destruct (total_documento _ Hwf) as [v [Hv Ev]].
    assert (Hdoc : Bot.calcular_inventario_total (Bot.archivo ctx) = Bot.Valor v).
    { rewrite <- Hv. destruct (Bot.archivo ctx); reflexivity. }
    rewrite (@bot_consultar_informe ahora "💰 Costo Total" ctx
               (Bot.CostoTotal (r_redondear 2 v)))
      by (rewrite menu_costo, Hdoc; reflexivity).
    cbn [fst snd observar_informe]. exists ctx.
    split; [reflexivity|]. split; [exact Hcorr|].
    rewrite total_tabla.
    cbn [r_redondear aritmetica_Q].
    rewrite (Q_redondear_2_compat (x := v)
               (y := Qsuma (map valor_fila (Database.filas t))))
      by (rewrite Ev; exact Hsum).
    constructor.
Qed.

End Simulacion.

Section Equivalencia.
Context {B : Builtins Q}.


End Equivalencia.




(** ** The table of [Database] *)

Section Tabla.
Context {R : Type}.
Implicit Types (t : Database.Tabla R) (f : Database.Fila R) (n m : string).

Lemma find_filter_nombre (n m : string) (filas : list (Database.Fila R)) :
  find (fun f => String.eqb (Database.nombre f) m)
       (filter (fun f => negb (String.eqb (Database.nombre f) n)) filas)
  = if String.eqb n m then None
    else find (fun f => String.eqb (Database.nombre f) m) filas.
Proof.
  induction filas as [|f filas IH]; simpl.
  - destruct (String.eqb n m); reflexivity.
  - destruct (String.eqb_spec (Database.nombre f) n) as [E|Hne]; simpl.
    + rewrite IH. destruct (String.eqb_spec n m) as [E'|Hnm]; [reflexivity|].
      destruct (String.eqb_spec (Database.nombre f) m); [congruence | reflexivity].
    + destruct (String.eqb_spec (Database.nombre f) m) as [E'|Hfm].
      * destruct (String.eqb_spec n m); [congruence | reflexivity].
      * exact IH.
Qed.

Lemma filter_sin_nombre (n : string) (filas : list (Database.Fila R)) :
  find (fun f => String.eqb (Database.nombre f) n) filas = None ->
  filter (fun f => negb (String.eqb (Database.nombre f) n)) filas = filas.
Proof.
  induction filas as [|f filas IH]; simpl; [reflexivity|].
  destruct (String.eqb (Database.nombre f) n); [discriminate|].
  intros E. simpl. rewrite (IH E). reflexivity.
Qed.

(** X1: a successful [insertar_producto] followed by [buscar_producto]
    returns the inserted values: the id is the counter plus one (the
    [producto_id] of the result), quantity and initial quantity are the given
    quantity, both timestamps are the time of the insertion; and the lookup
    of every other name is unchanged. *)
Theorem insertar_luego_buscar t (ahora n : string) (c p : R) (cat : string) :
  Database.seleccionar n t = None ->
  let r := Database.insertar_producto ahora n c p cat t in
  fst r = {| Database.success := true; Database.message := Database.ProductoAgregado n;
             Database.producto_id := Some (Database.secuencia t + 1)%Z |}
  /\ Database.buscar_producto n (snd r)
     = Some {| Database.id := (Database.secuencia t + 1)%Z; Database.nombre := n;
               Database.cantidad := c; Database.cantidad_inicial := c;
               Database.precio := p; Database.categoria := cat;
               Database.fecha_creacion := ahora;
               Database.fecha_actualizacion := ahora |}
  /\ forall m, m <> n ->
       Database.buscar_producto m (snd r) = Database.buscar_producto m t.
Proof.
  intros Hnone r. subst r. unfold Database.insertar_producto. rewrite Hnone.
  cbn [fst snd]. split; [reflexivity|].
  unfold Database.buscar_producto, Database.seleccionar in *. cbn [Database.filas].
  split.
  - rewrite (find_app_None _ _ _ Hnone). cbn [find Database.nombre].
    rewrite String.eqb_refl. reflexivity.
  - intros m Hm.
    destruct (find (fun f => String.eqb (Database.nombre f) m) (Database.filas t))
      as [f|] eqn:E.
    + clear Hnone. induction (Database.filas t) as [|g l IH]; [discriminate E|].
      cbn [app find] in *. destruct (String.eqb (Database.nombre g) m);
        [exact E | apply IH, E].
    + rewrite (find_app_None _ _ _ E). cbn [find Database.nombre].
      apply String.eqb_neq in Hm. rewrite String.eqb_sym, Hm. reflexivity.
Qed.

(** X2: [borrar_producto] of a name the table does not hold fails with the
    "does not exist" result and changes nothing; of a name it holds, it
    succeeds, after which the lookup of that name finds nothing, the lookup
    of every other name is unchanged and the counter is unchanged. *)
Theorem borrar_luego_buscar t (n : string) :
  (Database.seleccionar n t = None ->
   Database.borrar_producto n t
   = ({| Database.success := false; Database.message := Database.ProductoNoExiste n;
         Database.producto_id := None |}, t))
  /\ (forall f, Database.seleccionar n t = Some f ->
        let r := Database.borrar_producto n t in
        Database.success (fst r) = true
        /\ Database.buscar_producto n (snd r) = None
        /\ (forall m, m <> n ->
              Database.buscar_producto m (snd r) = Database.buscar_producto m t)
        /\ Database.secuencia (snd r) = Database.secuencia t).
Proof.
  split.
  - intros Hnone. unfold Database.borrar_producto. rewrite Hnone. reflexivity.
  - intros f Hf r. subst r. unfold Database.borrar_producto. rewrite Hf.
    cbn [fst snd Database.success Database.secuencia].
    unfold Database.buscar_producto, Database.seleccionar. cbn [Database.filas].
    split; [reflexivity|]. split; [|split; [|reflexivity]].
    + rewrite find_filter_nombre, String.eqb_refl. reflexivity.
    + intros m Hm. rewrite find_filter_nombre.
      apply String.eqb_neq in Hm. rewrite String.eqb_sym, Hm. reflexivity.
Qed.

(** X3: inserting a new name and then deleting it gives back the rows the
    table had, but not the counter: it has advanced, so the id of the
    deleted row is not issued again. *)
Theorem insertar_luego_borrar t (ahora n : string) (c p : R) (cat : string) :
  Database.seleccionar n t = None ->
  let t2 := snd (Database.borrar_producto n
                   (snd (Database.insertar_producto ahora n c p cat t))) in
  Database.filas t2 = Database.filas t
  /\ Database.secuencia t2 = (Database.secuencia t + 1)%Z
  /\ forall ahora' c' p' cat',
       Database.producto_id
         (fst (Database.insertar_producto ahora' n c' p' cat' t2))
       = Some (Database.secuencia t + 2)%Z.
Proof.
  intros Hnone t2.
  assert (Ht2 : t2 = {| Database.filas := Database.filas t;
                        Database.secuencia := (Database.secuencia t + 1)%Z |}).
  { subst t2. unfold Database.insertar_producto. rewrite Hnone. cbn [snd].
    unfold Database.borrar_producto, Database.seleccionar in *. cbn [Database.filas].
    rewrite (find_app_None _ _ _ Hnone). cbn [find Database.nombre].
    rewrite String.eqb_refl. cbn [snd Database.filas Database.secuencia].
    rewrite filter_app. cbn [filter Database.nombre]. rewrite String.eqb_refl.
    cbn [negb]. rewrite app_nil_r, (filter_sin_nombre _ _ Hnone). reflexivity. }
  rewrite Ht2. cbn [Database.filas Database.secuencia].
  split; [reflexivity|]. split; [reflexivity|].
  intros ahora' c' p' cat'. unfold Database.insertar_producto, Database.seleccionar in *.
  cbn [Database.filas]. rewrite Hnone. cbn [fst Database.producto_id Database.secuencia].
  f_equal. lia.
Qed.

(** What [actualizar_producto] writes into the row it finds. *)
Lemma seleccionar_modificar_otro (n m : string) (g : Database.Fila R -> Database.Fila R)
    t :
  (forall f, Database.nombre (g f) = Database.nombre f) ->
  m <> n ->
  Database.seleccionar m (Database.modificar n g t) = Database.seleccionar m t.
Proof.
  intros Hg Hm. rewrite seleccionar_modificar by exact Hg.
  destruct (Database.seleccionar m t) as [f|] eqn:E; [|reflexivity].
  cbn [option_map]. apply seleccionar_Some in E. destruct E as [_ E].
  destruct (String.eqb_spec (Database.nombre f) n); [congruence | reflexivity].
Qed.

Lemma seleccionar_modificar_mismo (n : string) (g : Database.Fila R -> Database.Fila R)
    t f :
  (forall f, Database.nombre (g f) = Database.nombre f) ->
  Database.seleccionar n t = Some f ->
  Database.seleccionar n (Database.modificar n g t) = Some (g f).
Proof.
  intros Hg Hf. rewrite seleccionar_modificar by exact Hg. rewrite Hf.
  cbn [option_map]. apply seleccionar_Some in Hf. destruct Hf as [_ E].
  rewrite E, String.eqb_refl. reflexivity.
Qed.

(** X4: [actualizar_producto] checks the name before the arguments: for a name
    the table does not hold it fails with "does not exist" whatever is
    given; for a name it holds and neither quantity nor price it fails with
    "provide at least one"; in both cases the table is unchanged.  Otherwise
    it succeeds and the row of that name gets the given quantity and/or
    price and the time of the call as [fecha_actualizacion], keeping its id,
    name, initial quantity, category and [fecha_creacion]; the lookup of
    every other name is unchanged. *)
Theorem actualizar_luego_buscar t (ahora n : string) (c p : option R) :
  (Database.seleccionar n t = None ->
   Database.actualizar_producto ahora n c p t
   = ({| Database.success := false; Database.message := Database.ProductoNoExiste n;
         Database.producto_id := None |}, t))
  /\ (forall f, Database.seleccionar n t = Some f ->
        let r := Database.actualizar_producto ahora n c p t in
        match c, p with
        | None, None =>
            r = ({| Database.success := false; Database.message := Database.DebeProporcionar;
                    Database.producto_id := None |}, t)
        | _, _ =>
            Database.success (fst r) = true
            /\ Database.buscar_producto n (snd r)
               = Some {| Database.id := Database.id f;
                         Database.nombre := Database.nombre f;
                         Database.cantidad :=
                           match c with Some c' => c' | None => Database.cantidad f end;
                         Database.cantidad_inicial := Database.cantidad_inicial f;
                         Database.precio :=
                           match p with Some p' => p' | None => Database.precio f end;
                         Database.categoria := Database.categoria f;
                         Database.fecha_creacion := Database.fecha_creacion f;
                         Database.fecha_actualizacion := ahora |}
            /\ (forall m, m <> n ->
                  Database.buscar_producto m (snd r) = Database.buscar_producto m t)
        end).
Proof.
  split.
  - intros Hnone. unfold Database.actualizar_producto. rewrite Hnone. reflexivity.
  - intros f Hf r. subst r. unfold Database.actualizar_producto. rewrite Hf.
    unfold Database.buscar_producto.
    destruct c as [c'|], p as [p'|]; cbn [fst snd Database.success];
      try reflexivity;
      (split; [reflexivity|]; split;
       [erewrite seleccionar_modificar_mismo; [reflexivity | reflexivity | exact Hf]
       |intros m Hm; apply seleccionar_modificar_otro; [reflexivity | exact Hm]]).
Qed.

Lemma modificar_modificar (n : string) (g h : Database.Fila R -> Database.Fila R) t :
  (forall f, Database.nombre (g f) = Database.nombre f) ->
  Database.modificar n h (Database.modificar n g t)
  = Database.modificar n (fun f => h (g f)) t.
Proof.
  intros Hg. unfold Database.modificar. cbn [Database.filas Database.secuencia].
  f_equal. rewrite map_map. apply map_ext. intros f.
  destruct (String.eqb (Database.nombre f) n) eqn:E.
  - rewrite Hg, E. reflexivity.
  - rewrite E. reflexivity.
Qed.

Lemma seleccionar_modificar_Some (n m : string) (g : Database.Fila R -> Database.Fila R)
    t f :
  (forall f, Database.nombre (g f) = Database.nombre f) ->
  Database.seleccionar m t = Some f ->
  exists f', Database.seleccionar m (Database.modificar n g t) = Some f'.
Proof.
  intros Hg Hf. rewrite seleccionar_modificar by exact Hg. rewrite Hf.
  cbn [option_map]. eauto.
Qed.

(** X5: updates compose by "the last write wins": two quantity updates of the
    same row leave the table the second alone would leave; and updating the
    quantity and then the price, at one clock reading, leaves the table that
    one call with both leaves. *)
Theorem actualizar_dos_veces t (ahora1 ahora2 n : string) (c1 c2 p : R) :
  snd (Database.actualizar_producto ahora2 n (Some c2) None
         (snd (Database.actualizar_producto ahora1 n (Some c1) None t)))
  = snd (Database.actualizar_producto ahora2 n (Some c2) None t)
  /\ snd (Database.actualizar_producto ahora2 n None (Some p)
            (snd (Database.actualizar_producto ahora2 n (Some c2) None t)))
     = snd (Database.actualizar_producto ahora2 n (Some c2) (Some p) t).
Proof.
  unfold Database.actualizar_producto.
  destruct (Database.seleccionar n t) as [f|] eqn:Hf; cbn [snd].
  - destruct (@seleccionar_modificar_Some n n (Database.poner_cantidad c1 ahora1)
                t f (fun _ => eq_refl) Hf) as [f1 ->].
    destruct (@seleccionar_modificar_Some n n (Database.poner_cantidad c2 ahora2)
                t f (fun _ => eq_refl) Hf) as [f2 ->].
    cbn [snd]. split; (rewrite modificar_modificar by reflexivity); reflexivity.
  - rewrite Hf. split; reflexivity.
Qed.

End Tabla.

Section Consistencia.
Context {R : Type}.

Lemma seleccionar_None_nombres (t : Database.Tabla R) (n : string) :
  Database.seleccionar n t = None ->
  ~ In n (map (@Database.nombre R) (Database.filas t)).
Proof.
  unfold Database.seleccionar. intros Hnone Hin.
  apply in_map_iff in Hin. destruct Hin as [f [Hn Hf]].
  apply (find_none _ _ Hnone) in Hf. rewrite Hn, String.eqb_refl in Hf.
  discriminate Hf.
Qed.

Lemma NoDup_nombres_filter (q : Database.Fila R -> bool) (l : list (Database.Fila R)) :
  NoDup (map (@Database.nombre R) l) ->
  NoDup (map (@Database.nombre R) (filter q l)).
Proof.
  induction l as [|f l IH]; cbn [map filter]; intros Hnd; [constructor|].
  inversion Hnd as [|? ? Hnot Hnd']; subst.
  destruct (q f); [|apply IH, Hnd'].
  cbn [map]. constructor; [|apply IH, Hnd'].
  intros Hin. apply Hnot. apply in_map_iff in Hin. destruct Hin as [g [Hg Hin]].
  apply filter_In in Hin. apply in_map_iff. exists g. tauto.
Qed.

Lemma ids_crecientes_filter (q : Database.Fila R -> bool) (l : list (Database.Fila R)) :
  StronglySorted Z.lt (map (@Database.id R) l) ->
  StronglySorted Z.lt (map (@Database.id R) (filter q l)).
Proof.
  induction l as [|f l IH]; cbn [map filter]; intros Hs; [constructor|].
  inversion Hs as [|? ? Hs' Hall]; subst.
  destruct (q f); [|apply IH, Hs'].
  cbn [map]. constructor; [apply IH, Hs'|].
  rewrite Forall_forall in *. intros i Hi. apply Hall.
  apply in_map_iff in Hi. destruct Hi as [g [Hg Hin]].
  apply filter_In in Hin. apply in_map_iff. exists g. tauto.
Qed.

Lemma ids_crecientes_app (ids : list Z) (s : Z) :
  StronglySorted Z.lt ids -> Forall (fun i => (i <= s)%Z) ids ->
  StronglySorted Z.lt (ids ++ [(s + 1)%Z]).
Proof.
  induction 1 as [|i ids Hs IH Hall]; intros Hle; cbn [app].
  - repeat constructor.
  - inversion Hle as [|? ? Hi Hle']; subst. constructor; [apply IH, Hle'|].
    apply Forall_app. split; [exact Hall|]. constructor; [lia | constructor].
Qed.

Lemma llamar_consistente (l : Llamada R) (t : Database.Tabla R) :
  tabla_consistente t ->
  tabla_consistente (snd (llamar l t))
  /\ (Database.secuencia t <= Database.secuencia (snd (llamar l t)))%Z.
Proof.
  intros [Hnd [Hids Hle]].
  destruct l as [ahora n c p cat | ahora n c p | n]; cbn [llamar].
  - unfold Database.insertar_producto.
    destruct (Database.seleccionar n t) eqn:Hsel; cbn [snd].
    + split; [repeat split; assumption | cbn [snd]; lia].
    + split; [|cbn; lia]. repeat split; cbn [Database.filas Database.secuencia].
      * rewrite map_app. cbn [map Database.nombre].
        apply NoDup_app; [exact Hnd | repeat constructor; intros [] |].
        intros x Hx [<-|[]]. exact (seleccionar_None_nombres _ _ Hsel Hx).
      * rewrite map_app. cbn [map Database.id].
        apply ids_crecientes_app; [exact Hids|].
        rewrite Forall_map. exact Hle.
      * apply Forall_app. split.
        -- eapply Forall_impl; [|exact Hle]. cbn. intros; lia.
        -- constructor; [cbn; lia | constructor].
  - assert (Hmod : forall g,
               (forall f, Database.nombre (g f) = Database.nombre f) ->
               (forall f, Database.id (g f) = Database.id f) ->
               tabla_consistente (Database.modificar n g t)).
    { intros g Hgn Hgi. unfold tabla_consistente, Database.modificar.
      cbn [Database.filas Database.secuencia].
      assert (En : map (@Database.nombre R)
                     (map (fun f => if String.eqb (Database.nombre f) n then g f else f)
                          (Database.filas t))
                   = map (@Database.nombre R) (Database.filas t)).
      { rewrite map_map. apply map_ext. intros f.
        destruct (String.eqb (Database.nombre f) n); [apply Hgn | reflexivity]. }
      assert (Ei : map (@Database.id R)
                     (map (fun f => if String.eqb (Database.nombre f) n then g f else f)
                          (Database.filas t))
                   = map (@Database.id R) (Database.filas t)).
      { rewrite map_map. apply map_ext. intros f.
        destruct (String.eqb (Database.nombre f) n); [apply Hgi | reflexivity]. }
      rewrite En, Ei. split; [exact Hnd|]. split; [exact Hids|].
      rewrite Forall_map. eapply Forall_impl; [|exact Hle].
      intros f Hf. cbn. destruct (String.eqb (Database.nombre f) n);
        [rewrite Hgi|]; exact Hf. }
    unfold Database.actualizar_producto.
    destruct (Database.seleccionar n t); [|split; [repeat split; assumption | cbn [snd]; lia]].
    destruct c as [c|], p as [p|]; cbn [snd];
      try (split; [apply Hmod; reflexivity | cbn; lia]).
    split; [repeat split; assumption | cbn [snd]; lia].
  - unfold Database.borrar_producto.
    destruct (Database.seleccionar n t); cbn [snd];
      [|split; [repeat split; assumption | cbn [snd]; lia]].
    split; [|cbn; lia]. repeat split; cbn [Database.filas Database.secuencia].
    + apply NoDup_nombres_filter, Hnd.
    + apply ids_crecientes_filter, Hids.
    + rewrite Forall_forall in *. intros g Hg. apply filter_In in Hg.
      apply Hle, Hg.
Qed.

Lemma llamar_todas_consistente (ls : list (Llamada R)) (t : Database.Tabla R) :
  tabla_consistente t ->
  tabla_consistente (llamar_todas ls t)
  /\ (Database.secuencia t <= Database.secuencia (llamar_todas ls t))%Z.
Proof.
  revert t. induction ls as [|l ls IH]; intros t Ht; cbn [llamar_todas].
  - split; [exact Ht | lia].
  - destruct (llamar_consistente l Ht) as [H1 Hle1].
    destruct (IH _ H1) as [H2 Hle2]. split; [exact H2 | lia].
Qed.

(** X6: whatever calls are made on a new database, in whatever order and with
    whatever arguments, the table never holds two rows of the same name, the
    row ids grow with the rows and no id exceeds the AUTOINCREMENT counter;
    and no id is ever issued twice: an id issued after any further calls is
    larger than every id the table holds now, deleted since or not. *)
Theorem tabla_siempre_consistente (ls : list (Llamada R)) :
  tabla_consistente (llamar_todas ls (@Database.init_db R))
  /\ forall (ls' : list (Llamada R)) (ahora n : string) (c p : R) (cat : string) (i : Z),
       Database.producto_id
         (fst (Database.insertar_producto ahora n c p cat
                 (llamar_todas ls' (llamar_todas ls Database.init_db)))) = Some i ->
       Forall (fun f => (Database.id f < i)%Z)
              (Database.filas (llamar_todas ls Database.init_db)).
Proof.
  assert (H0 : tabla_consistente (@Database.init_db R)).
  { repeat split; constructor. }
  destruct (llamar_todas_consistente ls H0) as [Hc _].
  split; [exact Hc|].
  intros ls' ahora n c p cat i Hi.
  destruct (llamar_todas_consistente ls' Hc) as [_ Hle].
  unfold Database.insertar_producto in Hi.
  destruct (Database.seleccionar n _); cbn in Hi; [discriminate Hi|].
  inversion Hi; subst i.
  destruct Hc as [_ [_ Hids]].
  eapply Forall_impl; [|exact Hids]. cbn. intros f Hf. lia.
Qed.

End Consistencia.

Lemma string_ltb_de_leb (a b : string) :
  String.leb a b = true -> a <> b -> String.ltb a b = true.
Proof.
  unfold String.leb, String.ltb. intros Hle Hne.
  destruct (String.compare a b) eqn:E; try reflexivity; try discriminate Hle.
  apply String.compare_eq_iff in E. contradiction.
Qed.

Lemma Sorted_estricto (l : list string) :
  Sorted (fun a b => String.leb a b = true) l -> NoDup l ->
  Sorted (fun a b => String.ltb a b = true) l.
Proof.
  induction 1 as [|a l Hs IH Hhd]; intros Hnd; constructor.
  - apply IH. inversion Hnd; assumption.
  - destruct Hhd as [|b l Hab]; constructor.
    apply string_ltb_de_leb; [exact Hab|].
    inversion Hnd as [|? ? Hnot _]; subst. intros ->. apply Hnot. left. reflexivity.
Qed.

Lemma listar_estricto_NoDup {R} (t : Database.Tabla R) :
  NoDup (map (@Database.nombre R) (Database.filas t)) ->
  Sorted (fun a b => String.ltb a b = true)
         (map (@Database.l_nombre R) (Database.listar_productos t))
  /\ forall n, In n (map (@Database.l_nombre R) (Database.listar_productos t))
               <-> In n (map (@Database.nombre R) (Database.filas t)).
Proof.
  intros Hnd.
  assert (Hperm : Permutation (map (@Database.l_nombre R) (Database.listar_productos t))
                    (map (@Database.nombre R) (Database.filas t))).
  { unfold Database.listar_productos. rewrite map_map. cbn.
    apply Permutation_map, ordenar_por_Permutation. }
  split.
  - apply Sorted_estricto.
    + unfold Database.listar_productos. rewrite map_map. cbn.
      apply Sorted_map_inv with (f := @Database.nombre R).
      apply ordenar_por_Sorted. intros a b. apply String.leb_total.
    + eapply Permutation_NoDup; [apply Permutation_sym, Hperm | exact Hnd].
  - intros n. split; apply Permutation_in; [exact Hperm | apply Permutation_sym, Hperm].
Qed.

(** X7: whatever calls were made on a new database, [listar_productos] returns
    the names in strictly ascending byte order, so that no name is listed
    twice; a name is listed exactly when [buscar_producto] finds it. *)
Theorem listar_productos_estricto {R} (ls : list (Llamada R)) :
  let t := llamar_todas ls (@Database.init_db R) in
  Sorted (fun a b => String.ltb a b = true)
         (map (@Database.l_nombre R) (Database.listar_productos t))
  /\ forall n, In n (map (@Database.l_nombre R) (Database.listar_productos t))
               <-> Database.buscar_producto n t <> None.
Proof.
  intros t.
  assert (H0 : tabla_consistente (@Database.init_db R)).
  { repeat split; constructor. }
  destruct (llamar_todas_consistente ls H0) as [[Hnd _] _]. fold t in Hnd.
  destruct (listar_estricto_NoDup t Hnd) as [Hs Hin].
  split; [exact Hs|].
  intros n. rewrite Hin. unfold Database.buscar_producto. split.
  - intros Hn Hnone. exact (seleccionar_None_nombres _ _ Hnone Hn).
  - intros Hsome. destruct (Database.seleccionar n t) as [f|] eqn:E; [|congruence].
    apply seleccionar_Some in E. destruct E as [Hf En].
    apply in_map_iff. exists f. split; assumption.
Qed.

Lemma Q_redondear_2_tope (x : Q) (k : Z) :
  x <= inject_Z k -> Q_redondear 2 x <= inject_Z k.
Proof.
  intros Hx. rewrite Q_redondear_2.
  pose proof (medio_par_cerca (x * 100)) as [_ H2].
  assert (Hz : (medio_par (x * 100) <= 100 * k)%Z).
  { assert (Hlt : inject_Z (medio_par (x * 100)) < inject_Z (100 * k + 1)).
    { rewrite inject_Z_plus, inject_Z_mult.
      change (inject_Z 100) with (100 # 1). change (inject_Z 1) with 1. lra. }
    rewrite <- Zlt_Qlt in Hlt. lia. }
  rewrite Zle_Qle, inject_Z_mult in Hz. change (inject_Z 100) with (100 # 1) in Hz.
  apply Qle_shift_div_r; [reflexivity|]. lra.
Qed.



(** ** The theorems on the table at concrete tables *)

(** "frijol" is inserted into the table of "arroz" and "vacio". *)
Lemma insertar_luego_buscar_witness :
  Database.seleccionar "frijol" tabla_arroz_vacio = None
  /\ Database.buscar_producto "frijol"
       (snd (Database.insertar_producto "t4" "frijol" (5 # 1) (8 # 10) "Legumbres"
               tabla_arroz_vacio))
     = Some {| Database.id := 3; Database.nombre := "frijol";
               Database.cantidad := 5 # 1; Database.cantidad_inicial := 5 # 1;
               Database.precio := 8 # 10; Database.categoria := "Legumbres";
               Database.fecha_creacion := "t4";
               Database.fecha_actualizacion := "t4" |}.
Proof.
  split; [reflexivity|].
  exact (proj1 (proj2 (@insertar_luego_buscar Q tabla_arroz_vacio "t4" "frijol"
                         (5 # 1) (8 # 10) "Legumbres" eq_refl))).
Defined.

(** "frijol" is not in the table of "arroz" and "vacio"; "arroz" is. *)
Lemma borrar_luego_buscar_witness :
  Database.success (fst (Database.borrar_producto "frijol" tabla_arroz_vacio)) = false
  /\ Database.buscar_producto "arroz"
       (snd (Database.borrar_producto "arroz" tabla_arroz_vacio)) = None.
Proof.
  destruct (@borrar_luego_buscar Q tabla_arroz_vacio "frijol") as [Hno _].
  destruct (@borrar_luego_buscar Q tabla_arroz_vacio "arroz") as [_ Hsi].
  split.
  - rewrite (Hno eq_refl). reflexivity.
  - destruct (Database.seleccionar "arroz" tabla_arroz_vacio) as [f|] eqn:E;
      [|discriminate E].
    exact (proj1 (proj2 (Hsi f eq_refl))).
Defined.

(** "frijol" is inserted into the table of "arroz" and "vacio" and deleted;
    the next row gets the id 4. *)
Lemma insertar_luego_borrar_witness :
  Database.seleccionar "frijol" tabla_arroz_vacio = None
  /\ Database.filas
       (snd (Database.borrar_producto "frijol"
               (snd (Database.insertar_producto "t4" "frijol" (5 # 1) (8 # 10)
                       "Legumbres" tabla_arroz_vacio))))
     = Database.filas tabla_arroz_vacio.
Proof.
  split; [reflexivity|].
  exact (proj1 (@insertar_luego_borrar Q tabla_arroz_vacio "t4" "frijol"
                  (5 # 1) (8 # 10) "Legumbres" eq_refl)).
Defined.

(** The price of "arroz" is updated; "frijol" is not in the table. *)
Lemma actualizar_luego_buscar_witness :
  Database.success
    (fst (Database.actualizar_producto "t4" "frijol" (Some (1 # 1)) None
            tabla_arroz_vacio)) = false
  /\ Database.success
       (fst (Database.actualizar_producto "t4" "arroz" None (Some (15 # 10))
               tabla_arroz_vacio)) = true.
Proof.
  destruct (@actualizar_luego_buscar Q tabla_arroz_vacio "t4" "frijol"
              (Some (1 # 1)) None) as [Hno _].
  destruct (@actualizar_luego_buscar Q tabla_arroz_vacio "t4" "arroz"
              None (Some (15 # 10))) as [_ Hsi].
  split.
  - rewrite (Hno eq_refl). reflexivity.
  - destruct (Database.seleccionar "arroz" tabla_arroz_vacio) as [f|] eqn:E;
      [|discriminate E].
    exact (proj1 (Hsi f eq_refl)).
Defined.

(** After "arroz" and "frijol" are inserted and "arroz" is deleted, the
    next id is above the id of "frijol". *)
Lemma tabla_siempre_consistente_witness :
  Forall (fun f => (Database.id f < 3)%Z)
         (Database.filas
            (llamar_todas [LlInsertar "t1" "arroz" (100 # 1) (12 # 10) "Granos";
                           LlInsertar "t2" "frijol" (5 # 1) (8 # 10) "Legumbres";
                           LlBorrar "arroz"]
               (@Database.init_db Q))).
Proof.
  exact (proj2 (@tabla_siempre_consistente Q
                  [LlInsertar "t1" "arroz" (100 # 1) (12 # 10) "Granos";
                   LlInsertar "t2" "frijol" (5 # 1) (8 # 10) "Legumbres";
                   LlBorrar "arroz"])
               [] "t3" "sal" (1 # 1) (1 # 1) "General" 3%Z eq_refl).
Defined.


(** ** A new row and the low-stock list *)

Lemma nombres_bajos_In (t : Database.Tabla Q) (m : string) :
  In m (map (@Database.b_nombre Q) (Database.obtener_productos_bajos t))
  <-> exists f, In f (Database.filas t) /\ Database.es_bajo f = true
                /\ Database.nombre f = m.
Proof.
  unfold Database.obtener_productos_bajos. rewrite nombres_bajos, in_map_iff.
  split.
  - intros [f [Hn Hf]]. apply filas_bajas_In in Hf. exists f. tauto.
  - intros [f [Hf [Hlow Hn]]]. exists f. split; [exact Hn|].
    apply filas_bajas_In. tauto.
Qed.




(** ** The reports and the keys they index *)

Lemma secuenciar_Valor {A} (l : list (Bot.Quiza A)) :
  (exists r, Bot.secuenciar l = Bot.Valor r)
  <-> Forall (fun m => exists a, m = Bot.Valor a) l.
Proof.
  induction l as [|m l IH]; cbn [Bot.secuenciar].
  - split; [constructor | eauto].
  - split.
    + intros [r Hr]. destruct m as [a|e]; cbn [Bot.ligar] in Hr; [|discriminate Hr].
      destruct (Bot.secuenciar l) as [r'|e]; cbn [Bot.ligar] in Hr; [|discriminate Hr].
      constructor; [eauto | apply IH; eauto].
    + intros Hall. inversion Hall as [|? ? [a ->] Hl]; subst.
      apply IH in Hl. destruct Hl as [r ->]. cbn [Bot.ligar]. eauto.
Qed.

Lemma Forall_iff_local {A} (P Q : A -> Prop) (l : list A) :
  (forall x, P x <-> Q x) -> (Forall P l <-> Forall Q l).
Proof.
  intros HPQ. split; intros Hall; (eapply Forall_impl; [|exact Hall]);
    intros x; apply HPQ.
Qed.

Section Informes.
Context {R : Type} `{Aritmetica R} `{Builtins R}.

Lemma productos_bajo_stock_definido (inv : Bot.Inventario R) :
  (exists l, Bot.productos_bajo_stock inv = Bot.Valor l)
  <-> Forall (fun kv => Bot.cantidad (snd kv) <> None) inv.
Proof.
  induction inv as [|[n p] inv IH]; cbn [Bot.productos_bajo_stock].
  - split; [constructor | eauto].
  - split.
    + intros [l Hl]. destruct (Bot.cantidad p) as [c|] eqn:Hc;
        cbn [Bot.indice Bot.ligar] in Hl; [|discriminate Hl].
      destruct (Bot.productos_bajo_stock inv) as [r|e];
        cbn [Bot.ligar] in Hl; [|discriminate Hl].
      constructor; [cbn [snd]; congruence | apply IH; eauto].
    + intros Hall. inversion Hall as [|? ? Hp Hl]; subst. cbn [snd] in Hp.
      apply IH in Hl. destruct Hl as [r ->].
      destruct (Bot.cantidad p) as [c|]; [|congruence].
      cbn [Bot.indice Bot.ligar]. eauto.
Qed.

Lemma linea_de_definida (kv : string * Bot.Producto R) :
  (exists li, Bot.linea_de kv = Bot.Valor li) <-> producto_completo (snd kv).
Proof.
  unfold Bot.linea_de, producto_completo. split.
  - intros [li Hli].
    destruct (Bot.cantidad (snd kv)); cbn [Bot.indice Bot.ligar] in Hli;
      [|discriminate Hli].
    destruct (Bot.precio (snd kv)); cbn [Bot.indice Bot.ligar] in Hli;
      [|discriminate Hli].
    destruct (Bot.categoria (snd kv)); cbn [Bot.indice Bot.ligar] in Hli;
      [|discriminate Hli].
    repeat split; discriminate.
  - intros [H1 [H2 H3]].
    destruct (Bot.cantidad (snd kv)); [|congruence].
    destruct (Bot.precio (snd kv)); [|congruence].
    destruct (Bot.categoria (snd kv)); [|congruence].
    cbn [Bot.indice Bot.ligar]. eauto.
Qed.

Lemma total_definido (a : Bot.Archivo R) :
  (exists v, Bot.calcular_inventario_total a = Bot.Valor v)
  <-> Forall (fun kv => Bot.precio (snd kv) <> None /\ Bot.cantidad (snd kv) <> None)
             (Bot.cargar_inventario a).
Proof.
  unfold Bot.calcular_inventario_total.
  transitivity (exists r, Bot.secuenciar
     (map (fun kv : string * Bot.Producto R =>
             Bot.ligar (Bot.indice "precio" (Bot.precio (snd kv))) (fun p =>
             Bot.ligar (Bot.indice "cantidad" (Bot.cantidad (snd kv))) (fun c =>
             Bot.Valor (r_mult p (r_de_entero c)))))
          (Bot.cargar_inventario a)) = Bot.Valor r).
  - split.
    + intros [v Hv]. destruct (Bot.secuenciar _) as [r|e]; [eauto | discriminate Hv].
    + intros [r ->]. cbn [Bot.ligar]. eauto.
  - rewrite secuenciar_Valor, Forall_map. apply Forall_iff_local.
    intros kv. split.
    + intros [x Hx].
      destruct (Bot.precio (snd kv)); cbn [Bot.indice Bot.ligar] in Hx;
        [|discriminate Hx].
      destruct (Bot.cantidad (snd kv)); cbn [Bot.indice Bot.ligar] in Hx;
        [|discriminate Hx].
      split; discriminate.
    + intros [H1 H2].
      destruct (Bot.precio (snd kv)); [|congruence].
      destruct (Bot.cantidad (snd kv)); [|congruence].
      cbn [Bot.indice Bot.ligar]. eauto.
Qed.

Lemma mostrar_definido (ctx : Bot.Contexto R) :
  (exists r, Bot.mostrar_inventario ctx = Bot.Valor r)
  <-> Forall (fun kv => producto_completo (snd kv))
             (Bot.cargar_inventario (Bot.archivo ctx)).
Proof.
  unfold Bot.mostrar_inventario.
  destruct (Bot.cargar_inventario (Bot.archivo ctx)) as [|kv l] eqn:E.
  - split; [constructor | eauto].
  - transitivity (exists r, Bot.secuenciar (map Bot.linea_de (kv :: l)) = Bot.Valor r).
    + split.
      * intros [v Hv]. destruct (Bot.secuenciar _) as [r|e]; [eauto | discriminate Hv].
      * intros [r ->]. cbn [Bot.ligar]. eauto.
    + rewrite secuenciar_Valor, Forall_map. apply Forall_iff_local.
      intros kv'. apply linea_de_definida.
Qed.


End Informes.

(** ** A conversation raises no exception *)

Section Coherencia.
Context {R : Type} `{Aritmetica R} `{Builtins R}.

Lemma menu_handler_retorno (texto : string) (ctx : Bot.Contexto R) :
  Forall (fun kv => producto_completo (snd kv))
         (Bot.cargar_inventario (Bot.archivo ctx)) ->
  exists e, Bot.retorno (Bot.menu_handler texto ctx) = Bot.Valor e
            /\ (e = Bot.MENU \/ e = Bot.INSERTAR_NOMBRE
                \/ e = Bot.ACTUALIZAR_SELECCION \/ e = Bot.BORRAR_SELECCION).
Proof.
  intros Hall.
  pose proof (total_definido (Bot.archivo ctx)) as Ht.
  pose proof (productos_bajo_stock_definido
                (Bot.cargar_inventario (Bot.archivo ctx))) as Hs.
  pose proof (mostrar_definido ctx) as Hm.
  assert (Htotal : exists v, Bot.calcular_inventario_total (Bot.archivo ctx) = Bot.Valor v).
  { apply Ht. eapply Forall_impl; [|exact Hall].
    intros kv [H1 [H2 H3]]. split; assumption. }
  assert (Hstock : exists l, Bot.obtener_productos_bajo_stock (Bot.archivo ctx)
                             = Bot.Valor l).
  { apply Hs. eapply Forall_impl; [|exact Hall]. intros kv [H1 _]. exact H1. }
  assert (Hlist : exists r, Bot.mostrar_inventario ctx = Bot.Valor r).
  { apply Hm. exact Hall. }
  clear Ht Hs Hm.
  unfold Bot.menu_handler.
  destruct (String.eqb texto "📦 Insertar Producto");
    [eexists; split; [reflexivity | tauto]|].
  destruct (String.eqb texto "🔄 Actualizar Producto");
    [destruct (Bot.cargar_inventario (Bot.archivo ctx));
     eexists; (split; [reflexivity | tauto])|].
  destruct (String.eqb texto "🗑️ Borrar Producto");
    [destruct (Bot.cargar_inventario (Bot.archivo ctx));
     eexists; (split; [reflexivity | tauto])|].
  destruct (String.eqb texto "📊 Ver Inventario").
  { destruct Hlist as [r ->]. eexists; split; [reflexivity | tauto]. }
  destruct (String.eqb texto "⚠️ Stock Bajo").
  { unfold Bot.verificar_stock_bajo. destruct Hstock as [l ->].
    destruct l; eexists; (split; [reflexivity | tauto]). }
  destruct (String.eqb texto "💰 Costo Total").
  { destruct Htotal as [v ->]. eexists; split; [reflexivity | tauto]. }
  destruct (String.eqb texto "❓ Seguridad de Datos");
    eexists; (split; [reflexivity | tauto]).
Qed.

Lemma completo_dict_set (n : string) (p : Bot.Producto R) (inv : Bot.Inventario R) :
  producto_completo p ->
  Forall (fun kv => producto_completo (snd kv)) inv ->
  Forall (fun kv => producto_completo (snd kv)) (Bot.dict_set n p inv).
Proof.
  intros Hp Hall. apply Forall_forall. intros kv Hin.
  apply dict_set_In in Hin. destruct Hin as [->|Hin]; [exact Hp|].
  rewrite Forall_forall in Hall. apply Hall, Hin.
Qed.

Lemma manejador_coherente (e : Bot.Estado) (ahora texto : string)
    (ctx : Bot.Contexto R) :
  Forall (fun kv => producto_completo (snd kv))
         (Bot.cargar_inventario (Bot.archivo ctx)) ->
  borrador_listo e ctx ->
  exists e', Bot.retorno (Bot.manejador e ahora texto ctx) = Bot.Valor e'
             /\ Forall (fun kv => producto_completo (snd kv))
                  (Bot.cargar_inventario
                     (Bot.archivo (Bot.contexto (Bot.manejador e ahora texto ctx))))
             /\ borrador_listo e' (Bot.contexto (Bot.manejador e ahora texto ctx)).
Proof.
  intros Hall Hdraft. destruct e; cbn [Bot.manejador borrador_listo] in *.
  - destruct (menu_handler_retorno texto ctx Hall) as [e' [He' Hcases]].
    exists e'. rewrite menu_handler_contexto. split; [exact He'|]. split; [exact Hall|].
    destruct Hcases as [ -> | [ -> | [ -> | -> ] ] ]; exact I.
  - eexists. split; [reflexivity|]. split; [exact Hall|].
    cbn. discriminate.
  - unfold Bot.insertar_cantidad.
    destruct (py_int texto) as [c|];
      [|eexists; split; [reflexivity|]; split; [exact Hall | exact Hdraft]].
    destruct (c <? 0)%Z;
      [eexists; split; [reflexivity|]; split; [exact Hall | exact Hdraft]|].
    destruct (Bot.nuevo_producto (Bot.user_data ctx)) as [b|]; [|congruence].
    eexists. split; [reflexivity|]. split; [exact Hall|].
    cbn. eexists. split; [reflexivity|]. cbn. discriminate.
  - destruct Hdraft as [b [Hb Hc]].
    unfold Bot.insertar_precio.
    destruct (py_float texto) as [p|];
      [|eexists; split; [reflexivity|]; split; [exact Hall | cbn; eauto]].
    destruct (r_ltb p r_cero);
      [eexists; split; [reflexivity|]; split; [exact Hall | cbn; eauto]|].
    rewrite Hb.
    eexists. split; [reflexivity|]. split; [exact Hall|].
    cbn. eexists. split; [reflexivity|]. cbn. split; [exact Hc | discriminate].
  - destruct Hdraft as [b [Hb [Hc Hp]]].
    unfold Bot.insertar_categoria. rewrite Hb. cbn [Bot.cantidad Bot.precio Bot.nombre].
    destruct (Bot.cantidad b) as [c|] eqn:Ec; [|congruence].
    destruct (Bot.precio b) as [p|] eqn:Ep; [|congruence].
    eexists. split; [reflexivity|]. split; [|exact I].
    cbn [Bot.contexto Bot.archivo Bot.guardar_inventario Bot.cargar_inventario].
    apply completo_dict_set; [|exact Hall].
    unfold producto_completo. cbn. repeat split; discriminate.
  - unfold Bot.actualizar_seleccion.
    destruct (Bot.dict_get texto (Bot.cargar_inventario (Bot.archivo ctx)))
      as [p|] eqn:Hget;
      [|eexists; split; [reflexivity|]; split; [exact Hall | exact I]].
    pose proof (dict_get_In _ _ Hget) as Hin.
    rewrite Forall_forall in Hall. destruct (Hall _ Hin) as [Hc _]. cbn [snd] in Hc.
    destruct (Bot.cantidad p) as [c|]; [|congruence].
    eexists. split; [reflexivity|]. split; [apply Forall_forall; exact Hall|].
    cbn. exists texto. split; [reflexivity|]. rewrite Hget. discriminate.
  - destruct Hdraft as [n [Hn Hget]].
    unfold Bot.actualizar_cantidad.
    destruct (py_int texto) as [c|];
      [|eexists; split; [reflexivity|]; split; [exact Hall | cbn; eauto]].
    destruct (c <? 0)%Z;
      [eexists; split; [reflexivity|]; split; [exact Hall | cbn; eauto]|].
    rewrite Hn.
    destruct (Bot.dict_get n (Bot.cargar_inventario (Bot.archivo ctx)))
      as [p|] eqn:Hp; [|congruence].
    eexists. split; [reflexivity|]. split; [|exact I].
    cbn [Bot.contexto Bot.archivo Bot.guardar_inventario Bot.cargar_inventario].
    apply completo_dict_set; [|exact Hall].
    pose proof (dict_get_In _ _ Hp) as Hin.
    rewrite Forall_forall in Hall. destruct (Hall _ Hin) as [_ [Hpr Hcat]].
    unfold producto_completo. cbn. repeat split; [discriminate | exact Hpr | exact Hcat].
  - unfold Bot.borrar_producto.
    destruct (Bot.dict_get texto (Bot.cargar_inventario (Bot.archivo ctx)))
      as [p|];
      [|eexists; split; [reflexivity|]; split; [exact Hall | exact I]].
    eexists. split; [reflexivity|]. split; [|exact I].
    cbn [Bot.contexto Bot.archivo Bot.guardar_inventario Bot.cargar_inventario].
    apply Forall_forall. intros kv Hin. apply dict_del_In in Hin.
    rewrite Forall_forall in Hall. apply Hall, Hin.
Qed.

Lemma despachar_coherente (ahora : string) (u : Bot.Entrada) (s : Bot.Sesion R) :
  sesion_coherente s ->
  lanza ahora u s = false /\ sesion_coherente (fst (Bot.despachar ahora u s)).
Proof.
  intros [Hall Hdraft]. unfold lanza, Bot.despachar, Bot.seleccionar_manejador.
  destruct s as [[e|] ctx]; cbn [Bot.estado Bot.ctx_sesion] in *; destruct u as [t|c].
  - destruct (manejador_coherente e ahora t ctx Hall Hdraft) as [e' [He' [Hall' Hd']]].
    rewrite He'. split; [reflexivity|]. split; assumption.
  - destruct (String.eqb c "cancelar"); split; try reflexivity.
    + split; [exact Hall | exact I].
    + split; assumption.
  - split; [reflexivity|]. split; assumption.
  - destruct (String.eqb c "start"); split; try reflexivity.
    + split; [exact Hall | exact I].
    + split; [exact Hall | exact I].
Qed.

Lemma ejecutar_coherente (us : list (string * Bot.Entrada)) (s : Bot.Sesion R) :
  sesion_coherente s -> sesion_coherente (fst (Bot.ejecutar us s)).
Proof.
  revert s. induction us as [|[ahora u] us IH]; intros s Hs; cbn [Bot.ejecutar].
  - exact Hs.
  - destruct (despachar_coherente ahora u Hs) as [_ H1].
    destruct (Bot.despachar ahora u s) as [s1 r1]. cbn [fst] in H1.
    specialize (IH s1 H1).
    destruct (Bot.ejecutar us s1) as [s2 r2]. exact IH.
Qed.


End Coherencia.


(** ** Opening and leaving the conversation *)

Section Conversacion.
Context {R : Type} `{Aritmetica R} `{Builtins R}.

Lemma despachar_abierta (ahora : string) (u : Bot.Entrada) (s : Bot.Sesion R) :
  Bot.estado s <> None -> Bot.estado (fst (Bot.despachar ahora u s)) <> None.
Proof.
  unfold Bot.despachar, Bot.seleccionar_manejador.
  destruct s as [[e|] ctx]; cbn [Bot.estado Bot.ctx_sesion]; [|congruence].
  intros _. destruct u as [t|c].
  - cbn [fst Bot.estado]. destruct (Bot.retorno (Bot.manejador e ahora t ctx)); discriminate.
  - destruct (String.eqb c "cancelar"); cbn [fst Bot.estado]; discriminate.
Qed.

Lemma ejecutar_abierta (us : list (string * Bot.Entrada)) (s : Bot.Sesion R) :
  Bot.estado s <> None -> Bot.estado (fst (Bot.ejecutar us s)) <> None.
Proof.
  revert s. induction us as [|[ahora u] us IH]; intros s Hs; cbn [Bot.ejecutar].
  - exact Hs.
  - pose proof (despachar_abierta ahora u s Hs) as H1.
    destruct (Bot.despachar ahora u s) as [s1 r1]. cbn [fst] in H1.
    specialize (IH s1 H1).
    destruct (Bot.ejecutar us s1) as [s2 r2]. exact IH.
Qed.

(** X13: before [/start] the bot answers nothing and keeps nothing: a run
    without that command leaves the session as it was, with no reply.  Once
    the conversation is open it never closes (no handler returns the end of
    the conversation), and a further [/start] in it is not handled: nothing
    is answered and nothing changes. *)
Theorem conversacion_abierta (us : list (string * Bot.Entrada)) (s : Bot.Sesion R) :
  (Bot.estado s = None ->
   Forall (fun au => snd au <> Bot.Comando "start") us ->
   Bot.ejecutar us s = (s, []))
  /\ (Bot.estado s <> None ->
      Bot.estado (fst (Bot.ejecutar us s)) <> None
      /\ forall ahora,
           Bot.despachar ahora (Bot.Comando "start") (fst (Bot.ejecutar us s))
           = (fst (Bot.ejecutar us s), [])).
Proof.
  split.
  - intros Hnone Hall. induction Hall as [|[ahora u] us Hu _ IH]; [reflexivity|].
    cbn [Bot.ejecutar]. cbn [snd] in Hu.
    assert (Hd : Bot.despachar ahora u s = (s, [])).
    { unfold Bot.despachar, Bot.seleccionar_manejador. rewrite Hnone.
      destruct u as [t|c]; [reflexivity|].
      destruct (String.eqb_spec c "start") as [->|_]; [congruence | reflexivity]. }
    rewrite Hd, IH. reflexivity.
  - intros Hs. pose proof (ejecutar_abierta us s Hs) as Hopen.
    split; [exact Hopen|]. intros ahora.
    unfold Bot.despachar, Bot.seleccionar_manejador.
    destruct (Bot.estado (fst (Bot.ejecutar us s))) as [e|]; [|congruence].
    reflexivity.
Qed.

(** X14: [menu_handler] writes nothing.  It leaves [MENU] only on the three
    buttons of the flows, and on "update" and "delete" only when the document
    holds a product; a text that is none of the seven buttons is answered by
    nothing and stays in [MENU]. *)
Theorem menu_handler_transiciones (texto : string) (ctx : Bot.Contexto R) :
  Bot.contexto (Bot.menu_handler texto ctx) = ctx
  /\ (forall e, Bot.retorno (Bot.menu_handler texto ctx) = Bot.Valor e ->
        e <> Bot.MENU ->
        (texto = "📦 Insertar Producto" /\ e = Bot.INSERTAR_NOMBRE)
        \/ (Bot.cargar_inventario (Bot.archivo ctx) <> []
            /\ ((texto = "🔄 Actualizar Producto" /\ e = Bot.ACTUALIZAR_SELECCION)
                \/ (texto = "🗑️ Borrar Producto" /\ e = Bot.BORRAR_SELECCION))))
  /\ (~ In texto ["📦 Insertar Producto"; "🔄 Actualizar Producto";
                  "🗑️ Borrar Producto"; "📊 Ver Inventario"; "⚠️ Stock Bajo";
                  "💰 Costo Total"; "❓ Seguridad de Datos"] ->
      Bot.menu_handler texto ctx
      = {| Bot.retorno := Bot.Valor Bot.MENU; Bot.contexto := ctx;
           Bot.respuestas := [] |}).
Proof.
  split; [apply menu_handler_contexto|]. split.
  - intros e. unfold Bot.menu_handler.
    destruct (String.eqb_spec texto "📦 Insertar Producto") as [->|_].
    { cbn [Bot.retorno]. intros E _. inversion E. left. split; reflexivity. }
    destruct (String.eqb_spec texto "🔄 Actualizar Producto") as [->|_].
    { destruct (Bot.cargar_inventario (Bot.archivo ctx)) as [|kv l];
        cbn [Bot.retorno]; intros E Hne; inversion E; subst; [congruence|].
      right. split; [discriminate|]. left. split; reflexivity. }
    destruct (String.eqb_spec texto "🗑️ Borrar Producto") as [->|_].
    { destruct (Bot.cargar_inventario (Bot.archivo ctx)) as [|kv l];
        cbn [Bot.retorno]; intros E Hne; inversion E; subst; [congruence|].
      right. split; [discriminate|]. right. split; reflexivity. }
    unfold Bot.informe.
    destruct (String.eqb texto "📊 Ver Inventario").
    { destruct (Bot.mostrar_inventario ctx); cbn [Bot.retorno]; intros E Hne;
        inversion E; subst; congruence. }
    destruct (String.eqb texto "⚠️ Stock Bajo").
    { destruct (Bot.verificar_stock_bajo ctx); cbn [Bot.retorno]; intros E Hne;
        inversion E; subst; congruence. }
    destruct (String.eqb texto "💰 Costo Total").
    { destruct (Bot.ligar _ _); cbn [Bot.retorno]; intros E Hne;
        inversion E; subst; congruence. }
    destruct (String.eqb texto "❓ Seguridad de Datos");
      cbn [Bot.retorno]; intros E Hne; inversion E; subst; congruence.
  - intros Hno. unfold Bot.menu_handler.
    repeat match goal with
           | |- context [String.eqb texto ?l] =>
               destruct (String.eqb_spec texto l) as [->|_];
               [exfalso; apply Hno; cbn [In]; tauto|]
           end.
    reflexivity.
Qed.

End Conversacion.

(** The theorem at a session before [/start] receiving a text and
    [/cancelar], and at the session in which "banana" and "arroz" were
    inserted. *)
Lemma conversacion_abierta_witness :
  Bot.ejecutar (H0 := builtins_decimales)
    [("t0", Bot.Texto "📊 Ver Inventario"); ("t1", Bot.Comando "cancelar")]
    sesion_nueva
  = (sesion_nueva, [])
  /\ Bot.despachar (H0 := builtins_decimales) "t3" (Bot.Comando "start")
       sesion_banana_arroz
     = (sesion_banana_arroz, []).
Proof.
  split.
  - apply (@conversacion_abierta Q _ builtins_decimales
             [("t0", Bot.Texto "📊 Ver Inventario"); ("t1", Bot.Comando "cancelar")]
             sesion_nueva); [reflexivity|].
    repeat constructor; discriminate.
  - exact (proj2 (proj2 (@conversacion_abierta Q _ builtins_decimales []
                           sesion_banana_arroz)
                        ltac:(discriminate)) "t3").
Defined.

(** The theorem at the update button, on the document of "banana" and
    "arroz". *)
Lemma menu_handler_transiciones_witness :
  Bot.cargar_inventario (Bot.archivo (Bot.ctx_sesion sesion_banana_arroz)) <> []
  /\ Bot.retorno (Bot.menu_handler "🔄 Actualizar Producto"
                    (Bot.ctx_sesion sesion_banana_arroz))
     = Bot.Valor Bot.ACTUALIZAR_SELECCION.
Proof.
  destruct (proj1 (proj2 (@menu_handler_transiciones Q _
                            "🔄 Actualizar Producto"
                            (Bot.ctx_sesion sesion_banana_arroz)))
                  Bot.ACTUALIZAR_SELECCION eq_refl ltac:(discriminate))
    as [[Habs _] | [Hne _]].
  - discriminate Habs.
  - split; [exact Hne | reflexivity].
Defined.

(** ** What the flows write into the document *)

Section DictMas.
Variable V : Type.
Implicit Types (d : list (string * V)) (k : string) (v : V).

Lemma dict_get_del_eq k d : Bot.dict_get k (Bot.dict_del k d) = None.
Proof.
  unfold Bot.dict_del. induction d as [|[k' v'] d IH]; cbn [filter fst]; [reflexivity|].
  destruct (String.eqb k' k) eqn:E; cbn [negb]; [exact IH|].
  cbn [Bot.dict_get]. rewrite E. exact IH.
Qed.

Lemma dict_get_del_neq k k' d :
  k <> k' -> Bot.dict_get k' (Bot.dict_del k d) = Bot.dict_get k' d.
Proof.
  intros Hne. unfold Bot.dict_del.
  induction d as [|[k0 v0] d IH]; cbn [filter fst]; [reflexivity|].
  destruct (String.eqb_spec k0 k) as [->|Hk0]; cbn [negb Bot.dict_get].
  - apply String.eqb_neq in Hne. rewrite Hne. exact IH.
  - destruct (String.eqb k0 k'); [reflexivity | exact IH].
Qed.

Lemma dict_del_claves k d :
  map fst (Bot.dict_del k d) = filter (fun k' => negb (String.eqb k' k)) (map fst d).
Proof.
  unfold Bot.dict_del. induction d as [|[k' v'] d IH]; cbn [filter map fst];
    [reflexivity|].
  destruct (String.eqb k' k); cbn [negb map fst]; rewrite IH; reflexivity.
Qed.

Lemma dict_del_nuevo k v d :
  Bot.dict_get k d = None -> Bot.dict_del k (d ++ [(k, v)]) = d.
Proof.
  unfold Bot.dict_del. induction d as [|[k' v'] d IH]; cbn [app filter fst Bot.dict_get].
  - rewrite String.eqb_refl. reflexivity.
  - destruct (String.eqb k' k); [discriminate|].
    intros E. cbn [negb]. rewrite (IH E). reflexivity.
Qed.

Lemma dict_get_NoDup k v d :
  NoDup (map fst d) -> In (k, v) d -> Bot.dict_get k d = Some v.
Proof.
  induction d as [|[k' v'] d IH]; cbn [map fst Bot.dict_get]; intros Hnd Hin;
    [destruct Hin|].
  inversion Hnd as [|? ? Hnot Hnd']; subst.
  destruct Hin as [E|Hin].
  - inversion E; subst. rewrite String.eqb_refl. reflexivity.
  - destruct (String.eqb_spec k' k) as [->|_]; [|apply IH; assumption].
    exfalso. apply Hnot. apply in_map_iff. exists (k, v). split; [reflexivity | exact Hin].
Qed.

End DictMas.

Section Documento.
Context {R : Type} `{Aritmetica R} `{Builtins R}.

(** X15: the insert flow on a name the document does not hold appends the
    record at the end of the document, so the document lists the products
    in the order of their insertion; the delete flow on that name then gives
    back the document as it was. *)
Theorem insertar_y_borrar (ahora ahora' n tc tp cat : string) (c : Z) (p : R)
    (ctx : Bot.Contexto R) :
  Bot.dict_get n (Bot.cargar_inventario (Bot.archivo ctx)) = None ->
  py_int tc = Some c -> (0 <= c)%Z ->
  py_float tp = Some p -> r_ltb p r_cero = false ->
  let s1 := fst (Bot.ejecutar (guion_insertar ahora n tc tp cat)
                   (sesion_en Bot.MENU ctx)) in
  let s2 := fst (Bot.ejecutar (guion_borrar ahora' n) s1) in
  Bot.cargar_inventario (Bot.archivo (Bot.ctx_sesion s1))
  = Bot.cargar_inventario (Bot.archivo ctx) ++ [(n, producto_nuevo ahora n c p cat)]
  /\ Bot.estado s2 = Some Bot.MENU
  /\ Bot.cargar_inventario (Bot.archivo (Bot.ctx_sesion s2))
     = Bot.cargar_inventario (Bot.archivo ctx).
Proof.
  intros Hnone Hc Hpos Hp Hnn s1 s2.
  assert (E1 : s1 = sesion_en Bot.MENU
                      {| Bot.user_data := Bot.user_data_vacio;
                         Bot.archivo :=
                           Bot.guardar_inventario
                             (Bot.cargar_inventario (Bot.archivo ctx)
                              ++ [(n, producto_nuevo ahora n c p cat)]) |}).
  { subst s1. rewrite (ejecutar_guion_insertar ahora n tc tp cat ctx Hc Hpos Hp Hnn).
    cbn [fst]. rewrite (dict_set_nuevo _ _ _ Hnone). reflexivity. }
  split; [rewrite E1; reflexivity|].
  assert (Hget : Bot.dict_get n (Bot.cargar_inventario (Bot.archivo (Bot.ctx_sesion s1)))
                 = Some (producto_nuevo ahora n c p cat)).
  { rewrite E1. cbn [sesion_en Bot.ctx_sesion Bot.archivo Bot.guardar_inventario
                     Bot.cargar_inventario].
    rewrite <- (dict_set_nuevo _ _ _ Hnone). apply dict_get_set_eq. }
  subst s2. rewrite E1 in Hget |- *. unfold sesion_en at 1.
  fold (sesion_en Bot.MENU
          {| Bot.user_data := @Bot.user_data_vacio R;
             Bot.archivo :=
               Bot.guardar_inventario
                 (Bot.cargar_inventario (Bot.archivo ctx)
                  ++ [(n, producto_nuevo ahora n c p cat)]) |}).
  rewrite (ejecutar_guion_borrar ahora' n _ Hget).
  cbn [fst sesion_en Bot.estado Bot.ctx_sesion Bot.archivo Bot.guardar_inventario
       Bot.cargar_inventario].
  split; [reflexivity|]. apply dict_del_nuevo, Hnone.
Qed.

(** X16: the update flow changes the quantity of the selected product and
    nothing else: the names of the document and their order stay, the
    record of the product keeps every other key, and the record of every
    other name stays as it was. *)
Theorem actualizar_solo_cantidad (ahora n tc : string) (c c0 : Z)
    (prod : Bot.Producto R) (ctx : Bot.Contexto R) :
  Bot.dict_get n (Bot.cargar_inventario (Bot.archivo ctx)) = Some prod ->
  Bot.cantidad prod = Some c0 ->
  py_int tc = Some c -> (0 <= c)%Z ->
  let inv' := Bot.cargar_inventario
                (Bot.archivo
                   (Bot.ctx_sesion
                      (fst (Bot.ejecutar (guion_actualizar ahora n tc)
                              (sesion_en Bot.MENU ctx))))) in
  map fst inv' = map fst (Bot.cargar_inventario (Bot.archivo ctx))
  /\ Bot.dict_get n inv'
     = Some {| Bot.nombre := Bot.nombre prod; Bot.cantidad := Some c;
               Bot.cantidad_inicial := Bot.cantidad_inicial prod;
               Bot.precio := Bot.precio prod; Bot.categoria := Bot.categoria prod;
               Bot.fecha_creacion := Bot.fecha_creacion prod |}
  /\ forall m, m <> n ->
       Bot.dict_get m inv' = Bot.dict_get m (Bot.cargar_inventario (Bot.archivo ctx)).
Proof.
  intros Hget Hc0 Hc Hpos inv'. subst inv'.
  rewrite (ejecutar_guion_actualizar ahora n tc ctx Hget Hc0 Hc Hpos).
  cbn [fst sesion_en Bot.ctx_sesion Bot.archivo Bot.guardar_inventario
       Bot.cargar_inventario].
  split; [|split].
  - eapply dict_set_claves, Hget.
  - apply dict_get_set_eq.
  - intros m Hm. apply dict_get_set_neq. congruence.
Qed.

(** X17: the delete flow removes the record of the selected name and nothing
    else: afterwards the name is not found, the record of every other name
    and the order of the remaining names are as before; and, unlike the two
    other flows, it does not clear [user_data]. *)
Theorem borrar_solo_nombre (ahora n : string) (prod : Bot.Producto R)
    (ctx : Bot.Contexto R) :
  Bot.dict_get n (Bot.cargar_inventario (Bot.archivo ctx)) = Some prod ->
  let s' := fst (Bot.ejecutar (guion_borrar ahora n) (sesion_en Bot.MENU ctx)) in
  let inv' := Bot.cargar_inventario (Bot.archivo (Bot.ctx_sesion s')) in
  Bot.dict_get n inv' = None
  /\ (forall m, m <> n ->
        Bot.dict_get m inv' = Bot.dict_get m (Bot.cargar_inventario (Bot.archivo ctx)))
  /\ map fst inv'
     = filter (fun k => negb (String.eqb k n))
              (map fst (Bot.cargar_inventario (Bot.archivo ctx)))
  /\ Bot.user_data (Bot.ctx_sesion s') = Bot.user_data ctx.
Proof.
  intros Hget s' inv'. subst inv' s'.
  rewrite (ejecutar_guion_borrar ahora n ctx Hget).
  cbn [fst sesion_en Bot.ctx_sesion Bot.archivo Bot.guardar_inventario
       Bot.cargar_inventario Bot.user_data].
  split; [apply dict_get_del_eq|]. split; [|split; [apply dict_del_claves | reflexivity]].
  intros m Hm. apply dict_get_del_neq. congruence.
Qed.

End Documento.

(** ** Rejected input *)

Section Reintentos.
Context {R : Type} `{Aritmetica R} `{Builtins R}.

Lemma despachar_rechazado (ahora texto : string) (e : Bot.Estado)
    (ctx : Bot.Contexto R) :
  rechazado e ctx texto ->
  Bot.despachar ahora (Bot.Texto texto) (sesion_en e ctx)
  = (sesion_en e ctx, [mensaje_de_error e]).
Proof.
  intros Hr. unfold sesion_en. rewrite despachar_texto.
  destruct e; cbn [rechazado] in Hr; try contradiction; cbn [Bot.manejador].
  - rewrite insertar_cantidad_rechaza; [reflexivity|].
    destruct (py_int texto) as [c|]; [right; eauto | left; reflexivity].
  - rewrite insertar_precio_rechaza; [reflexivity|].
    destruct (py_float texto) as [p|]; [right; eauto | left; reflexivity].
  - unfold Bot.actualizar_seleccion. rewrite Hr. reflexivity.
  - rewrite actualizar_cantidad_rechaza; [reflexivity|].
    destruct (py_int texto) as [c|]; [right; eauto | left; reflexivity].
  - unfold Bot.borrar_producto. rewrite Hr. reflexivity.
Qed.


End Reintentos.

(** ** The alert of the update flow *)

Section Alerta.
Context `{Builtins Q}.


End Alerta.

(** ** The theorems on the document at concrete runs *)

(** "sal" is inserted into the document of "banana" and "arroz" and
    deleted again. *)
Lemma insertar_y_borrar_witness :
  Bot.dict_get "sal"
    (Bot.cargar_inventario (Bot.archivo (Bot.ctx_sesion sesion_banana_arroz))) = None
  /\ Bot.cargar_inventario
       (Bot.archivo
          (Bot.ctx_sesion
             (fst (Bot.ejecutar (H0 := builtins_decimales) (guion_borrar "t4" "sal")
                     (fst (Bot.ejecutar (H0 := builtins_decimales)
                             (guion_insertar "t3" "sal" "3" "0.25" "Otros")
                             (sesion_en Bot.MENU
                                (Bot.ctx_sesion sesion_banana_arroz))))))))
     = Bot.cargar_inventario (Bot.archivo (Bot.ctx_sesion sesion_banana_arroz)).
Proof.
  split; [reflexivity|].
  exact (proj2 (proj2 (@insertar_y_borrar Q _ builtins_decimales
                         "t3" "t4" "sal" "3" "0.25" "Otros" 3%Z (25 # 100)
                         (Bot.ctx_sesion sesion_banana_arroz)
                         eq_refl eq_refl ltac:(lia) eq_refl eq_refl))).
Defined.

(** "arroz" is updated to 7 in the document of "banana" and "arroz". *)
Lemma actualizar_solo_cantidad_witness :
  map fst
    (Bot.cargar_inventario
       (Bot.archivo
          (Bot.ctx_sesion
             (fst (Bot.ejecutar (H0 := builtins_decimales)
                     (guion_actualizar "t3" "arroz" "7")
                     (sesion_en Bot.MENU (Bot.ctx_sesion sesion_banana_arroz)))))))
  = ["banana"; "arroz"].
Proof.
  exact (proj1 (@actualizar_solo_cantidad Q _ builtins_decimales
                  "t3" "arroz" "7" 7%Z 100%Z _
                  (Bot.ctx_sesion sesion_banana_arroz)
                  eq_refl eq_refl eq_refl ltac:(lia))).
Defined.

(** "banana" is deleted from the document of "banana" and "arroz". *)
Lemma borrar_solo_nombre_witness :
  Bot.dict_get "banana"
    (Bot.cargar_inventario
       (Bot.archivo
          (Bot.ctx_sesion
             (fst (Bot.ejecutar (H0 := builtins_decimales) (guion_borrar "t3" "banana")
                     (sesion_en Bot.MENU (Bot.ctx_sesion sesion_banana_arroz)))))))
  = None.
Proof.
  exact (proj1 (@borrar_solo_nombre Q _ builtins_decimales "t3" "banana" _
                  (Bot.ctx_sesion sesion_banana_arroz) eq_refl)).
Defined.



(** ** The names of the document *)

Lemma dict_set_NoDup {V} (k : string) (v : V) (d : list (string * V)) :
  NoDup (map fst d) -> NoDup (map fst (Bot.dict_set k v d)).
Proof.
  intros Hnd. destruct (Bot.dict_get k d) as [v0|] eqn:E.
  - erewrite dict_set_claves; [exact Hnd | exact E].
  - rewrite (dict_set_nuevo _ _ _ E), map_app. cbn [map fst].
    apply NoDup_app; [exact Hnd | repeat constructor; intros [] |].
    intros x Hx [<-|[]]. exact (dict_get_None_claves _ _ E Hx).
Qed.

Lemma dict_del_NoDup {V} (k : string) (d : list (string * V)) :
  NoDup (map fst d) -> NoDup (map fst (Bot.dict_del k d)).
Proof. intros Hnd. rewrite dict_del_claves. apply NoDup_filter, Hnd. Qed.

Section Nombres.
Context {R : Type} `{Aritmetica R} `{Builtins R}.

Lemma manejador_sin_repetidos (e : Bot.Estado) (ahora texto : string)
    (ctx : Bot.Contexto R) :
  NoDup (map fst (Bot.cargar_inventario (Bot.archivo ctx))) ->
  NoDup (map fst (Bot.cargar_inventario
                    (Bot.archivo (Bot.contexto (Bot.manejador e ahora texto ctx))))).
Proof.
  intros Hnd.
  destruct e;
    try (rewrite manejador_archivo by discriminate; exact Hnd);
    cbn [Bot.manejador].
  - unfold Bot.insertar_categoria.
    destruct (Bot.nuevo_producto (Bot.user_data ctx)) as [b|]; [|exact Hnd].
    cbn [Bot.cantidad Bot.precio Bot.nombre].
    destruct (Bot.cantidad b); [destruct (Bot.precio b)|];
      cbn [Bot.contexto Bot.archivo Bot.guardar_inventario Bot.cargar_inventario];
      apply dict_set_NoDup, Hnd.
  - unfold Bot.actualizar_cantidad.
    destruct (py_int texto) as [c|]; [|exact Hnd].
    destruct (c <? 0)%Z; [exact Hnd|].
    destruct (Bot.producto_actualizar (Bot.user_data ctx)) as [n|]; [|exact Hnd].
    destruct (Bot.dict_get n _); [|exact Hnd].
    cbn [Bot.contexto Bot.archivo Bot.guardar_inventario Bot.cargar_inventario].
    apply dict_set_NoDup, Hnd.
  - unfold Bot.borrar_producto.
    destruct (Bot.dict_get texto _); [|exact Hnd].
    cbn [Bot.contexto Bot.archivo Bot.guardar_inventario Bot.cargar_inventario].
    apply dict_del_NoDup, Hnd.
Qed.

Lemma despachar_sin_repetidos (ahora : string) (u : Bot.Entrada) (s : Bot.Sesion R) :
  NoDup (map fst (Bot.cargar_inventario (Bot.archivo (Bot.ctx_sesion s)))) ->
  NoDup (map fst (Bot.cargar_inventario
                    (Bot.archivo (Bot.ctx_sesion (fst (Bot.despachar ahora u s)))))).
Proof.
  intros Hnd. unfold Bot.despachar, Bot.seleccionar_manejador.
  destruct (Bot.estado s) as [e|], u as [t|c]; cbn [fst Bot.ctx_sesion];
    try exact Hnd.
  - apply manejador_sin_repetidos, Hnd.
  - destruct (String.eqb c "cancelar"); cbn [fst Bot.ctx_sesion]; exact Hnd.
  - destruct (String.eqb c "start"); cbn [fst Bot.ctx_sesion]; exact Hnd.
Qed.

(** X20: the names of the document stay distinct along every run of the
    conversation, whatever is inserted, updated or deleted; so the listing
    of "Ver Inventario" never shows a name twice. *)
Theorem documento_sin_repetidos (us : list (string * Bot.Entrada)) (s : Bot.Sesion R) :
  NoDup (map fst (Bot.cargar_inventario (Bot.archivo (Bot.ctx_sesion s)))) ->
  let s' := fst (Bot.ejecutar us s) in
  NoDup (map fst (Bot.cargar_inventario (Bot.archivo (Bot.ctx_sesion s'))))
  /\ forall lineas,
       Bot.mostrar_inventario (Bot.ctx_sesion s')
       = Bot.Valor (Bot.InventarioCompleto lineas) ->
       NoDup (map (@Bot.li_nombre R) lineas).
Proof.
  intros Hnd s'.
  assert (Hnd' : NoDup (map fst (Bot.cargar_inventario
                                   (Bot.archivo (Bot.ctx_sesion s'))))).
  { subst s'. revert s Hnd.
    induction us as [|[ahora u] us IH]; intros s Hnd; cbn [Bot.ejecutar].
    - exact Hnd.
    - pose proof (despachar_sin_repetidos ahora u s Hnd) as H1.
      destruct (Bot.despachar ahora u s) as [s1 r1]. cbn [fst] in H1.
      specialize (IH s1 H1).
      destruct (Bot.ejecutar us s1) as [s2 r2]. exact IH. }
  split; [exact Hnd'|].
  intros lineas Hl. unfold Bot.mostrar_inventario in Hl.
  destruct (Bot.cargar_inventario (Bot.archivo (Bot.ctx_sesion s'))) as [|kv l] eqn:E;
    [discriminate Hl|].
  destruct (Bot.secuenciar (map Bot.linea_de (kv :: l))) as [ls|e] eqn:Hs;
    cbn [Bot.ligar] in Hl; [|discriminate Hl].
  inversion Hl; subst ls.
  erewrite secuenciar_map_fst; [exact Hnd' | | exact Hs].
  intros kv' b Hb. apply linea_de_nombre, Hb.
Qed.

End Nombres.

(** The theorem along the run that inserts "banana" twice, from a session
    without a document. *)
Lemma documento_sin_repetidos_witness :
  NoDup (map fst
           (Bot.cargar_inventario
              (Bot.archivo
                 (Bot.ctx_sesion
                    (fst (Bot.ejecutar (H0 := builtins_decimales)
                            ((("t0", Bot.Comando "start")
                              :: guion_insertar "t1" "banana" "5" "0.50" "Frutas")
                             ++ guion_insertar "t2" "banana" "7" "0.60" "Frutas")
                            (@sesion_nueva Q))))))).
Proof.
  exact (proj1 (@documento_sin_repetidos Q _ builtins_decimales
                  ((("t0", Bot.Comando "start")
                    :: guion_insertar "t1" "banana" "5" "0.50" "Frutas")
                   ++ guion_insertar "t2" "banana" "7" "0.60" "Frutas")
                  sesion_nueva (NoDup_nil _))).
Defined.


(** ** The configuration *)

Section Configuracion.
Context `{Builtins Q}.

Lemma Q_ltb_iff (x y : Q) : Q_ltb x y = true <-> x < y.
Proof.
  unfold Q_ltb. rewrite negb_true_iff. split.
  - intros E. apply Qnot_le_lt. intros Hle. apply Qle_bool_iff in Hle. congruence.
  - intros Hlt. destruct (Qle_bool y x) eqn:E; [|reflexivity].
    apply Qle_bool_iff in E. lra.
Qed.

Lemma en_rango_iff (p : Q) :
  r_ltb (r_de_entero 0) p && r_ltb p (r_de_entero 1) = true <-> 0 < p /\ p < 1.
Proof.
  cbn [r_ltb r_de_entero aritmetica_Q].
  rewrite andb_true_iff, !Q_ltb_iff.
  change (inject_Z 0) with 0. change (inject_Z 1) with 1. reflexivity.
Qed.

Lemma error_de_rango_iff (token : string) (p : Q) :
  In Config.PorcentajeFueraDeRango (Config.validar_configuracion token p)
  <-> ~ (0 < p /\ p < 1).
Proof.
  unfold Config.validar_configuracion. rewrite in_app_iff, <- en_rango_iff.
  destruct (r_ltb (r_de_entero 0) p && r_ltb p (r_de_entero 1)).
  - split.
    + intros [Hx|[]]. destruct (String.eqb token "TU_TOKEN_AQUI"); cbn [In] in Hx;
        [destruct Hx as [Hx|[]]; discriminate Hx | contradiction].
    + intros Hx. exfalso. apply Hx. reflexivity.
  - split; [intros _; discriminate | intros _; right; left; reflexivity].
Qed.


End Configuracion.

Section ConfiguracionToken.
Context {R : Type} `{Aritmetica R}.

(** X22: [validar_configuracion] reports the token only when it is the
    placeholder text: that is, when [TELEGRAM_TOKEN] is set to it, or is unset
    or empty while [TELEGRAM_BOT_TOKEN] is set to it.  A token that is
    missing altogether is the empty string and is not reported. *)
Theorem token_validado (token bot_token : option string) (p : R) :
  (In Config.TokenSinConfigurar
      (Config.validar_configuracion (Config.TELEGRAM_TOKEN token bot_token) p)
   <-> token = Some "TU_TOKEN_AQUI"
       \/ ((token = None \/ token = Some "") /\ bot_token = Some "TU_TOKEN_AQUI"))
  /\ ((token = None \/ token = Some "") -> (bot_token = None \/ bot_token = Some "") ->
      Config.TELEGRAM_TOKEN token bot_token = ""
      /\ ~ In Config.TokenSinConfigurar
              (Config.validar_configuracion (Config.TELEGRAM_TOKEN token bot_token) p)).
Proof.
  assert (Hin : forall t,
             In Config.TokenSinConfigurar (Config.validar_configuracion t p)
             <-> t = "TU_TOKEN_AQUI").
  { intros t. unfold Config.validar_configuracion. rewrite in_app_iff.
    destruct (String.eqb_spec t "TU_TOKEN_AQUI") as [->|Hne];
      destruct (r_ltb (r_de_entero 0) p && r_ltb p (r_de_entero 1));
      cbn [In]; split; intros Hx; try reflexivity; try (left; left; reflexivity);
      try contradiction;
      destruct Hx as [Hx|Hx]; try contradiction;
      destruct Hx as [Hx|Hx]; try contradiction; discriminate Hx. }
  split.
  - rewrite Hin. unfold Config.TELEGRAM_TOKEN, Config.o_bien.
    destruct token as [[|c r]|], bot_token as [[|c' r']|]; split; intros Hx;
      try discriminate Hx;
      try (left; congruence);
      try (right; split; [tauto | congruence]; fail);
      try (destruct Hx as [Hx|[[Hx|Hx] Hy]]; congruence).
  - intros Ht Hb. split.
    + destruct Ht as [->| ->], Hb as [->| ->]; reflexivity.
    + rewrite Hin. destruct Ht as [->| ->], Hb as [->| ->]; discriminate.
Qed.

End ConfiguracionToken.


(** The theorem with neither variable set. *)
Lemma token_validado_witness :
  Config.TELEGRAM_TOKEN None None = ""
  /\ ~ In Config.TokenSinConfigurar
          (Config.validar_configuracion (Config.TELEGRAM_TOKEN None None) (1 # 10)).
Proof.
  exact (proj2 (@token_validado Q _ None None (1 # 10))
               (or_introl eq_refl) (or_introl eq_refl)).
Defined.
